(** * Sarracenia flow callbacks: a shallow embedding

    This development embeds four pieces of the repository:

    - [sarra/flowcb/__init__.py]: [FlowCB.__init__] and [load_library],
    - [sarra/flowcb/msg/fdelay.py]: [FDelay.__init__] and [FDelay.on_messages],
    - [sarra/plugin/accel_wget.py]: [ACCEL_WGET.on_start], [on_messages],
      [do_get], [get_size] and [check_results],
    - [sarra/flow/report.py]: [Report.__init__].

    Python objects that are shared and mutated (option objects, messages) live
    in a store indexed by object identity; lists of messages hold identities.
    Code that can raise is written in a state-and-exception monad in which the
    state reached before the exception is kept, as it is in Python.

    Python floats are abstracted by exact rationals ([Q]); the comparisons the
    code performs on them are the only operations that matter here. Python
    strings are taken to be ASCII ([string]). *)

From Stdlib Require Import ZArith QArith String Ascii List Lia Permutation.
From stdpp Require Import base option list gmap strings.

Set Default Proof Using "Type".
Set Warnings "-register-all".

Local Open Scope string_scope.
Local Open Scope Z_scope.
Local Open Scope list_scope.

(** ** Python values, exceptions and results *)

(** Values found in option objects: the JSON-like fragment of Python.
    Dictionaries are keyed by strings and keep their insertion order. *)
Inductive pyval : Type :=
| VNone
| VBool (b : bool)
| VInt (z : Z)
| VFloat (q : Q)
| VStr (s : string)
| VList (l : list pyval)
| VDict (d : list (string * pyval)).

Inductive exn : Type :=
| KeyError (k : string)
| AttributeError (a : string)
| TypeError
| IndexError
| ValueError
| ImportError (m : string)
| FileNotFoundError (p : string)
| DanglingRef.

Inductive res (A : Type) : Type :=
| Ok (a : A)
| Raise (e : exn).
Arguments Ok {A} a.
Arguments Raise {A} e.

Definition is_ok {A} (r : res A) : bool :=
  match r with Ok _ => true | Raise _ => false end.

(** ** The state-and-exception monad

    [M S A] is a computation over a state [S] which ends with a value or an
    exception; in both cases the state reached so far is returned. *)
Definition M (S A : Type) : Type := S -> S * res A.

Definition ret {S A} (a : A) : M S A := fun s => (s, Ok a).

Definition bind {S A B} (c : M S A) (k : A -> M S B) : M S B :=
  fun s => match c s with
           | (s', Ok a) => k a s'
           | (s', Raise e) => (s', Raise e)
           end.

Definition raise {S A} (e : exn) : M S A := fun s => (s, Raise e).

Definition gets {S A} (f : S -> A) : M S A := fun s => (s, Ok (f s)).

Definition modify {S} (f : S -> S) : M S unit := fun s => (f s, Ok tt).

Definition lift {S A} (r : res A) : M S A := fun s => (s, r).

Definition from_option {A} (e : exn) (o : option A) : res A :=
  match o with Some a => Ok a | None => Raise e end.

Notation "'let!' x ':=' c 'in' k" := (bind c (fun x => k))
  (at level 10, x pattern, c at level 100, k at level 200).
Notation "c ;; k" := (bind c (fun _ => k))
  (at level 100, k at level 200, right associativity).

(** [for x in xs: body x], threading the state; an exception ends the loop. *)
Fixpoint for_each {S A} (xs : list A) (body : A -> M S unit) : M S unit :=
  match xs with
  | [] => ret tt
  | x :: xs' => body x ;; for_each xs' body
  end.

(** ** Strings *)

Definition startswith (p s : string) : bool := String.prefix p s.

Fixpoint str_contains (p s : string) : bool :=
  String.prefix p s ||
  match s with
  | EmptyString => false
  | String _ s' => str_contains p s'
  end.

Fixpoint endswith_char (c : ascii) (s : string) : bool :=
  match s with
  | EmptyString => false
  | String a EmptyString => Ascii.eqb a c
  | String _ s' => endswith_char c s'
  end.

(** [os.path.join(a, b)] of [posixpath]. *)
Definition os_path_join (a b : string) : string :=
  if startswith "/" b then b
  else if String.eqb a EmptyString || endswith_char "/" a then (a ++ b)%string
  else (a ++ "/" ++ b)%string.

(** [s.rsplit('.', 1)] followed by unpacking into two names: the text before
    the last dot and the text after it; no dot at all makes the unpacking
    fail with [ValueError]. *)
Fixpoint rsplit_dot (s : string) : option (string * string) :=
  match s with
  | EmptyString => None
  | String c s' =>
      match rsplit_dot s' with
      | Some (p, q) => Some (String c p, q)
      | None => if Ascii.eqb c "." then Some (EmptyString, s') else None
      end
  end.

Definition is_space (c : ascii) : bool :=
  let n := nat_of_ascii c in
  ((9 <=? n) && (n <=? 13))%nat || (n =? 32)%nat.

(** [s.split()]: the maximal runs of non-blank characters. *)
Fixpoint split_ws_aux (s : string) (cur : string) : list string :=
  match s with
  | EmptyString => if String.eqb cur EmptyString then [] else [cur]
  | String c s' =>
      if is_space c
      then (if String.eqb cur EmptyString then [] else [cur]) ++ split_ws_aux s' EmptyString
      else split_ws_aux s' (cur ++ String c EmptyString)%string
  end.
Definition str_split (s : string) : list string := split_ws_aux s EmptyString.

Definition is_digit (c : ascii) : bool :=
  let n := nat_of_ascii c in ((48 <=? n) && (n <=? 57))%nat.

Definition digit_val (c : ascii) : Z := Z.of_nat (nat_of_ascii c) - 48.

Fixpoint span_digits (s : string) : string * string :=
  match s with
  | String c s' =>
      if is_digit c then let (d, r) := span_digits s' in (String c d, r)
      else (EmptyString, s)
  | EmptyString => (EmptyString, EmptyString)
  end.

Fixpoint digits_val (s : string) (acc : Z) : Z :=
  match s with
  | EmptyString => acc
  | String c s' => digits_val s' (10 * acc + digit_val c)
  end.

(** [float(s)] for a string: blanks around the text are ignored, then an
    optional sign, then decimal digits with an optional fractional part.
    Anything else raises [ValueError]. Literals with exponents, underscores,
    [inf] and [nan] are outside this model and are rejected as well. *)
Fixpoint lstrip (s : string) : string :=
  match s with
  | String c s' => if is_space c then lstrip s' else s
  | EmptyString => EmptyString
  end.

Fixpoint all_space (s : string) : bool :=
  match s with
  | String c s' => is_space c && all_space s'
  | EmptyString => true
  end.

Fixpoint pow10 (n : nat) : positive :=
  match n with O => 1%positive | S n' => (10 * pow10 n')%positive end.

Definition unsigned_decimal (s : string) : option Q :=
  let (ip, r) := span_digits s in
  match r with
  | String "." r' =>
      let (fp, r'') := span_digits r' in
      if (String.eqb ip EmptyString && String.eqb fp EmptyString) || negb (all_space r'') then None
      else Some (Qmake (digits_val fp (digits_val ip 0))
                       (pow10 (String.length fp)))
  | _ =>
      if String.eqb ip EmptyString || negb (all_space r) then None
      else Some (inject_Z (digits_val ip 0))
  end.

Definition float_of_str (s : string) : option Q :=
  match lstrip s with
  | String "-" s' => Qopp <$> unsigned_decimal s'
  | String "+" s' => unsigned_decimal s'
  | s' => unsigned_decimal s'
  end.

(** ** Option objects

    An option object is its attribute dictionary; option objects are shared
    between the flow and its stages, so they live in a store and are handed
    around by identity. *)
Abbreviation loc := positive (only parsing).
Abbreviation options := (gmap string pyval) (only parsing).
Abbreviation ostore := (gmap positive (gmap string pyval)) (only parsing).

Definition hasattr (obj : options) (a : string) : bool :=
  bool_decide (is_Some (obj !! a)).

Definition getattr (obj : options) (a : string) : res pyval :=
  from_option (AttributeError a) (obj !! a).

Definition deref (l : loc) : M ostore options :=
  fun st => (st, from_option DanglingRef (st !! l)).

Definition has_attr (l : loc) (a : string) : M ostore bool :=
  let! obj := deref l in ret (hasattr obj a).

Definition load_attr (l : loc) (a : string) : M ostore pyval :=
  let! obj := deref l in lift (getattr obj a).

(** [setattr(l, a, v)], also written [l.a = v]. *)
Definition store_attr (l : loc) (a : string) (v : pyval) : M ostore unit :=
  let! obj := deref l in modify (fun st : ostore => <[l := <[a := v]> obj]> st).

(** ** Operations on values *)

Definition is_list (v : pyval) : bool :=
  match v with VList _ => true | _ => false end.

(** [type(v) in [int, float]]; the type of a boolean is [bool]. *)
Definition is_int_or_float (v : pyval) : bool :=
  match v with VInt _ | VFloat _ => true | _ => false end.

(** [v[0]] *)
Definition getitem0 (v : pyval) : res pyval :=
  match v with
  | VList (x :: _) => Ok x
  | VList [] => Raise IndexError
  | VStr (String c _) => Ok (VStr (String c EmptyString))
  | VStr EmptyString => Raise IndexError
  | VDict _ => Raise (KeyError "0")
  | _ => Raise TypeError
  end.

(** [float(v)] *)
Definition py_float (v : pyval) : res Q :=
  match v with
  | VInt z => Ok (inject_Z z)
  | VFloat q => Ok q
  | VBool b => Ok (if b then 1%Q else 0%Q)
  | VStr s => from_option ValueError (float_of_str s)
  | _ => Raise TypeError
  end.

(** [v.upper()] exists on strings only. *)
Definition py_upper (v : pyval) : res unit :=
  match v with VStr _ => Ok tt | _ => Raise (AttributeError "upper") end.

(** Truth value of [v] in a condition. *)
Definition truthy (v : pyval) : bool :=
  match v with
  | VNone => false
  | VBool b => b
  | VInt z => negb (z =? 0)
  | VFloat q => negb (Qeq_bool q 0)
  | VStr s => negb (String.eqb s EmptyString)
  | VList l => match l with [] => false | _ => true end
  | VDict d => match d with [] => false | _ => true end
  end.

Definition Qltb (x y : Q) : bool := negb (Qle_bool y x).

(** [x < v] for a float [x]: defined against numbers only. *)
Definition float_lt (x : Q) (v : pyval) : res bool :=
  match v with
  | VInt z => Ok (Qltb x (inject_Z z))
  | VFloat q => Ok (Qltb x q)
  | VBool b => Ok (Qltb x (if b then 1%Q else 0%Q))
  | _ => Raise TypeError
  end.

(** [z < v] for an integer [z]. *)
Definition int_lt (z : Z) (v : pyval) : res bool :=
  match v with
  | VInt t => Ok (z <? t)
  | VFloat q => Ok (Qltb (inject_Z z) q)
  | VBool b => Ok (z <? (if b then 1 else 0))
  | _ => Raise TypeError
  end.

(** ** Stage instances

    Every stage keeps the option object it was constructed with in [self.o]
    ([FlowCB.__init__], line 75; [FDelay.__init__], line 25). *)
Record instance : Type := Instance { class_name : string; o : loc }.

(** The two attribute reads of [logging.basicConfig(format=self.o.logFormat,
    level=getattr(logging, self.o.logLevel.upper()))]; the logging system
    itself is not modelled. *)
Definition basicConfig (self_o : loc) : M ostore unit :=
  let! _ := load_attr self_o "logFormat" in
  let! lvl := load_attr self_o "logLevel" in
  lift (py_upper lvl).

Module FlowCB.

Definition __init__ (options : loc) : M ostore unit :=
  basicConfig options.

End FlowCB.

(** ** Dictionaries, membership and iteration *)

Fixpoint dict_get (d : list (string * pyval)) (k : string) : option pyval :=
  match d with
  | [] => None
  | (k', v) :: d' => if String.eqb k' k then Some v else dict_get d' k
  end.

Definition dict_keys (d : list (string * pyval)) : list string := map fst d.

Fixpoint chars (s : string) : list string :=
  match s with
  | EmptyString => []
  | String c s' => String c EmptyString :: chars s'
  end.

(** [k in v] for a string [k]. *)
Definition py_contains (k : string) (v : pyval) : res bool :=
  match v with
  | VDict d => Ok (bool_decide (is_Some (dict_get d k)))
  | VList l =>
      Ok (existsb (fun x => match x with VStr s => String.eqb s k | _ => false end) l)
  | VStr s => Ok (str_contains k s)
  | _ => Raise TypeError
  end.

(** [v[k]] for a string [k]. *)
Definition getitem (v : pyval) (k : string) : res pyval :=
  match v with
  | VDict d => from_option (KeyError k) (dict_get d k)
  | _ => Raise TypeError
  end.

(** The values [for s in v] goes through. *)
Definition py_iter (v : pyval) : res (list pyval) :=
  match v with
  | VDict d => Ok (map VStr (dict_keys d))
  | VList l => Ok l
  | VStr s => Ok (map VStr (chars s))
  | _ => Raise TypeError
  end.

(** [k in l] for a list of strings. *)
Definition listed (k : string) (l : list string) : bool :=
  existsb (String.eqb k) l.
Arguments listed : simpl never.

(** A value used as a subscript or as an attribute name must be a string. *)
Definition as_name (v : pyval) : res string :=
  match v with VStr s => Ok s | _ => Raise TypeError end.

(** ** [load_library] *)

(** [copy.deepcopy(l)]: a new object with the same attribute values. Values
    are trees, so the copy shares nothing with the original. *)
Definition deepcopy (l : loc) : M ostore loc :=
  let! obj := deref l in
  fun st : ostore =>
    let l' := fresh (dom st) in (<[l' := obj]> st, Ok l').

(** A stage class: its name and what its constructor does to the option
    object it is given. *)
Record pyclass : Type := PyClass {
  cls_name : string;
  cls_init : loc -> M ostore unit
}.

(** [class_(opt)] *)
Definition instantiate (class_ : pyclass) (opt : loc) : M ostore instance :=
  cls_init class_ opt ;; ret (Instance (cls_name class_) opt).

Section LoadLibrary.

(** [importlib.import_module]: the modules that can be imported, each
    with the classes it defines. *)
Variable import_module : string -> option (string -> option pyclass).

(** [setattr(opt, s, options.settings[factory_path][s])] *)
Definition overlay_one (factory_path : string) (options opt : loc)
    (s : pyval) : M ostore unit :=
  let! settings := load_attr options "settings" in
  let! overlay := lift (getitem settings factory_path) in
  let! k := lift (as_name s) in
  let! v := lift (getitem overlay k) in
  store_attr opt k v.

(** Lines 246-253: the option object the stage is constructed with. *)
Definition resolve_options (factory_path : string) (options : loc)
    : M ostore loc :=
  let! has_settings := has_attr options "settings" in
  if has_settings then
    let! opt := deepcopy options in
    let! settings := load_attr options "settings" in
    let! present := lift (py_contains factory_path settings) in
    (if present then
       let! overlay := lift (getitem settings factory_path) in
       let! keys := lift (py_iter overlay) in
       for_each keys (overlay_one factory_path options opt)
     else ret tt) ;;
    ret opt
  else ret options.

Definition load_library (factory_path : string) (options : loc)
    : M ostore instance :=
  let! pc := lift (from_option ValueError (rsplit_dot factory_path)) in
  let packagename := fst pc in
  let classname := snd pc in
  let! module :=
    lift (from_option (ImportError packagename) (import_module packagename)) in
  let! class_ :=
    lift (from_option (AttributeError classname) (module classname)) in
  let! opt := resolve_options factory_path options in
  instantiate class_ opt.

End LoadLibrary.

(** ** Messages, worklists and the outside world *)

Record integrity_t : Type := Integrity {
  method : string;
  integrity_value : string
}.

Record blocks_t : Type := Blocks {
  blocks_method : string;
  blocks_size : Z;
  blocks_count : Z;
  blocks_remainder : Z;
  blocks_number : Z
}.

(** A message is a dictionary with the fields below. [msg_size], [blocks] and
    [isRetry] are keys that may be absent. *)
Record message : Type := Message {
  integrity : integrity_t;
  pubTime : string;
  baseUrl : string;
  relPath : string;
  new_dir : string;
  new_file : string;
  msg_size : option Z;
  blocks : option blocks_t;
  isRetry : option bool;
  _deleteOnPost : list string
}.

(** The four partitions hold message identities. *)
Record worklist : Type := Worklist {
  incoming : list loc;
  ok : list loc;
  rejected : list loc;
  failed : list loc
}.

(** What the code observes of its environment: the successive readings of the
    clock, and the modification time of the files that exist. *)
Record World : Type := {
  clock : nat -> Q;
  mtime : string -> option Z
}.

(** The state [on_messages] works on: the messages by identity, the worklist,
    and the number of clock readings taken so far. *)
Record fstate : Type := FState {
  msgs : gmap loc message;
  wl : worklist;
  ticks : nat
}.

Definition get_msg (m : loc) : M fstate message :=
  fun s => (s, from_option DanglingRef (msgs s !! m)).

Definition put_msg (m : loc) (msg : message) : M fstate unit :=
  modify (fun s => FState (<[m := msg]> (msgs s)) (wl s) (ticks s)).

Definition with_isRetry (b : bool) (msg : message) : message :=
  Message (integrity msg) (pubTime msg) (baseUrl msg) (relPath msg)
    (new_dir msg) (new_file msg) (msg_size msg) (blocks msg)
    (Some b) (_deleteOnPost msg).

Definition with_deleteOnPost (d : list string) (msg : message) : message :=
  Message (integrity msg) (pubTime msg) (baseUrl msg) (relPath msg)
    (new_dir msg) (new_file msg) (msg_size msg) (blocks msg)
    (isRetry msg) d.

(** [m['isRetry'] = b] *)
Definition set_isRetry (m : loc) (b : bool) : M fstate unit :=
  let! msg := get_msg m in put_msg m (with_isRetry b msg).

(** [m['_deleteOnPost'].append(k)] *)
Definition deleteOnPost_append (m : loc) (k : string) : M fstate unit :=
  let! msg := get_msg m in
  put_msg m (with_deleteOnPost (_deleteOnPost msg ++ [k]) msg).

(** [worklist.rejected.append(m)] *)
Definition rejected_append (m : loc) : M fstate unit :=
  modify (fun s =>
    let w := wl s in
    FState (msgs s)
      (Worklist (incoming w) (ok w) (rejected w ++ [m]) (failed w)) (ticks s)).

(** [worklist.failed.append(m)] *)
Definition failed_append (m : loc) : M fstate unit :=
  modify (fun s =>
    let w := wl s in
    FState (msgs s)
      (Worklist (incoming w) (ok w) (rejected w) (failed w ++ [m])) (ticks s)).

(** [worklist.incoming = l] *)
Definition set_incoming (l : list loc) : M fstate unit :=
  modify (fun s =>
    let w := wl s in
    FState (msgs s) (Worklist l (ok w) (rejected w) (failed w)) (ticks s)).

(** ** [FDelay] *)

Module FDelay.

Definition __init__ (options : loc) : M ostore unit :=
  let self_o := options in
  basicConfig self_o ;;
  let! h := has_attr self_o "msg_fdelay" in
  (if h then
     let! v := load_attr self_o "msg_fdelay" in store_attr self_o "fdelay" v
   else ret tt) ;;
  let! h := has_attr self_o "fdelay" in
  (if negb h then store_attr self_o "fdelay" (VInt 60) else ret tt) ;;
  let! v := load_attr self_o "fdelay" in
  (if is_list v then
     let! x := lift (getitem0 v) in store_attr self_o "fdelay" x
   else ret tt) ;;
  let! v := load_attr self_o "fdelay" in
  (if negb (is_int_or_float v) then
     let! x := lift (getitem0 v) in
     let! f := lift (py_float x) in
     store_attr self_o "fdelay" (VFloat f)
   else ret tt).

Section OnMessages.

(** [sarra.timestr2flt], which is not part of the sources at hand: the
    seconds since the epoch a time string denotes, if it is well formed. *)
Variable timestr2flt : string -> option Q.

Variable world : World.

(** [sarra.nowflt()]: each call takes the next reading of the clock. *)
Definition nowflt : M fstate Q :=
  fun s => (FState (msgs s) (wl s) (S (ticks s)), Ok (clock world (ticks s))).

(** [m['isRetry'] = False], then [_deleteOnPost] gets ['isRetry'] unless it
    is there already (lines 64-66 and 89-91). *)
Definition clear_retry (m : loc) : M fstate unit :=
  set_isRetry m false ;;
  let! msg := get_msg m in
  if negb (listed "isRetry" (_deleteOnPost msg))
  then deleteOnPost_append m "isRetry"
  else ret tt.

(** The file whose age is tested (lines 72-75). *)
Definition delay_file (msg : message) : string :=
  if str_contains "/cfr/" (new_dir msg)
  then os_path_join (new_dir msg) (new_file msg)
  else relPath msg.

(** The body of the loop of [on_messages] (lines 52-97); the value returned
    is the local list [outgoing] after this round. *)
Definition on_messages_body (self_o : options) (outgoing : list loc)
    (m : loc) : M fstate (list loc) :=
  let! msg := get_msg m in
  if String.eqb (method (integrity msg)) "remove" then
    rejected_append m ;; ret outgoing
  else
    let! now := nowflt in
    let! pub := lift (from_option ValueError (timestr2flt (pubTime msg))) in
    let elapsedtime := (now - pub)%Q in
    let! fdelay := lift (getattr self_o "fdelay") in
    let! young := lift (float_lt elapsedtime fdelay) in
    if young then
      clear_retry m ;; failed_append m ;; ret outgoing
    else
      let f := delay_file msg in
      match mtime world f with
      | None => failed_append m ;; ret outgoing
      | Some filetime =>
          let! now := nowflt in
          let elapsedtime := (now - inject_Z filetime)%Q in
          let! fdelay := lift (getattr self_o "fdelay") in
          let! young := lift (float_lt elapsedtime fdelay) in
          if young then
            clear_retry m ;; failed_append m ;; ret outgoing
          else
            ret (outgoing ++ [m])
      end.

Fixpoint on_messages_loop (self_o : options) (ms : list loc)
    (outgoing : list loc) : M fstate (list loc) :=
  match ms with
  | [] => ret outgoing
  | m :: ms' =>
      let! outgoing' := on_messages_body self_o outgoing m in
      on_messages_loop self_o ms' outgoing'
  end.

Definition on_messages (self_o : options) : M fstate unit :=
  let! w := gets wl in
  let! outgoing := on_messages_loop self_o (incoming w) [] in
  set_incoming outgoing.

End OnMessages.
End FDelay.

(** ** [ACCEL_WGET] *)

(** What a transfer does to the outside world, in the order it happens. *)
Inductive event : Type :=
| EvHttpsGet (remote_file local_file : string)
             (remote_offset local_offset length : Z)
| EvChdir (dir : string)
| EvPopen (cmd : list string)
| EvReportPublish (code : Z) (text : string)
| EvSetReport (code : Z) (text : string).

Definition emit (e : event) : M (list event) unit :=
  modify (fun tr => tr ++ [e]).

(** A [subprocess.Popen] object once [wait()] has returned. [stderr] is a
    stream only when the process was created with [stderr=PIPE]; it is [None]
    otherwise. *)
Record Popen : Type := {
  returncode : Z;
  stderr : option string
}.

(** The host a transfer runs on: what the built-in [Https.get] returns, the
    exit status of a command, and the size of the files that exist. *)
Record Host : Type := {
  https_get : string -> string -> Z -> Z -> Z -> res Z;
  exit_status : list string -> Z;
  st_size : string -> option Z
}.

(** [os.stat(path).st_size] *)
Definition os_stat_size (h : Host) (path : string) : res Z :=
  from_option (FileNotFoundError path) (st_size h path).

(** [\[([0-9]+)/[0-9]+\]] at the very start of [s]: the first group. *)
Definition progress_at (s : string) : option string :=
  match s with
  | String "[" r =>
      let (d1, r1) := span_digits r in
      match r1 with
      | String "/" r2 =>
          let (d2, r3) := span_digits r2 in
          match r3 with
          | String "]" _ =>
              if String.eqb d1 EmptyString || String.eqb d2 EmptyString then None else Some d1
          | _ => None
          end
      | _ => None
      end
  | _ => None
  end.

Definition is_newline (c : ascii) : bool := (nat_of_ascii c =? 10)%nat.

(** [re.match(r'.*\[([0-9]+)/[0-9]+\].*', s)], first group: [.] does not
    cross a line end and the leading [.*] is greedy, so the group comes from
    the last occurrence on the first line. *)
Fixpoint re_match_progress (s : string) (found : option string)
    : option string :=
  let found' := match progress_at s with Some d => Some d | None => found end in
  match s with
  | EmptyString => found'
  | String c s' =>
      if is_newline c then found' else re_match_progress s' found'
  end.

Module ACCEL_WGET.

(** Line 55: [self.scheme], from the keyword arguments of the constructor. *)
Definition scheme_of (kwargs : gmap string pyval) : pyval :=
  match kwargs !! "scheme" with
  | Some v => v
  | None => VStr "http"
  end.

Section Start.

(** [sarra.chunksize_from_str], which is not part of the sources at hand: the
    number of bytes a text such as [1M] denotes, if it is well formed. *)
Variable chunksize_from_str : string -> res Z.

Definition on_start (self_o : loc) (scheme : pyval) : M ostore bool :=
  let! h := has_attr self_o "accel_wget_command" in
  (if negb h
   then store_attr self_o "accel_wget_command" (VStr "/usr/bin/wget")
   else ret tt) ;;
  let! h := has_attr self_o "accel_wget_threshold" in
  (if negb h
   then store_attr self_o "accel_wget_threshold" (VStr "1M")
   else ret tt) ;;
  let! h := has_attr self_o "accel_wget_protocol" in
  (if negb h
   then store_attr self_o "accel_wget_protocol" scheme
   else ret tt) ;;
  let! t := load_attr self_o "accel_wget_threshold" in
  (match t with
   | VStr text =>
       let! n := lift (chunksize_from_str text) in
       store_attr self_o "accel_wget_threshold" (VInt n)
   | _ => ret tt
   end) ;;
  ret true.

End Start.

Section Stage.

(** [urllib.parse.urljoin] and [str(pathlib.Path(a, b))], from the Python
    library. *)
Variable urljoin : string -> string -> string.
Variable Path_str : string -> string -> string.

Variable host : Host.

Definition get_size (msg : message) : res Z :=
  match blocks msg with
  | Some b => Ok (blocks_size b)
  | None => from_option (KeyError "size") (msg_size msg)
  end.

(** [%d] accepts numbers only. *)
Definition format_d (v : pyval) : res unit :=
  match v with
  | VInt _ | VFloat _ | VBool _ => Ok tt
  | _ => Raise TypeError
  end.

(** The body of the loop of [on_messages] (lines 79-83). *)
Definition on_messages_body (self_o : options) (m : loc) : M fstate unit :=
  let! msg := get_msg m in
  if String.eqb (method (integrity msg)) "link"
     || String.eqb (method (integrity msg)) "remove"
  then ret tt
  else
    let! sz := lift (get_size msg) in
    let! threshold := lift (getattr self_o "accel_wget_threshold") in
    lift (format_d threshold).

Definition on_messages (self_o : options) : M fstate unit :=
  let! w := gets wl in
  for_each (incoming w) (on_messages_body self_o).

(** [hasattr(self.o, 'reportback') and self.o.reportback] *)
Definition reportback (self_o : options) : bool :=
  match self_o !! "reportback" with
  | Some v => truthy v
  | None => false
  end.

Definition check_results (self_o : options) (p : Popen) (msg : message)
    (fct : string -> res Z) (filepath : string) : M (list event) pyval :=
  (if negb (returncode p =? 0) then
     (if reportback self_o
      then emit (EvReportPublish 499 "wget download failed")
      else ret tt)
   else if reportback self_o then emit (EvSetReport 201 "Downloaded")
   else ret tt) ;;
  let! err := lift (from_option (AttributeError "read") (stderr p)) in
  match re_match_progress err None with
  | Some size => ret (VStr size)
  | None =>
      match fct filepath with
      | Ok size => ret (VInt size)
      | Raise (FileNotFoundError _) => ret (VInt 0)
      | Raise e => raise e
      end
  end.

(** [self.o.accel_wget_command.split()] *)
Definition split_command (v : pyval) : res (list string) :=
  match v with
  | VStr s => Ok (str_split s)
  | _ => Raise (AttributeError "split")
  end.

Definition do_get (self_o : options) (msg : message)
    (remote_file local_file : string)
    (remote_offset local_offset length : Z) : M (list event) pyval :=
  let! sz := lift (get_size msg) in
  let! threshold := lift (getattr self_o "accel_wget_threshold") in
  let! below := lift (int_lt sz threshold) in
  if below then
    emit (EvHttpsGet remote_file local_file remote_offset local_offset length) ;;
    let! n := lift (https_get host remote_file local_file
                      remote_offset local_offset length) in
    ret (VInt n)
  else
    emit (EvChdir (new_dir msg)) ;;
    let! command := lift (getattr self_o "accel_wget_command") in
    let! argv := lift (split_command command) in
    let cmd := argv ++ [urljoin (baseUrl msg) (relPath msg)] in
    emit (EvPopen cmd) ;;
    (* [subprocess.Popen(cmd)]: no pipe is asked for *)
    let p := {| returncode := exit_status host cmd; stderr := None |} in
    check_results self_o p msg (os_stat_size host)
      (Path_str (new_dir msg) (new_file msg)).

End Stage.
End ACCEL_WGET.

(** The modules of this repository whose classes are embedded here. *)
Definition sarra_modules (packagename : string)
    : option (string -> option pyclass) :=
  if String.eqb packagename "sarra.flowcb" then
    Some (fun c => if String.eqb c "FlowCB"
                   then Some (PyClass "FlowCB" FlowCB.__init__) else None)
  else if String.eqb packagename "sarra.flowcb.msg.fdelay" then
    Some (fun c => if String.eqb c "FDelay"
                   then Some (PyClass "FDelay" FDelay.__init__) else None)
  else None.


(** ** Specification vocabulary for [FDelay.on_messages] *)

(** A message after lines 64-66 (or 89-91): the retry flag is [False] and
    ['isRetry'] is listed in [_deleteOnPost]. *)
Definition cleared (msg : message) : message :=
  let msg' := with_isRetry false msg in
  if listed "isRetry" (_deleteOnPost msg') then msg'
  else with_deleteOnPost (_deleteOnPost msg' ++ ["isRetry"]) msg'.

Definition to_rejected (m : loc) (w : worklist) : worklist :=
  Worklist (incoming w) (ok w) (rejected w ++ [m]) (failed w).

Definition to_failed (m : loc) (w : worklist) : worklist :=
  Worklist (incoming w) (ok w) (rejected w) (failed w ++ [m]).

Definition is_number (v : pyval) : bool :=
  match v with VInt _ | VFloat _ | VBool _ => true | _ => false end.

(** The only change a run makes to a stored message is to clear its retry
    flag. *)
Definition evolves (h h' : gmap loc message) : Prop :=
  forall m,
    match h !! m with
    | Some msg => h' !! m = Some msg \/ h' !! m = Some (cleared msg)
    | None => h' !! m = None
    end.

(** A message identity is in exactly one of the three partitions. *)
Definition in_exactly_one (m : loc) (w : worklist) : Prop :=
  ((m ∈ incoming w) /\ (m ∉ rejected w) /\ (m ∉ failed w)) \/
  ((m ∉ incoming w) /\ (m ∈ rejected w) /\ (m ∉ failed w)) \/
  ((m ∉ incoming w) /\ (m ∉ rejected w) /\ (m ∈ failed w)).

Section FDelaySpec.

Variable timestr2flt : string -> option Q.
Variable world : World.
Variable self_o : gmap string pyval.

(** The ways one round of the loop can end for the message [msg] stored at
    [m], from the state [s] with the local list [out]. *)
Inductive round (m : loc) (msg : message) (s : fstate) (out : list loc)
    : fstate * res (list loc) -> Prop :=
| round_remove :
    method (integrity msg) = "remove" ->
    round m msg s out
      (FState (msgs s) (to_rejected m (wl s)) (ticks s), Ok out)
| round_pub_young pub fd :
    method (integrity msg) <> "remove" ->
    timestr2flt (pubTime msg) = Some pub ->
    self_o !! "fdelay" = Some fd ->
    float_lt (clock world (ticks s) - pub)%Q fd = Ok true ->
    round m msg s out
      (FState (<[m := cleared msg]> (msgs s)) (to_failed m (wl s))
         (S (ticks s)), Ok out)
| round_file_missing pub fd :
    method (integrity msg) <> "remove" ->
    timestr2flt (pubTime msg) = Some pub ->
    self_o !! "fdelay" = Some fd ->
    float_lt (clock world (ticks s) - pub)%Q fd = Ok false ->
    mtime world (FDelay.delay_file msg) = None ->
    round m msg s out
      (FState (msgs s) (to_failed m (wl s)) (S (ticks s)), Ok out)
| round_file_young pub fd t :
    method (integrity msg) <> "remove" ->
    timestr2flt (pubTime msg) = Some pub ->
    self_o !! "fdelay" = Some fd ->
    float_lt (clock world (ticks s) - pub)%Q fd = Ok false ->
    mtime world (FDelay.delay_file msg) = Some t ->
    float_lt (clock world (S (ticks s)) - inject_Z t)%Q fd = Ok true ->
    round m msg s out
      (FState (<[m := cleared msg]> (msgs s)) (to_failed m (wl s))
         (S (S (ticks s))), Ok out)
| round_forward pub fd t :
    method (integrity msg) <> "remove" ->
    timestr2flt (pubTime msg) = Some pub ->
    self_o !! "fdelay" = Some fd ->
    float_lt (clock world (ticks s) - pub)%Q fd = Ok false ->
    mtime world (FDelay.delay_file msg) = Some t ->
    float_lt (clock world (S (ticks s)) - inject_Z t)%Q fd = Ok false ->
    round m msg s out
      (FState (msgs s) (wl s) (S (S (ticks s))), Ok (out ++ [m]))
| round_raise e k :
    method (integrity msg) <> "remove" ->
    (timestr2flt (pubTime msg) = None
     \/ match self_o !! "fdelay" with
        | Some fd => is_number fd = false
        | None => True
        end) ->
    round m msg s out (FState (msgs s) (wl s) k, Raise e).

(** The publication-time test of line 60, made at the clock reading [k],
    comes out as [b]. *)
Definition pub_test (msg : message) (k : nat) (b : bool) : Prop :=
  exists pub fd,
    timestr2flt (pubTime msg) = Some pub /\
    self_o !! "fdelay" = Some fd /\
    float_lt (clock world k - pub)%Q fd = Ok b.

(** The file exists and the file-age test of line 85, made at the clock
    reading [k], comes out as [b]. *)
Definition file_test (msg : message) (k : nat) (b : bool) : Prop :=
  exists t fd,
    mtime world (FDelay.delay_file msg) = Some t /\
    self_o !! "fdelay" = Some fd /\
    float_lt (clock world k - inject_Z t)%Q fd = Ok b.

(** How a message identity came to be where it is, in terms of the store
    [h] before the run, the store [h'] after it, and the clock readings
    [lo], ..., [hi - 1] taken during the run. *)
Definition was_removal (h : gmap loc message) (m : loc) : Prop :=
  exists msg, h !! m = Some msg /\ method (integrity msg) = "remove".

Definition was_too_young (h h' : gmap loc message) (lo hi : nat) (m : loc)
    : Prop :=
  exists msg k,
    h !! m = Some msg /\ method (integrity msg) <> "remove" /\
    (lo <= k)%nat /\
    (((k < hi)%nat /\ pub_test msg k true) \/
     ((S k < hi)%nat /\ pub_test msg k false /\ file_test msg (S k) true)) /\
    h' !! m = Some (cleared msg).

Definition was_missing (h : gmap loc message) (lo hi : nat) (m : loc)
    : Prop :=
  exists msg k,
    h !! m = Some msg /\ method (integrity msg) <> "remove" /\
    (lo <= k)%nat /\ (k < hi)%nat /\
    pub_test msg k false /\ mtime world (FDelay.delay_file msg) = None.

Definition was_old_enough (h : gmap loc message) (lo hi : nat) (m : loc)
    : Prop :=
  exists msg k,
    h !! m = Some msg /\ method (integrity msg) <> "remove" /\
    (lo <= k)%nat /\ (S k < hi)%nat /\
    pub_test msg k false /\ file_test msg (S k) false.

(** What [on_messages] needs to run to its end: every incoming message is
    stored and, unless it is a removal, has a well-formed publication time
    and finds a number in [self.o.fdelay]. *)
Definition delay_set : bool :=
  match self_o !! "fdelay" with
  | Some fd => is_number fd
  | None => false
  end.

Definition msg_ready (h : gmap loc message) (m : loc) : bool :=
  match h !! m with
  | Some msg =>
      String.eqb (method (integrity msg)) "remove"
      || (bool_decide (is_Some (timestr2flt (pubTime msg))) && delay_set)
  | None => false
  end.

Definition ready (s : fstate) : bool :=
  forallb (msg_ready (msgs s)) (incoming (wl s)).

(** What a run has done so far: [fw] was forwarded, [rj] rejected and [fl]
    marked failed, in this order, and nothing else changed. *)
Definition progress (s s' : fstate) (fw rj fl : list loc) : Prop :=
  incoming (wl s') = incoming (wl s) /\
  ok (wl s') = ok (wl s) /\
  rejected (wl s') = rejected (wl s) ++ rj /\
  failed (wl s') = failed (wl s) ++ fl /\
  (ticks s <= ticks s')%nat /\
  evolves (msgs s) (msgs s') /\
  (forall m, m ∉ fl -> msgs s' !! m = msgs s !! m) /\
  Forall (was_old_enough (msgs s) (ticks s) (ticks s')) fw /\
  Forall (was_removal (msgs s)) rj /\
  Forall (fun m => was_too_young (msgs s) (msgs s') (ticks s) (ticks s') m \/
                   was_missing (msgs s) (ticks s) (ticks s') m) fl.

End FDelaySpec.

(** ** [Report] *)

Module Report.

(** What [Report.__init__] uses of a flow: its class, the plugin lists it
    keeps by kind, and its options. *)
Record flow : Type := Flow {
  flow_class : string;
  plugins : gmap string (list string);
  flow_o : gmap string pyval
}.

Definition default_options : list (string * pyval) :=
  [("accept_unmatched", VBool true); ("suppress_duplicates", VInt 0)].

Definition name : string := "report".

(** [self.plugins['load'].append(path)] *)
Definition load_append (path : string) : M flow unit :=
  fun self =>
    match plugins self !! "load" with
    | Some load =>
        (Flow (flow_class self) (<["load" := load ++ [path]]> (plugins self))
           (flow_o self), Ok tt)
    | None => (self, Raise (KeyError "load"))
    end.

(** [obj.__class__ = Report] *)
Definition assimilate : M flow unit :=
  modify (fun obj => Flow "Report" (plugins obj) (flow_o obj)).

Definition __init__ : M flow unit :=
  load_append "sarra.plugin.gather.message.Message" ;;
  let! o := gets flow_o in
  (if hasattr o "post_exchange"
   then load_append "sarra.plugin.post.message.Message"
   else ret tt) ;;
  assimilate.

End Report.

(** ** Specification vocabulary for [load_library] and [ACCEL_WGET] *)

(** The attributes of [cfg] after the options of the overlay [ov] named in
    [ks] have been set on it, one after the other. *)
Fixpoint overlay_keys (ov : list (string * pyval)) (ks : list string)
    (cfg : gmap string pyval) : gmap string pyval :=
  match ks with
  | [] => cfg
  | k :: ks' =>
      overlay_keys ov ks'
        (match dict_get ov k with Some v => <[k := v]> cfg | None => cfg end)
  end.

(** The declared size of a message, in the words of the specification: the
    size of the blocks descriptor when there is one, the flat size
    otherwise. *)
Definition declared_size (msg : message) : option Z :=
  match blocks msg with
  | Some b => Some (blocks_size b)
  | None => msg_size msg
  end.

(** ** More specification vocabulary *)


(** A computation on the store of option objects that writes to the object
    [l] only and removes no object. *)
Definition tidy_at {A} (l : positive) (c : M (gmap positive (gmap string pyval)) A)
    : Prop :=
  forall st,
    (forall l', l' <> l -> fst (c st) !! l' = st !! l') /\
    (forall l', is_Some (st !! l') -> is_Some (fst (c st) !! l')).

(** Stage classes whose constructors are tidy, and module tables that hold
    such classes only. *)
Definition tidy_class (c : pyclass) : Prop :=
  forall opt, tidy_at opt (cls_init c opt).

Definition tidy_modules
    (import_module : string -> option (string -> option pyclass)) : Prop :=
  forall pkg module cname c,
    import_module pkg = Some module -> module cname = Some c -> tidy_class c.

(** The fields of a message other than [isRetry] and [_deleteOnPost]. *)
Definition same_content (msg msg' : message) : Prop :=
  integrity msg' = integrity msg /\ pubTime msg' = pubTime msg /\
  baseUrl msg' = baseUrl msg /\ relPath msg' = relPath msg /\
  new_dir msg' = new_dir msg /\ new_file msg' = new_file msg /\
  msg_size msg' = msg_size msg /\ blocks msg' = blocks msg.

(** What [ACCEL_WGET.on_messages] needs of a message to get past it. *)
Definition accel_msg_ready (self_o : gmap string pyval)
    (h : gmap positive message) (m : positive) : bool :=
  match h !! m with
  | Some msg =>
      String.eqb (method (integrity msg)) "link"
      || String.eqb (method (integrity msg)) "remove"
      || (bool_decide (is_Some (declared_size msg))
          && match self_o !! "accel_wget_threshold" with
             | Some v => is_number v
             | None => false
             end)
  | None => false
  end.

(** The report [check_results] makes for an exit status. *)
Definition report_for (reportback : bool) (rc : Z) : list event :=
  if reportback then
    if rc =? 0 then [EvSetReport 201 "Downloaded"]
    else [EvReportPublish 499 "wget download failed"]
  else [].

(** [if not hasattr(o, a): o.a = d] *)
Definition set_default (a : string) (d : pyval) (obj : gmap string pyval)
    : gmap string pyval :=
  if hasattr obj a then obj else <[a := d]> obj.

(** The options after lines 62-68 of [ACCEL_WGET.on_start]. *)
Definition accel_defaults (scheme : pyval) (obj : gmap string pyval)
    : gmap string pyval :=
  set_default "accel_wget_protocol" scheme
    (set_default "accel_wget_threshold" (VStr "1M")
       (set_default "accel_wget_command" (VStr "/usr/bin/wget") obj)).

(** The three options [ACCEL_WGET.on_start] may write. *)
Definition accel_option (a : string) : bool :=
  String.eqb a "accel_wget_command" || String.eqb a "accel_wget_threshold"
  || String.eqb a "accel_wget_protocol".

(** A text made of decimal digits only. *)
Fixpoint all_digits (s : string) : bool :=
  match s with
  | EmptyString => true
  | String c s' => is_digit c && all_digits s'
  end.

(** The [load] list [Report.__init__] leaves behind. *)
Definition report_load (self : Report.flow) (load : list string)
    : list string :=
  load ++ ["sarra.plugin.gather.message.Message"]
       ++ (if hasattr (Report.flow_o self) "post_exchange"
           then ["sarra.plugin.post.message.Message"] else []).

(** ** Concrete instances used in the examples *)

(** Days between 1970-01-01 and the given day of the civil calendar. *)
Definition days_from_civil (y m d : Z) : Z :=
  let y' := if m <=? 2 then y - 1 else y in
  let era := y' / 400 in
  let yoe := y' - era * 400 in
  let mp := (m + 9) mod 12 in
  let doy := (153 * mp + 2) / 5 + d - 1 in
  let doe := yoe * 365 + yoe / 4 - yoe / 100 + doy in
  era * 146097 + doe - 719468.

Definition field (s : string) (start len : nat) : option Z :=
  let f := String.substring start len s in
  let (d, r) := span_digits f in
  if (String.length d =? len)%nat then Some (digits_val d 0) else None.

(** An instance of [timestr2flt]: publication times are written
    [YYYYMMDDhhmmss], optionally followed by a decimal fraction, in UTC. *)
Definition utc_timestr2flt (s : string) : option Q :=
  match field s 0 4, field s 4 2, field s 6 2,
        field s 8 2, field s 10 2, field s 12 2 with
  | Some y, Some mo, Some d, Some h, Some mi, Some sec =>
      if (1 <=? mo) && (mo <=? 12) && (1 <=? d) && (d <=? 31)
         && (h <? 24) && (mi <? 60) && (sec <? 60)
      then
        match float_of_str
                ("0" ++ String.substring 14 (String.length s - 14) s)%string with
        | Some frac =>
            Some (inject_Z (days_from_civil y mo d * 86400
                            + h * 3600 + mi * 60 + sec) + frac)%Q
        | None => None
        end
      else None
  | _, _, _, _, _, _ => None
  end.

(** A host clock that reads 00:01:40 on 2020-01-01 (UTC) and advances by one
    second per reading, and three files. *)
Definition ex_world : World := {|
  clock := fun k => inject_Z (1577836900 + Z.of_nat k);
  mtime := fun f =>
    if String.eqb f "/data/cfr/in/fresh.grib" then Some 1577836880
    else if String.eqb f "obs/ready.txt" then Some 1577830000
    else None
|}.

Definition ex_message (meth pub rel dir file : string) : message :=
  Message (Integrity meth "d41d8cd9") pub "http://example.org/" rel dir file
    (Some 500000) None (Some true) [].

(** A removal, a message published ten seconds before the first reading, a
    message whose file is not there, one whose file is twenty seconds old,
    and one that has waited long enough. *)
Definition ex_msgs : gmap positive message :=
  {[ 1%positive := ex_message "remove" "20200101000130" "obs/gone.txt" "/tmp" "gone.txt";
     2%positive := ex_message "sha512" "20200101000130" "obs/ready.txt" "/tmp" "ready.txt";
     3%positive := ex_message "sha512" "20191231235900" "obs/absent.txt" "/tmp" "absent.txt";
     4%positive := ex_message "sha512" "20191231235900.5" "obs/fresh.grib" "/data/cfr/in" "fresh.grib";
     5%positive := ex_message "sha512" "20191231235900" "obs/ready.txt" "/tmp" "ready.txt" ]}.

Definition ex_state : fstate :=
  FState ex_msgs (Worklist [1; 2; 3; 4; 5]%positive [] [] []) 0.

Definition ex_fdelay_options : gmap string pyval :=
  {[ "logFormat" := VStr "%(message)s"; "logLevel" := VStr "info";
     "fdelay" := VInt 60 ]}.

(** Flow-wide options with an overlay for [FDelay] and one for another
    stage, and the same options without any [settings]. *)
Definition ex_flow_options : gmap string pyval :=
  {[ "logFormat" := VStr "%(message)s"; "logLevel" := VStr "info";
     "fdelay" := VInt 30; "batch" := VInt 100;
     "settings" :=
       VDict [("sarra.flowcb.msg.fdelay.FDelay",
               VDict [("fdelay", VInt 5); ("batch", VInt 1)]);
              ("sarra.flowcb.FlowCB", VDict [("batch", VInt 7)])] ]}.

Definition ex_plain_options : gmap string pyval :=
  {[ "logFormat" := VStr "%(message)s"; "logLevel" := VStr "info" ]}.

(** A host on which every command fails and the destination file is not
    there, and the options of an accelerated stage. *)
Definition ex_host : Host := {|
  https_get := fun _ _ _ _ length => Ok length;
  exit_status := fun _ => 1;
  st_size := fun _ => None
|}.

(** Instances of [urljoin] and of [str(Path(dir, file))] that are right for
    the base addresses, directories and file names of the examples. *)
Definition ex_urljoin (base rel : string) : string := (base ++ rel)%string.

Definition ex_path_str (dir file : string) : string :=
  (dir ++ "/" ++ file)%string.

Definition ex_accel_options : gmap string pyval :=
  {[ "accel_wget_command" := VStr "/usr/bin/wget";
     "accel_wget_threshold" := VInt 1048576;
     "reportback" := VBool true ]}.

Definition ex_small_message : message :=
  Message (Integrity "sha512" "d41d8cd9") "20200101000000"
    "http://example.org/" "obs/small.txt" "/tmp" "small.txt"
    (Some 500000) None None [].

Definition ex_large_message : message :=
  Message (Integrity "sha512" "d41d8cd9") "20200101000000"
    "http://example.org/" "obs/large.grib" "/tmp" "large.grib"
    (Some 2000000) None None [].

Definition ex_accel_state : fstate :=
  FState {[ 1%positive := ex_small_message; 2%positive := ex_large_message ]}
    (Worklist [1; 2]%positive [] [] []) 0.

(** An instance of [chunksize_from_str] for the examples: digits followed by
    nothing, [k], [M] or [G]. *)
Definition ex_chunksize (text : string) : res Z :=
  let (d, r) := span_digits text in
  if String.eqb d EmptyString then Raise ValueError
  else if String.eqb r EmptyString then Ok (digits_val d 0)
  else if String.eqb r "k" then Ok (digits_val d 0 * 1024)
  else if String.eqb r "M" then Ok (digits_val d 0 * 1048576)
  else if String.eqb r "G" then Ok (digits_val d 0 * 1073741824)
  else Raise ValueError.

(** A module table with one class, whatever the names asked for. *)
Definition ex_any_module (pkg : string) : option (string -> option pyclass) :=
  Some (fun _ => Some (PyClass "FlowCB" FlowCB.__init__)).

(** A batch of removals only. *)
Definition ex_removals : fstate :=
  FState {[ 1%positive := Message (Integrity "remove" "x") "not a time"
                            "http://example.org/" "obs/a.txt" "/tmp" "a.txt"
                            None None None [];
            2%positive := Message (Integrity "remove" "y") "20200101000000"
                            "http://example.org/" "obs/b.txt" "/tmp" "b.txt"
                            None None (Some true) ["isRetry"] ]}
    (Worklist [2; 1]%positive [] [9]%positive []) 0.

(** A flow with two stages to load and a post exchange, and one without a
    [load] list. *)
Definition ex_flow : Report.flow :=
  Report.Flow "Flow"
    {[ "load" := ["sarra.plugin.retry.Retry"]; "on_start" := [] ]}
    {[ "post_exchange" := VStr "xpublic" ]}.

Definition ex_bare_flow : Report.flow :=
  Report.Flow "Flow" {[ "on_start" := [] ]} ∅.

(** * Properties *)

(** ** Comparisons and monadic steps *)

Lemma Qltb_lt (x y : Q) : Qltb x y = true <-> (x < y)%Q.
Proof.
  unfold Qltb. rewrite negb_true_iff.
  split; intros H.
  - apply Qnot_le_lt. intros Hle. apply Qle_bool_iff in Hle. congruence.
  - destruct (Qle_bool y x) eqn:E; [|done].
    apply Qle_bool_iff in E. exfalso. by apply (Qlt_not_le x y).
Qed.

Lemma float_lt_number (x : Q) (v : pyval) :
  is_number v = true -> exists b, float_lt x v = Ok b.
Proof. destruct v; simpl; try done; eauto. Qed.

Lemma float_lt_ok_number (x : Q) (v : pyval) (b : bool) :
  float_lt x v = Ok b -> is_number v = true.
Proof. by destruct v. Qed.

Ltac run_monad :=
  unfold bind, ret, lift, raise, gets, modify, from_option in *; simpl in *.

(** ** One round of [FDelay.on_messages] *)

Lemma on_messages_body_round timestr2flt world self_o out m s msg :
  msgs s !! m = Some msg ->
  round timestr2flt world self_o m msg s out
    (FDelay.on_messages_body timestr2flt world self_o out m s).
Proof.
  intros Hm. unfold FDelay.on_messages_body, get_msg.
  unfold bind at 1. simpl. rewrite Hm. simpl.
  destruct (String.eqb_spec (method (integrity msg)) "remove") as [Hr|Hr].
  { destruct s; apply round_remove; done. }
  unfold FDelay.nowflt. unfold bind at 1. simpl.
  destruct (timestr2flt (pubTime msg)) as [pub|] eqn:Hpub; run_monad;
    [|by apply round_raise; auto].
  unfold getattr.
  destruct (self_o !! "fdelay") as [fd|] eqn:Hfd; simpl;
    [|by apply round_raise; auto; right; rewrite Hfd].
  destruct (float_lt (clock world (ticks s) - pub) fd) as [young|e] eqn:Hy;
    [|apply round_raise; auto; right; rewrite Hfd;
      by destruct fd].
  destruct young.
  - unfold FDelay.clear_retry, set_isRetry, deleteOnPost_append, get_msg,
      put_msg, failed_append. run_monad. rewrite Hm. simpl.
    rewrite lookup_insert_eq. simpl.
    pose proof (round_pub_young timestr2flt world self_o m msg s out pub fd
                  Hr Hpub Hfd Hy) as R.
    unfold cleared in R. simpl in R.
    destruct (listed "isRetry" (_deleteOnPost msg)); simpl.
    + exact R.
    + rewrite lookup_insert_eq. simpl. rewrite insert_insert_eq. exact R.
  - destruct (mtime world (FDelay.delay_file msg)) as [t|] eqn:Hf.
    2:{ unfold failed_append. run_monad.
        eapply round_file_missing; eauto. }
    unfold FDelay.nowflt. run_monad.
    destruct (float_lt (clock world (S (ticks s)) - inject_Z t) fd)
      as [young|e] eqn:Hy2.
    2:{ apply float_lt_ok_number in Hy. by destruct fd. }
    destruct young.
    + unfold FDelay.clear_retry, set_isRetry, deleteOnPost_append, get_msg,
        put_msg, failed_append. run_monad. rewrite Hm. simpl.
      rewrite lookup_insert_eq. simpl.
      pose proof (round_file_young timestr2flt world self_o m msg s out pub fd t
                    Hr Hpub Hfd Hy Hf Hy2) as R.
      unfold cleared in R. simpl in R.
      destruct (listed "isRetry" (_deleteOnPost msg)); simpl.
      * exact R.
      * rewrite lookup_insert_eq. simpl. rewrite insert_insert_eq. exact R.
    + eapply round_forward; eauto.
Qed.

(** ** Stored messages along a run *)

Lemma cleared_method msg :
  method (integrity (cleared msg)) = method (integrity msg).
Proof. unfold cleared. by destruct (listed _ _). Qed.

Lemma cleared_pubTime msg : pubTime (cleared msg) = pubTime msg.
Proof. unfold cleared. by destruct (listed _ _). Qed.

Lemma cleared_delay_file msg :
  FDelay.delay_file (cleared msg) = FDelay.delay_file msg.
Proof. unfold cleared. by destruct (listed _ _). Qed.

Lemma cleared_isRetry msg : isRetry (cleared msg) = Some false.
Proof. unfold cleared. by destruct (listed _ _). Qed.

Lemma listed_app_same k l : listed k (l ++ [k]) = true.
Proof.
  unfold listed. rewrite existsb_app. simpl.
  rewrite String.eqb_refl. by rewrite orb_true_r.
Qed.

Lemma cleared_listed msg : listed "isRetry" (_deleteOnPost (cleared msg)) = true.
Proof.
  unfold cleared. simpl.
  destruct (listed "isRetry" (_deleteOnPost msg)) eqn:E; simpl; [done|].
  apply listed_app_same.
Qed.

Lemma cleared_idem msg : cleared (cleared msg) = cleared msg.
Proof.
  unfold cleared at 1. simpl.
  change (_deleteOnPost (with_isRetry false (cleared msg)))
    with (_deleteOnPost (cleared msg)).
  rewrite cleared_listed.
  unfold cleared. by destruct (listed _ _).
Qed.

Lemma evolves_refl h : evolves h h.
Proof. intros m. destruct (h !! m); auto. Qed.

Lemma evolves_trans h1 h2 h3 : evolves h1 h2 -> evolves h2 h3 -> evolves h1 h3.
Proof.
  intros H12 H23 m. specialize (H12 m). specialize (H23 m).
  destruct (h1 !! m) as [msg|].
  - destruct H12 as [E|E]; rewrite E in H23; [done|].
    rewrite cleared_idem in H23. destruct H23; auto.
  - by rewrite H12 in H23.
Qed.

Lemma evolves_clear h m msg :
  h !! m = Some msg -> evolves h (<[m := cleared msg]> h).
Proof.
  intros Hm l. destruct (decide (m = l)) as [->|Hne].
  - rewrite Hm, lookup_insert_eq. auto.
  - rewrite lookup_insert_ne by done. destruct (h !! l); auto.
Qed.

Lemma evolves_cleared h h' m msg :
  evolves h h' -> h !! m = Some (cleared msg) -> h' !! m = Some (cleared msg).
Proof.
  intros H Hm. specialize (H m). rewrite Hm in H.
  rewrite cleared_idem in H. by destruct H.
Qed.

(** Going back along a run: what is stored afterwards is the message stored
    before, or its cleared form. *)
Lemma evolves_back h h' m msg' :
  evolves h h' -> h' !! m = Some msg' ->
  exists msg, h !! m = Some msg /\ (msg' = msg \/ msg' = cleared msg).
Proof.
  intros H Hm. specialize (H m). destruct (h !! m) as [msg|].
  - exists msg. split; [done|]. destruct H as [E|E]; rewrite E in Hm;
      injection Hm as <-; auto.
  - congruence.
Qed.

Section FDelayRun.

Variable timestr2flt : string -> option Q.
Variable world : World.
Variable self_o : gmap string pyval.

Local Abbreviation pubT := (pub_test timestr2flt world self_o).
Local Abbreviation fileT := (file_test world self_o).
Local Abbreviation young := (was_too_young timestr2flt world self_o).
Local Abbreviation missing := (was_missing timestr2flt world self_o).
Local Abbreviation old_enough := (was_old_enough timestr2flt world self_o).
Local Abbreviation rdy := (msg_ready timestr2flt self_o).
Local Abbreviation prog := (progress timestr2flt world self_o).
Local Abbreviation body := (FDelay.on_messages_body timestr2flt world self_o).
Local Abbreviation loop := (FDelay.on_messages_loop timestr2flt world self_o).

Lemma pub_test_stage msg msg' k b :
  msg' = msg \/ msg' = cleared msg -> pubT msg' k b -> pubT msg k b.
Proof.
  intros [->| ->]; [done|]. unfold pub_test.
  by rewrite cleared_pubTime.
Qed.

Lemma file_test_stage msg msg' k b :
  msg' = msg \/ msg' = cleared msg -> fileT msg' k b -> fileT msg k b.
Proof.
  intros [->| ->]; [done|]. unfold file_test.
  by rewrite cleared_delay_file.
Qed.

Lemma method_stage msg msg' :
  msg' = msg \/ msg' = cleared msg ->
  method (integrity msg') = method (integrity msg).
Proof. intros [->| ->]; [done|]. apply cleared_method. Qed.

Lemma cleared_stage msg msg' :
  msg' = msg \/ msg' = cleared msg -> cleared msg' = cleared msg.
Proof. intros [->| ->]; [done|]. apply cleared_idem. Qed.

(** The two tests are functions of the message and of the clock reading. *)
Lemma pub_test_fun msg k b b' : pubT msg k b -> pubT msg k b' -> b = b'.
Proof.
  intros (pub & fd & Hp & Hfd & Hlt) (pub' & fd' & Hp' & Hfd' & Hlt').
  congruence.
Qed.

Lemma file_test_fun msg k b b' : fileT msg k b -> fileT msg k b' -> b = b'.
Proof.
  intros (t & fd & Hp & Hfd & Hlt) (t' & fd' & Hp' & Hfd' & Hlt').
  congruence.
Qed.

Lemma was_removal_back h h1 m :
  evolves h h1 -> was_removal h1 m -> was_removal h m.
Proof.
  intros He (msg1 & Hm & Hr).
  destruct (evolves_back _ _ _ _ He Hm) as (msg & Hm0 & Hst).
  exists msg. split; [done|]. by rewrite <- (method_stage _ _ Hst).
Qed.

Lemma was_too_young_mono h h1 h' h'' lo lo' hi hi' m :
  evolves h h1 -> evolves h' h'' -> (lo' <= lo)%nat -> (hi <= hi')%nat ->
  young h1 h' lo hi m -> young h h'' lo' hi' m.
Proof.
  intros He He' Hlo Hhi (msg1 & k & Hm & Hr & Hk & Ht & Hc).
  destruct (evolves_back _ _ _ _ He Hm) as (msg & Hm0 & Hst).
  exists msg, k. split; [done|].
  rewrite <- (method_stage _ _ Hst), <- (cleared_stage _ _ Hst).
  split; [done|]. split; [lia|]. split.
  - destruct Ht as [[Hk1 Ht]|(Hk1 & Ht1 & Ht2)]; [left|right].
    + split; [lia|]. by eapply pub_test_stage.
    + split; [lia|]. eauto using pub_test_stage, file_test_stage.
  - by apply (evolves_cleared h').
Qed.

Lemma was_missing_mono h h1 lo lo' hi hi' m :
  evolves h h1 -> (lo' <= lo)%nat -> (hi <= hi')%nat ->
  missing h1 lo hi m -> missing h lo' hi' m.
Proof.
  intros He Hlo Hhi (msg1 & k & Hm & Hr & Hk1 & Hk2 & Ht & Hf).
  destruct (evolves_back _ _ _ _ He Hm) as (msg & Hm0 & Hst).
  exists msg, k. split; [done|].
  rewrite <- (method_stage _ _ Hst).
  split; [done|]. split; [lia|]. split; [lia|].
  split; [by eapply pub_test_stage|].
  destruct Hst as [->| ->]; [done|]. by rewrite cleared_delay_file in Hf.
Qed.

Lemma was_old_enough_mono h h1 lo lo' hi hi' m :
  evolves h h1 -> (lo' <= lo)%nat -> (hi <= hi')%nat ->
  old_enough h1 lo hi m -> old_enough h lo' hi' m.
Proof.
  intros He Hlo Hhi (msg1 & k & Hm & Hr & Hk1 & Hk2 & Ht & Hf).
  destruct (evolves_back _ _ _ _ He Hm) as (msg & Hm0 & Hst).
  exists msg, k. split; [done|].
  rewrite <- (method_stage _ _ Hst).
  split; [done|]. split; [lia|]. split; [lia|].
  eauto using pub_test_stage, file_test_stage.
Qed.

Lemma msg_ready_on h h1 m :
  evolves h h1 -> rdy h m = true -> rdy h1 m = true.
Proof.
  intros He. specialize (He m). unfold msg_ready.
  destruct (h !! m) as [msg|]; [|done].
  destruct He as [-> | ->]; [done|].
  by rewrite cleared_method, cleared_pubTime.
Qed.

Local Ltac progress_frame :=
  unfold progress; simpl; rewrite ?app_nil_r;
  split_and!; try done; try lia;
  try apply evolves_refl; try (by apply evolves_clear);
  try (by constructor);
  try (by intros ? ?; apply lookup_insert_ne; auto).

Lemma progress_round out m s :
  rdy (msgs s) m = true ->
  exists s1 fw rj fl,
    body out m s = (s1, Ok (out ++ fw)) /\
    prog s s1 fw rj fl /\
    [m] ≡ₚ fw ++ rj ++ fl.
Proof.
  intros Hr. unfold msg_ready in Hr.
  destruct (msgs s !! m) as [msg|] eqn:Hm; [|done].
  pose proof (on_messages_body_round timestr2flt world self_o out m s msg Hm)
    as R.
  assert (Hfresh : forall l : loc, l ∉ [m] -> m <> l) by set_solver.
  assert (Hm' : msgs s !! m = Some msg) by done.
  inversion R as [Hrm Heq|pub fd Hrm Hp Hfd Hy Heq|pub fd Hrm Hp Hfd Hy Hf Heq
                 |pub fd t Hrm Hp Hfd Hy Hf Hy2 Heq
                 |pub fd t Hrm Hp Hfd Hy Hf Hy2 Heq|e k Hrm Hbad Heq].
  - eexists _, [], [m], []. rewrite app_nil_r. split; [done|].
    split; [|done].
    progress_frame.
    apply Forall_singleton. by exists msg.
  - eexists _, [], [], [m]. rewrite app_nil_r. split; [done|].
    split; [|done].
    progress_frame.
    apply Forall_singleton. left. exists msg, (ticks s).
    repeat split; try done.
    + left. split; [lia|]. by exists pub, fd.
    + by rewrite lookup_insert_eq.
  - eexists _, [], [], [m]. rewrite app_nil_r. split; [done|].
    split; [|done].
    progress_frame.
    apply Forall_singleton. right. exists msg, (ticks s).
    repeat split; try done; [lia|]. by exists pub, fd.
  - eexists _, [], [], [m]. rewrite app_nil_r. split; [done|].
    split; [|done].
    progress_frame.
    apply Forall_singleton. left. exists msg, (ticks s).
    repeat split; try done.
    + right. split; [lia|]. split; [by exists pub, fd | by exists t, fd].
    + by rewrite lookup_insert_eq.
  - eexists _, [m], [], []. split; [done|].
    split; [|done].
    progress_frame.
    apply Forall_singleton. exists msg, (ticks s).
    repeat split; try done; [lia | by exists pub, fd | by exists t, fd].
  - exfalso. unfold delay_set in Hr.
    apply orb_true_iff in Hr as [Hr|Hr]; [by apply String.eqb_eq in Hr|].
    apply andb_true_iff in Hr as [Hr1 Hr2].
    destruct Hbad as [Hbad|Hbad].
    + rewrite Hbad in Hr1. apply bool_decide_eq_true in Hr1.
      by destruct Hr1.
    + destruct (self_o !! "fdelay"); congruence.
Qed.

Lemma progress_trans s s1 s2 fw1 rj1 fl1 fw2 rj2 fl2 :
  prog s s1 fw1 rj1 fl1 -> prog s1 s2 fw2 rj2 fl2 ->
  prog s s2 (fw1 ++ fw2) (rj1 ++ rj2) (fl1 ++ fl2).
Proof.
  intros (Hi1 & Ho1 & Hr1 & Hf1 & Ht1 & He1 & Hfr1 & Hfw1 & Hrj1 & Hfl1)
         (Hi2 & Ho2 & Hr2 & Hf2 & Ht2 & He2 & Hfr2 & Hfw2 & Hrj2 & Hfl2).
  unfold progress.
  rewrite Hi2, Hi1, Ho2, Ho1, Hr2, Hr1, Hf2, Hf1, !app_assoc.
  repeat split; try done.
  - lia.
  - by apply (evolves_trans _ (msgs s1)).
  - intros m Hm. apply not_elem_of_app in Hm as [Hm1 Hm2].
    by rewrite Hfr2, Hfr1.
  - apply Forall_app. split.
    + eapply Forall_impl; [exact Hfw1|]. intros m.
      apply was_old_enough_mono; auto using evolves_refl.
    + eapply Forall_impl; [exact Hfw2|]. intros m.
      by apply was_old_enough_mono.
  - apply Forall_app. split; [done|].
    eapply Forall_impl; [exact Hrj2|]. eauto using was_removal_back.
  - apply Forall_app. split.
    + eapply Forall_impl; [exact Hfl1|]. intros m [H|H]; [left|right].
      * revert H. apply was_too_young_mono; auto using evolves_refl.
      * revert H. apply was_missing_mono; auto using evolves_refl.
    + eapply Forall_impl; [exact Hfl2|]. intros m [H|H]; [left|right].
      * revert H. apply was_too_young_mono; auto using evolves_refl.
      * revert H. by apply was_missing_mono.
Qed.

Lemma on_messages_loop_progress ms : forall s out,
  forallb (rdy (msgs s)) ms = true ->
  exists s' fw rj fl,
    loop ms out s = (s', Ok (out ++ fw)) /\
    prog s s' fw rj fl /\
    ms ≡ₚ fw ++ rj ++ fl.
Proof.
  induction ms as [|m ms IH]; intros s out Hr.
  - exists s, [], [], []. simpl. unfold ret. rewrite app_nil_r.
    split; [done|]. split; [|done].
    unfold progress. rewrite !app_nil_r.
    repeat split; auto using evolves_refl.
  - simpl in Hr. apply andb_true_iff in Hr as [Hm Hr].
    destruct (progress_round out m s Hm)
      as (s1 & fw1 & rj1 & fl1 & Hb & Hp1 & Hperm1).
    assert (Hr1 : forallb (rdy (msgs s1)) ms = true).
    { apply forallb_forall. intros l Hl.
      apply (msg_ready_on (msgs s)); [apply Hp1|].
      rewrite forallb_forall in Hr. by apply Hr. }
    destruct (IH s1 (out ++ fw1) Hr1)
      as (s' & fw2 & rj2 & fl2 & Hl & Hp2 & Hperm2).
    exists s', (fw1 ++ fw2), (rj1 ++ rj2), (fl1 ++ fl2).
    split; [|split].
    + simpl. unfold bind. rewrite Hb, Hl. by rewrite app_assoc.
    + by apply (progress_trans _ s1).
    + change (m :: ms) with ([m] ++ ms). rewrite Hperm1, Hperm2.
      rewrite <- !app_assoc.
      apply Permutation_app_head.
      rewrite !app_assoc. apply Permutation_app_tail.
      rewrite <- !app_assoc.
      rewrite (Permutation_app_comm fl1 (fw2 ++ rj2)).
      rewrite !app_assoc. apply Permutation_app_tail.
      rewrite <- !app_assoc. apply Permutation_app_swap_app.
Qed.

(** [on_messages] as a whole: it ends normally, what it leaves in
    [incoming] is what it forwarded, and every incoming message went to
    exactly one of the three lists. *)
Lemma on_messages_progress s :
  ready timestr2flt self_o s = true ->
  exists s' rj fl,
    FDelay.on_messages timestr2flt world self_o s = (s', Ok tt) /\
    ok (wl s') = ok (wl s) /\
    rejected (wl s') = rejected (wl s) ++ rj /\
    failed (wl s') = failed (wl s) ++ fl /\
    incoming (wl s) ≡ₚ incoming (wl s') ++ rj ++ fl /\
    evolves (msgs s) (msgs s') /\
    (forall m, m ∉ fl -> msgs s' !! m = msgs s !! m) /\
    Forall (old_enough (msgs s) (ticks s) (ticks s')) (incoming (wl s')) /\
    Forall (was_removal (msgs s)) rj /\
    Forall (fun m => young (msgs s) (msgs s') (ticks s) (ticks s') m \/
                     missing (msgs s) (ticks s) (ticks s') m) fl.
Proof.
  intros Hr. unfold ready in Hr.
  destruct (on_messages_loop_progress (incoming (wl s)) s [] Hr)
    as (s1 & fw & rj & fl & Hl & Hp & Hperm).
  destruct Hp as (Hi & Ho & Hrj & Hfl & Ht & He & Hfr & Hfw & Hrm & Hyf).
  eexists _, rj, fl. split.
  { unfold FDelay.on_messages, gets, set_incoming, modify, bind.
    rewrite Hl. reflexivity. }
  simpl. repeat split; done.
Qed.

End FDelayRun.

(** ** What [FDelay.on_messages] does to a batch *)

Section FDelayFates.

Variable timestr2flt : string -> option Q.
Variable world : World.
Variable self_o : gmap string pyval.

Local Abbreviation pubT := (pub_test timestr2flt world self_o).
Local Abbreviation fileT := (file_test world self_o).
Local Abbreviation young := (was_too_young timestr2flt world self_o).
Local Abbreviation missing := (was_missing timestr2flt world self_o).
Local Abbreviation old_enough := (was_old_enough timestr2flt world self_o).
Local Abbreviation run := (FDelay.on_messages timestr2flt world self_o).

(** Every list of the worklist after a run, explained. *)
Lemma on_messages_fates s :
  ready timestr2flt self_o s = true ->
  exists s',
    run s = (s', Ok tt) /\
    (forall l, l ∈ incoming (wl s) ->
       l ∈ incoming (wl s') \/ l ∈ rejected (wl s') \/ l ∈ failed (wl s')) /\
    (forall l, l ∈ incoming (wl s') ->
       old_enough (msgs s) (ticks s) (ticks s') l) /\
    (forall l, l ∈ rejected (wl s') ->
       l ∈ rejected (wl s) \/ was_removal (msgs s) l) /\
    (forall l, l ∈ failed (wl s') ->
       l ∈ failed (wl s) \/
       young (msgs s) (msgs s') (ticks s) (ticks s') l \/
       missing (msgs s) (ticks s) (ticks s') l) /\
    (forall l,
       msgs s' !! l = msgs s !! l \/
       young (msgs s) (msgs s') (ticks s) (ticks s') l \/
       missing (msgs s) (ticks s) (ticks s') l).
Proof.
  intros Hr.
  destruct (on_messages_progress timestr2flt world self_o s Hr)
    as (s' & rj & fl & Hrun & Hok & Hrj & Hfl & Hperm & He & Hfr & Hfw
        & Hrm & Hyf).
  exists s'. split; [done|].
  rewrite Forall_forall in Hfw, Hrm, Hyf.
  split_and!.
  - intros l Hl. rewrite Hperm in Hl. rewrite Hrj, Hfl.
    rewrite !elem_of_app in *. tauto.
  - done.
  - intros l. rewrite Hrj, elem_of_app. intros [?|?]; auto.
  - intros l. rewrite Hfl, elem_of_app. intros [?|?]; auto.
  - intros l. destruct (decide (l ∈ fl)) as [Hl|Hl]; [|by left; apply Hfr].
    right. by apply Hyf.
Qed.

Lemma removal_never_tested h h' lo hi m msg :
  h !! m = Some msg -> method (integrity msg) = "remove" ->
  ~ old_enough h lo hi m /\ ~ young h h' lo hi m /\ ~ missing h lo hi m.
Proof.
  intros Hm Hr. split_and!.
  - intros (msg' & k & Hm' & Hn & _). congruence.
  - intros (msg' & k & Hm' & Hn & _). congruence.
  - intros (msg' & k & Hm' & Hn & _). congruence.
Qed.

End FDelayFates.

(** ** The retry-delay stage: claims *)

Section FDelayClaims.

Variable timestr2flt : string -> option Q.
Variable world : World.
Variable self_o : gmap string pyval.

Local Abbreviation pubT := (pub_test timestr2flt world self_o).
Local Abbreviation fileT := (file_test world self_o).
Local Abbreviation run := (FDelay.on_messages timestr2flt world self_o).

(** C1. Whenever [FDelay.on_messages] can run to its end, it does, and the
    messages that were in [incoming] are, occurrence for occurrence, the
    ones left in [incoming] together with the ones it appended to
    [rejected] and to [failed]; [ok] is not touched. Hence, on a worklist
    in which no message occurs twice, every message that was in [incoming]
    ends in exactly one of [incoming], [rejected] and [failed], and still
    no message occurs twice. *)
Theorem on_messages_partitions_incoming s :
  ready timestr2flt self_o s = true ->
  exists s' rj fl,
    run s = (s', Ok tt) /\
    ok (wl s') = ok (wl s) /\
    rejected (wl s') = rejected (wl s) ++ rj /\
    failed (wl s') = failed (wl s) ++ fl /\
    incoming (wl s) ≡ₚ incoming (wl s') ++ rj ++ fl /\
    (NoDup (incoming (wl s) ++ rejected (wl s) ++ failed (wl s)) ->
     NoDup (incoming (wl s') ++ rejected (wl s') ++ failed (wl s')) /\
     forall m, m ∈ incoming (wl s) -> in_exactly_one m (wl s')).
Proof.
  intros Hr.
  destruct (on_messages_progress timestr2flt world self_o s Hr)
    as (s' & rj & fl & Hrun & Hok & Hrj & Hfl & Hperm & _).
  exists s', rj, fl. split_and!; try done.
  intros Hnd.
  assert (Hnd' : NoDup (incoming (wl s') ++ rejected (wl s') ++ failed (wl s'))).
  { assert (P : incoming (wl s) ++ rejected (wl s) ++ failed (wl s)
                 ≡ₚ incoming (wl s') ++ rejected (wl s') ++ failed (wl s')).
    { rewrite Hrj, Hfl, Hperm. solve_Permutation. }
    by rewrite <- P. }
  split; [done|].
  intros m Hm.
  assert (Hin : m ∈ incoming (wl s') ++ rejected (wl s') ++ failed (wl s')).
  { rewrite Hperm in Hm. rewrite Hrj, Hfl.
    rewrite !elem_of_app in *. tauto. }
  apply NoDup_app in Hnd' as (_ & Hd1 & Hnd2).
  apply NoDup_app in Hnd2 as (_ & Hd2 & _).
  unfold in_exactly_one.
  rewrite !elem_of_app in Hin.
  destruct Hin as [Hi|[Hi|Hi]].
  - left. specialize (Hd1 m Hi). rewrite not_elem_of_app in Hd1. tauto.
  - right; left. split_and!; [|done|by apply Hd2].
    intros Hi'. specialize (Hd1 m Hi'). rewrite not_elem_of_app in Hd1. tauto.
  - right; right. split_and!; [| |done].
    + intros Hi'. specialize (Hd1 m Hi'). rewrite not_elem_of_app in Hd1.
      tauto.
    + intros Hi'. by apply (Hd2 m Hi').
Qed.

(** C4. A message whose integrity method is [remove] is appended to
    [rejected] by its round of the loop, which reads no clock, looks at no
    file and does not need the delay; after the run it is in [rejected],
    not in [incoming], not added to [failed], and it is stored as it
    was. *)
Theorem removal_is_rejected_untested s m msg :
  ready timestr2flt self_o s = true ->
  m ∈ incoming (wl s) ->
  msgs s !! m = Some msg ->
  method (integrity msg) = "remove" ->
  (forall out s0, msgs s0 !! m = Some msg ->
     FDelay.on_messages_body timestr2flt world self_o out m s0
     = (FState (msgs s0) (to_rejected m (wl s0)) (ticks s0), Ok out)) /\
  exists s',
    run s = (s', Ok tt) /\
    (m ∈ rejected (wl s')) /\
    (m ∉ incoming (wl s')) /\
    ((m ∉ failed (wl s)) -> (m ∉ failed (wl s'))) /\
    msgs s' !! m = Some msg.
Proof.
  intros Hr Hin Hm Hrem. split.
  { intros out s0 Hm0.
    unfold FDelay.on_messages_body, get_msg, bind at 1. simpl.
    rewrite Hm0. simpl. rewrite Hrem. reflexivity. }
  destruct (on_messages_fates timestr2flt world self_o s Hr)
    as (s' & Hrun & Hall & Hfw & Hrj & Hfl & Hfr).
  destruct (removal_never_tested timestr2flt world self_o
              (msgs s) (msgs s') (ticks s) (ticks s') m msg Hm Hrem)
    as (Hno & Hny & Hnm).
  exists s'. split; [done|].
  assert (Hni : m ∉ incoming (wl s')) by (intros H; by apply Hno, Hfw).
  assert (Hnf : m ∉ failed (wl s) -> m ∉ failed (wl s')).
  { intros Hf H. destruct (Hfl m H) as [?|[?|?]]; done. }
  split_and!; try done.
  - destruct (Hall m Hin) as [?|[?|H]]; [done|done|].
    destruct (Hfl m H) as [?|[?|?]]; try done.
    (* already failed before the run: it is rejected all the same *)
    destruct (on_messages_progress timestr2flt world self_o s Hr)
      as (s2 & rj & fl & Hrun2 & _ & Hrj2 & Hfl2 & Hperm & _ & _ & _ & _ & Hyf).
    rewrite Hrun in Hrun2. injection Hrun2 as <-.
    rewrite Hperm in Hin. rewrite Hrj2.
    rewrite !elem_of_app in *. destruct Hin as [?|[?|Hf]]; auto; [done|].
    rewrite Forall_forall in Hyf. destruct (Hyf m Hf); done.
  - destruct (Hfr m) as [->|[?|?]]; done.
Qed.

(** The fate of a message that is not a removal, from what the tests say
    at the clock readings of the run. *)
Lemma delayed_message_fate s m msg :
  ready timestr2flt self_o s = true ->
  m ∈ incoming (wl s) ->
  msgs s !! m = Some msg ->
  method (integrity msg) <> "remove" ->
  exists s',
    run s = (s', Ok tt) /\
    let during k := (ticks s <= k)%nat /\ (k < ticks s')%nat in
    let pub_is b := forall k, during k -> pubT msg k b in
    let file_is b := forall k, during k -> fileT msg k b in
    (pub_is true \/ (pub_is false /\ file_is true) ->
     (m ∈ failed (wl s')) /\ (m ∉ incoming (wl s')) /\
     msgs s' !! m = Some (cleared msg)) /\
    (pub_is false /\ mtime world (FDelay.delay_file msg) = None ->
     (m ∈ failed (wl s')) /\ (m ∉ incoming (wl s'))) /\
    (pub_is false /\ file_is false ->
     (m ∈ incoming (wl s')) /\
     ((m ∉ failed (wl s)) -> (m ∉ failed (wl s'))) /\
     msgs s' !! m = Some msg).
Proof.
  intros Hr Hin Hm Hnr.
  destruct (on_messages_progress timestr2flt world self_o s Hr)
    as (s' & rj & fl & Hrun & _ & Hrj & Hfl & Hperm & _ & Hfr & Hfw
        & Hrm & Hyf).
  rewrite Forall_forall in Hfw, Hrm, Hyf.
  exists s'. split; [done|]. intros during pub_is file_is.
  assert (Hcases : m ∈ incoming (wl s') \/ m ∈ fl).
  { rewrite Hperm in Hin. rewrite !elem_of_app in Hin.
    destruct Hin as [?|[Hin|?]]; auto.
    destruct (Hrm m Hin) as (msg' & Hm' & ?). congruence. }
  assert (Hfailed : m ∈ fl -> m ∈ failed (wl s')).
  { rewrite Hfl, elem_of_app. auto. }
  (* what being forwarded, too young or without a file says about [msg] *)
  assert (Hold : m ∈ incoming (wl s') ->
            exists k, during k /\ during (S k) /\
              pubT msg k false /\ fileT msg (S k) false).
  { intros H. destruct (Hfw m H) as (msg' & k & Hm' & _ & ? & ? & ? & ?).
    assert (msg' = msg) as -> by congruence.
    exists k. unfold during. split_and!; auto with lia. }
  assert (Hyoung : was_too_young timestr2flt world self_o (msgs s) (msgs s')
                     (ticks s) (ticks s') m ->
            msgs s' !! m = Some (cleared msg) /\
            exists k, during k /\
              (pubT msg k true \/
               (during (S k) /\ pubT msg k false /\ fileT msg (S k) true))).
  { intros (msg' & k & Hm' & _ & ? & Ht & Hc).
    assert (msg' = msg) as -> by congruence.
    split; [done|]. exists k. unfold during.
    destruct Ht as [[? ?]|(? & ? & ?)]; [split; [lia|by left]|].
    split; [lia|]. right. split_and!; auto with lia. }
  assert (Hmiss : was_missing timestr2flt world self_o (msgs s)
                    (ticks s) (ticks s') m ->
            mtime world (FDelay.delay_file msg) = None /\
            exists k, during k /\ pubT msg k false).
  { intros (msg' & k & Hm' & _ & ? & ? & ? & ?).
    assert (msg' = msg) as -> by congruence.
    split; [done|]. exists k. by unfold during. }
  assert (Hexists : forall k b, fileT msg k b ->
            mtime world (FDelay.delay_file msg) <> None).
  { intros k b (t & fd & Ht & _). congruence. }
  split_and!.
  - (* too young: by publication time, or by the age of the file *)
    intros Hy.
    assert (Hni : m ∉ incoming (wl s')).
    { intros H. destruct (Hold H) as (k & Hk & HSk & Hp & Hf).
      destruct Hy as [Hy|[_ Hy]].
      - by pose proof (pub_test_fun _ _ _ _ _ _ _ (Hy k Hk) Hp).
      - by pose proof (file_test_fun _ _ _ _ _ _ (Hy (S k) HSk) Hf). }
    destruct Hcases as [?|Hfl']; [done|].
    split_and!; auto.
    destruct (Hyf m Hfl') as [Hy'|Hm']; [by destruct (Hyoung Hy')|].
    exfalso. destruct (Hmiss Hm') as (Hnone & k & Hk & Hp).
    destruct Hy as [Hy|[_ Hy]].
    + by pose proof (pub_test_fun _ _ _ _ _ _ _ (Hy k Hk) Hp).
    + by apply (Hexists k true (Hy k Hk)).
  - (* no file *)
    intros [Hp Hnone].
    assert (Hni : m ∉ incoming (wl s')).
    { intros H. destruct (Hold H) as (k & Hk & HSk & _ & Hf).
      by apply (Hexists (S k) false Hf). }
    destruct Hcases as [?|Hfl']; [done|]. auto.
  - (* old enough *)
    intros [Hp Hf].
    assert (Hnfl : m ∉ fl).
    { intros H. destruct (Hyf m H) as [Hy'|Hm'].
      - destruct (Hyoung Hy') as (_ & k & Hk & [Hy|(HSk & _ & Hy)]).
        + by pose proof (pub_test_fun _ _ _ _ _ _ _ (Hp k Hk) Hy).
        + by pose proof (file_test_fun _ _ _ _ _ _ (Hf (S k) HSk) Hy).
      - destruct (Hmiss Hm') as (Hnone & k & Hk & _).
        by apply (Hexists k false (Hf k Hk)). }
    destruct Hcases as [?|?]; [|done].
    split_and!; [done| |by rewrite Hfr].
    rewrite Hfl, elem_of_app. tauto.
Qed.

(** C2, as amended. For a message that is not a removal: if at the clock
    readings of the run its publication time is younger than the delay, or
    its publication time is not younger, its file exists and the
    modification time of the file is younger than the delay, then the
    message is moved to [failed] with its retry flag set to [False] (and
    ['isRetry'] listed in [_deleteOnPost]); if its publication time is not
    younger and its file does not exist, the message is moved to
    [failed]. *)
Theorem delay_conditions_move_to_failed s m msg :
  ready timestr2flt self_o s = true ->
  m ∈ incoming (wl s) ->
  msgs s !! m = Some msg ->
  method (integrity msg) <> "remove" ->
  exists s',
    run s = (s', Ok tt) /\
    let during k := (ticks s <= k)%nat /\ (k < ticks s')%nat in
    let pub_is b := forall k, during k -> pubT msg k b in
    let file_is b := forall k, during k -> fileT msg k b in
    (pub_is true \/ (pub_is false /\ file_is true) ->
     (m ∈ failed (wl s')) /\ (m ∉ incoming (wl s')) /\
     exists msg', msgs s' !! m = Some msg' /\ isRetry msg' = Some false /\
                  listed "isRetry" (_deleteOnPost msg') = true) /\
    (pub_is false /\ mtime world (FDelay.delay_file msg) = None ->
     (m ∈ failed (wl s')) /\ (m ∉ incoming (wl s'))).
Proof.
  intros Hr Hin Hm Hnr.
  destruct (delayed_message_fate s m msg Hr Hin Hm Hnr)
    as (s' & Hrun & Hyoung & Hnone & _).
  exists s'. split; [done|]. simpl. split; [|done].
  intros Hy. destruct (Hyoung Hy) as (? & ? & ?). split_and!; try done.
  exists (cleared msg). auto using cleared_isRetry, cleared_listed.
Qed.

(** C3, as amended. For a message that is not a removal: if at the clock
    readings of the run its publication time is younger than the delay, it
    is moved to [failed] with its retry flag set to [False]; if its
    publication time is not younger, its file exists and the modification
    time of the file is not younger than the delay either, it stays in
    [incoming], untouched. *)
Theorem publication_age_decides s m msg :
  ready timestr2flt self_o s = true ->
  m ∈ incoming (wl s) ->
  msgs s !! m = Some msg ->
  method (integrity msg) <> "remove" ->
  exists s',
    run s = (s', Ok tt) /\
    let during k := (ticks s <= k)%nat /\ (k < ticks s')%nat in
    let pub_is b := forall k, during k -> pubT msg k b in
    let file_is b := forall k, during k -> fileT msg k b in
    (pub_is true ->
     (m ∈ failed (wl s')) /\ (m ∉ incoming (wl s')) /\
     exists msg', msgs s' !! m = Some msg' /\ isRetry msg' = Some false) /\
    (pub_is false /\ file_is false ->
     (m ∈ incoming (wl s')) /\
     ((m ∉ failed (wl s)) -> (m ∉ failed (wl s'))) /\
     msgs s' !! m = Some msg).
Proof.
  intros Hr Hin Hm Hnr.
  destruct (delayed_message_fate s m msg Hr Hin Hm Hnr)
    as (s' & Hrun & Hyoung & _ & Hold).
  exists s'. split; [done|]. simpl. split; [|done].
  intros Hy. destruct (Hyoung (or_introl Hy)) as (? & ? & ?).
  split_and!; try done.
  exists (cleared msg). auto using cleared_isRetry.
Qed.

End FDelayClaims.

(** The run of [FDelay.on_messages] on the example batch. *)
Lemma ex_run :
  FDelay.on_messages utc_timestr2flt ex_world ex_fdelay_options ex_state
  = (FState
       (<[2%positive := cleared (ex_message "sha512" "20200101000130"
                                   "obs/ready.txt" "/tmp" "ready.txt")]>
          (<[4%positive := cleared (ex_message "sha512" "20191231235900.5"
                                      "obs/fresh.grib" "/data/cfr/in"
                                      "fresh.grib")]> ex_msgs))
       (Worklist [5]%positive [] [1]%positive [2; 3; 4]%positive) 6,
     Ok tt).
Proof. vm_compute. reflexivity. Qed.

Ltac ex_reading k :=
  do 6 (destruct k as [|k]; [vm_compute; reflexivity|]); simpl in *; lia.

Ltac ex_pub_test :=
  let k := fresh "k" in
  intros k [_ ?]; eexists _, _;
  split_and!; [vm_compute; reflexivity | vm_compute; reflexivity | ex_reading k].

Lemma on_messages_partitions_incoming_witness :
  ready utc_timestr2flt ex_fdelay_options ex_state = true /\
  exists s' rj fl,
    FDelay.on_messages utc_timestr2flt ex_world ex_fdelay_options ex_state
    = (s', Ok tt) /\
    ok (wl s') = ok (wl ex_state) /\
    rejected (wl s') = rejected (wl ex_state) ++ rj /\
    failed (wl s') = failed (wl ex_state) ++ fl /\
    incoming (wl ex_state) ≡ₚ incoming (wl s') ++ rj ++ fl /\
    (NoDup (incoming (wl ex_state) ++ rejected (wl ex_state)
            ++ failed (wl ex_state)) ->
     NoDup (incoming (wl s') ++ rejected (wl s') ++ failed (wl s')) /\
     forall m, m ∈ incoming (wl ex_state) -> in_exactly_one m (wl s')).
Proof.
  split; [vm_compute; reflexivity|].
  apply (on_messages_partitions_incoming
           utc_timestr2flt ex_world ex_fdelay_options ex_state).
  vm_compute; reflexivity.
Defined.

Lemma removal_is_rejected_untested_witness :
  ready utc_timestr2flt ex_fdelay_options ex_state = true /\
  exists s',
    FDelay.on_messages utc_timestr2flt ex_world ex_fdelay_options ex_state
    = (s', Ok tt) /\
    (1%positive ∈ rejected (wl s')) /\ (1%positive ∉ incoming (wl s')).
Proof.
  split; [vm_compute; reflexivity|].
  destruct (removal_is_rejected_untested
              utc_timestr2flt ex_world ex_fdelay_options ex_state 1%positive
              (ex_message "remove" "20200101000130" "obs/gone.txt" "/tmp"
                 "gone.txt"))
    as (_ & s' & Hrun & Hrej & Hni & _).
  - vm_compute; reflexivity.
  - apply list_elem_of_In; simpl; auto 10.
  - vm_compute; reflexivity.
  - reflexivity.
  - exists s'. auto.
Defined.

Lemma delay_conditions_move_to_failed_witness :
  ready utc_timestr2flt ex_fdelay_options ex_state = true /\
  exists s',
    FDelay.on_messages utc_timestr2flt ex_world ex_fdelay_options ex_state
    = (s', Ok tt) /\
    (4%positive ∈ failed (wl s')) /\
    exists msg', msgs s' !! 4%positive = Some msg' /\
                 isRetry msg' = Some false.
Proof.
  split; [vm_compute; reflexivity|].
  destruct (delay_conditions_move_to_failed
              utc_timestr2flt ex_world ex_fdelay_options ex_state 4%positive
              (ex_message "sha512" "20191231235900.5" "obs/fresh.grib"
                 "/data/cfr/in" "fresh.grib"))
    as (s' & Hrun & Hyoung & _).
  - vm_compute; reflexivity.
  - apply list_elem_of_In; simpl; auto 10.
  - vm_compute; reflexivity.
  - discriminate.
  - exists s'. split; [done|].
    rewrite ex_run in Hrun. injection Hrun as <-.
    destruct Hyoung as (Hf & _ & msg' & Hm & Hr & _).
    + right. split; ex_pub_test.
    + eauto.
Defined.

Lemma publication_age_decides_witness :
  ready utc_timestr2flt ex_fdelay_options ex_state = true /\
  exists s',
    FDelay.on_messages utc_timestr2flt ex_world ex_fdelay_options ex_state
    = (s', Ok tt) /\
    (2%positive ∈ failed (wl s')) /\ (5%positive ∈ incoming (wl s')).
Proof.
  split; [vm_compute; reflexivity|].
  destruct (publication_age_decides
              utc_timestr2flt ex_world ex_fdelay_options ex_state 2%positive
              (ex_message "sha512" "20200101000130" "obs/ready.txt" "/tmp"
                 "ready.txt"))
    as (s' & Hrun & Hyoung & _).
  - vm_compute; reflexivity.
  - apply list_elem_of_In; simpl; auto 10.
  - vm_compute; reflexivity.
  - discriminate.
  - destruct (publication_age_decides
              utc_timestr2flt ex_world ex_fdelay_options ex_state 5%positive
              (ex_message "sha512" "20191231235900" "obs/ready.txt" "/tmp"
                 "ready.txt"))
      as (s2 & Hrun2 & _ & Hold).
    + vm_compute; reflexivity.
    + apply list_elem_of_In; simpl; auto 10.
    + vm_compute; reflexivity.
    + discriminate.
    + exists s'. split; [done|].
      rewrite Hrun in Hrun2. injection Hrun2 as <-.
      rewrite ex_run in Hrun. injection Hrun as <-.
      split.
      * apply Hyoung. ex_pub_test.
      * apply Hold. split; ex_pub_test.
Defined.

(** C2, as stated, fails on the example batch. Message 1 was published ten
    seconds before the first clock reading, with a delay of sixty, and is a
    removal: it ends in [rejected], not in [failed], and its retry flag is
    still [True]. Message 3 is not a removal and its file does not exist: it
    ends in [failed], and its retry flag is still [True]. *)
Lemma delay_conditions_counterexample :
  let s' := fst (FDelay.on_messages utc_timestr2flt ex_world
                   ex_fdelay_options ex_state) in
  Forall (fun k => pub_test utc_timestr2flt ex_world ex_fdelay_options
                     (ex_message "remove" "20200101000130" "obs/gone.txt"
                        "/tmp" "gone.txt") k true)
         [0; 1; 2; 3; 4; 5]%nat /\
  ex_msgs !! 1%positive
  = Some (ex_message "remove" "20200101000130" "obs/gone.txt" "/tmp"
            "gone.txt") /\
  ex_msgs !! 3%positive
  = Some (ex_message "sha512" "20191231235900" "obs/absent.txt" "/tmp"
            "absent.txt") /\
  mtime ex_world
    (FDelay.delay_file
       (ex_message "sha512" "20191231235900" "obs/absent.txt" "/tmp"
          "absent.txt")) = None /\
  wl s' = Worklist [5]%positive [] [1]%positive [2; 3; 4]%positive /\
  isRetry <$> msgs s' !! 1%positive = Some (Some true) /\
  isRetry <$> msgs s' !! 3%positive = Some (Some true).
Proof.
  rewrite ex_run. simpl.
  split_and!; [|vm_compute; reflexivity ..].
  repeat (apply Forall_cons; split;
          [cbv beta; eexists _, _; split_and!; vm_compute; reflexivity|]).
  constructor.
Qed.

(** C3, as stated, fails on the example batch. Message 3 is not a removal and
    was published more than sixty seconds before every clock reading, but its
    file does not exist: it ends in [failed], not in [incoming]. *)
Lemma publication_age_counterexample :
  let s' := fst (FDelay.on_messages utc_timestr2flt ex_world
                   ex_fdelay_options ex_state) in
  ex_msgs !! 3%positive
  = Some (ex_message "sha512" "20191231235900" "obs/absent.txt" "/tmp"
            "absent.txt") /\
  Forall (fun k => pub_test utc_timestr2flt ex_world ex_fdelay_options
                     (ex_message "sha512" "20191231235900" "obs/absent.txt"
                        "/tmp" "absent.txt") k false)
         [0; 1; 2; 3; 4; 5]%nat /\
  incoming (wl s') = [5]%positive /\
  failed (wl s') = [2; 3; 4]%positive.
Proof.
  rewrite ex_run. simpl.
  split_and!; [vm_compute; reflexivity| |reflexivity ..].
  repeat (apply Forall_cons; split;
          [cbv beta; eexists _, _; split_and!; vm_compute; reflexivity|]).
  constructor.
Qed.

(** ** Option objects in the store *)

Lemma bind_ok {S A B} (c : M S A) (k : A -> M S B) s s' a :
  c s = (s', Ok a) -> bind c k s = k a s'.
Proof. unfold bind. by intros ->. Qed.

Lemma bind_raise {S A B} (c : M S A) (k : A -> M S B) s s' e :
  c s = (s', Raise e) -> bind c k s = (s', Raise e).
Proof. unfold bind. by intros ->. Qed.

Lemma bind_inv_ok {S A B} (c : M S A) (k : A -> M S B) s s' b :
  bind c k s = (s', Ok b) ->
  exists s1 a, c s = (s1, Ok a) /\ k a s1 = (s', Ok b).
Proof.
  unfold bind. destruct (c s) as [s1 [a|e]]; [|done]. eauto.
Qed.

Lemma has_attr_run (st : gmap positive (gmap string pyval)) l obj a :
  st !! l = Some obj -> has_attr l a st = (st, Ok (hasattr obj a)).
Proof. intros H. unfold has_attr, deref, bind, ret. by rewrite H. Qed.

Lemma load_attr_run (st : gmap positive (gmap string pyval)) l obj a :
  st !! l = Some obj -> load_attr l a st = (st, getattr obj a).
Proof. intros H. unfold load_attr, deref, bind, lift. by rewrite H. Qed.

Lemma store_attr_run (st : gmap positive (gmap string pyval)) l obj a v :
  st !! l = Some obj ->
  store_attr l a v st = (<[l := <[a := v]> obj]> st, Ok tt).
Proof. intros H. unfold store_attr, deref, bind, modify. by rewrite H. Qed.

Lemma hasattr_true (obj : gmap string pyval) a v :
  obj !! a = Some v -> hasattr obj a = true.
Proof. intros H. unfold hasattr. rewrite H. by apply bool_decide_eq_true. Qed.

Lemma hasattr_false (obj : gmap string pyval) a :
  obj !! a = None -> hasattr obj a = false.
Proof.
  intros H. unfold hasattr. rewrite H. apply bool_decide_eq_false.
  by intros [? ?].
Qed.

Lemma getattr_ok (obj : gmap string pyval) a v :
  obj !! a = Some v -> getattr obj a = Ok v.
Proof. intros H. unfold getattr. by rewrite H. Qed.

Lemma basicConfig_run (st : gmap positive (gmap string pyval)) l obj fmt lvl :
  st !! l = Some obj ->
  obj !! "logFormat" = Some fmt ->
  obj !! "logLevel" = Some (VStr lvl) ->
  basicConfig l st = (st, Ok tt).
Proof.
  intros Hl Hf Hv. unfold basicConfig.
  erewrite bind_ok by (erewrite load_attr_run, getattr_ok; eauto).
  erewrite bind_ok by (erewrite load_attr_run, getattr_ok; eauto).
  reflexivity.
Qed.

Lemma load_attr_ok (st : gmap positive (gmap string pyval)) l obj a v :
  st !! l = Some obj -> obj !! a = Some v -> load_attr l a st = (st, Ok v).
Proof. intros H1 H2. by erewrite load_attr_run, getattr_ok. Qed.

Ltac stored :=
  solve [ eassumption
        | apply lookup_insert_eq
        | rewrite lookup_insert_ne by done; stored ].

(** ** [FDelay.__init__] *)


(** [msg_fdelay] is configured: whatever [fdelay] was does not matter. *)
Lemma FDelay_init_msg_fdelay (st : gmap positive (gmap string pyval))
    l obj fmt lvl v w :
  obj !! "logFormat" = Some fmt ->
  obj !! "logLevel" = Some (VStr lvl) ->
  obj !! "msg_fdelay" = Some v ->
  FDelay.__init__ l (<[l := <["fdelay" := w]> obj]> st)
  = FDelay.__init__ l (<[l := <["fdelay" := v]> obj]> st).
Proof.
  intros Hf Hv Hm.
  assert (Hpre : forall u,
    FDelay.__init__ l (<[l := <["fdelay" := u]> obj]> st)
    = (let! h := has_attr l "fdelay" in
       (if negb h then store_attr l "fdelay" (VInt 60) else ret tt) ;;
       let! v := load_attr l "fdelay" in
       (if is_list v then
          let! x := lift (getitem0 v) in store_attr l "fdelay" x
        else ret tt) ;;
       let! v := load_attr l "fdelay" in
       (if negb (is_int_or_float v) then
          let! x := lift (getitem0 v) in
          let! f := lift (py_float x) in
          store_attr l "fdelay" (VFloat f)
        else ret tt)) (<[l := <["fdelay" := v]> obj]> st)).
  { intros u. unfold FDelay.__init__.
    erewrite bind_ok by (eapply basicConfig_run; stored).
    erewrite bind_ok by (apply has_attr_run; stored).
    erewrite hasattr_true by stored.
    erewrite bind_ok.
    2:{ erewrite bind_ok by (eapply load_attr_ok; stored).
        apply store_attr_run; stored. }
    by rewrite !insert_insert_eq. }
  by rewrite (Hpre w), (Hpre v).
Qed.

(** [fdelay] is a list that starts with a number: that number is the delay. *)
Lemma FDelay_init_list_of_numbers (st : gmap positive (gmap string pyval))
    l obj fmt lvl x xs :
  st !! l = Some obj ->
  obj !! "logFormat" = Some fmt ->
  obj !! "logLevel" = Some (VStr lvl) ->
  obj !! "msg_fdelay" = None ->
  obj !! "fdelay" = Some (VList (x :: xs)) ->
  is_int_or_float x = true ->
  FDelay.__init__ l st = (<[l := <["fdelay" := x]> obj]> st, Ok tt).
Proof.
  intros Hl Hf Hv Hm Hd Hx. unfold FDelay.__init__.
  erewrite bind_ok by (eapply basicConfig_run; eauto).
  erewrite bind_ok by (by apply has_attr_run).
  rewrite (hasattr_false _ _ Hm).
  erewrite bind_ok by reflexivity.
  erewrite bind_ok by (by apply has_attr_run).
  rewrite (hasattr_true _ _ _ Hd). simpl.
  erewrite bind_ok by reflexivity.
  erewrite bind_ok by (eapply load_attr_ok; stored).
  simpl.
  erewrite bind_ok by (by apply store_attr_run).
  erewrite bind_ok by (eapply load_attr_ok; stored).
  rewrite Hx. reflexivity.
Qed.

(** C10. With [fdelay] configured as the list [['30']], as a configuration
    line [fdelay 30] gives it, the constructor ends with a delay of 3.0
    seconds: line 39 takes the first element, ['30'], and line 42 then takes
    the first character of that string. *)
Theorem FDelay_init_list_of_text :
  FDelay.__init__ 1%positive
    {[ 1%positive := <["fdelay" := VList [VStr "30"]]> ex_plain_options ]}
  = ({[ 1%positive := <["fdelay" := VFloat 3]> ex_plain_options ]}, Ok tt).
Proof. vm_compute. reflexivity. Qed.

(** ** [load_library] *)

Lemma deepcopy_run (st : gmap positive (gmap string pyval)) l obj :
  st !! l = Some obj ->
  deepcopy l st = (<[fresh (dom st) := obj]> st, Ok (fresh (dom st))).
Proof. intros H. unfold deepcopy, deref, bind. by rewrite H. Qed.

Lemma fresh_not_stored (st : gmap positive (gmap string pyval)) :
  st !! fresh (dom st) = None.
Proof. apply not_elem_of_dom, is_fresh. Qed.

Lemma dict_get_keys ov k :
  k ∈ dict_keys ov -> is_Some (dict_get ov k).
Proof.
  induction ov as [|[k' v] ov IH]; simpl.
  - by intros ?%elem_of_nil.
  - intros [->|H]%elem_of_cons.
    + rewrite String.eqb_refl. eauto.
    + destruct (String.eqb k' k); eauto.
Qed.

Lemma dict_get_not_key ov k :
  k ∉ dict_keys ov -> dict_get ov k = None.
Proof.
  induction ov as [|[k' v] ov IH]; simpl; [done|].
  intros [Hne Hk]%not_elem_of_cons.
  destruct (String.eqb_spec k' k) as [->|_]; [done|]. by apply IH.
Qed.

(** An attribute after the overlay: the option of the overlay if the overlay
    has one of that name, the attribute as it was otherwise. *)
Lemma overlay_keys_lookup ov ks (cfg : gmap string pyval) a :
  overlay_keys ov ks cfg !! a
  = if bool_decide (a ∈ ks) then
      match dict_get ov a with Some v => Some v | None => cfg !! a end
    else cfg !! a.
Proof.
  revert cfg. induction ks as [|k ks IH]; intros cfg; simpl; [done|].
  rewrite IH.
  destruct (decide (a = k)) as [->|Hne].
  - rewrite (bool_decide_eq_true_2 (k ∈ k :: ks)) by set_solver.
    destruct (dict_get ov k) as [v|] eqn:E.
    + rewrite lookup_insert_eq. by destruct (bool_decide _).
    + by destruct (bool_decide _).
  - assert (Hs : cfg !! a
              = match dict_get ov k with
                | Some v => <[k := v]> cfg
                | None => cfg
                end !! a).
    { destruct (dict_get ov k); [|done]. by rewrite lookup_insert_ne. }
    rewrite <- Hs.
    destruct (decide (a ∈ ks)) as [Hin|Hin].
    + rewrite (bool_decide_eq_true_2 _ Hin).
      by rewrite (bool_decide_eq_true_2 (a ∈ k :: ks)) by set_solver.
    + rewrite (bool_decide_eq_false_2 _ Hin).
      by rewrite (bool_decide_eq_false_2 (a ∈ k :: ks))
        by (apply not_elem_of_cons; auto).
Qed.

Lemma overlay_keys_set ov (cfg : gmap string pyval) s v :
  dict_get ov s = Some v ->
  overlay_keys ov (dict_keys ov) cfg !! s = Some v.
Proof.
  intros H. rewrite overlay_keys_lookup, H.
  destruct (decide (s ∈ dict_keys ov)) as [Hin|Hin].
  - by rewrite (bool_decide_eq_true_2 _ Hin).
  - apply dict_get_not_key in Hin. congruence.
Qed.

Lemma overlay_keys_kept ov (cfg : gmap string pyval) a :
  dict_get ov a = None ->
  overlay_keys ov (dict_keys ov) cfg !! a = cfg !! a.
Proof.
  intros H. rewrite overlay_keys_lookup, H. by destruct (bool_decide _).
Qed.

(** The loop of lines 250-251, on the keys [ks] of the overlay. *)
Lemma overlay_loop_run path options opt obj sd ov ks :
  options <> opt ->
  obj !! "settings" = Some (VDict sd) ->
  dict_get sd path = Some (VDict ov) ->
  ks ⊆ dict_keys ov ->
  forall (st : gmap positive (gmap string pyval)) cfg,
    st !! options = Some obj ->
    st !! opt = Some cfg ->
    for_each (map VStr ks) (overlay_one path options opt) st
    = (<[opt := overlay_keys ov ks cfg]> st, Ok tt).
Proof.
  intros Hne Hs Hov. induction ks as [|k ks IH]; intros Hsub st cfg Ho Hc.
  - simpl. unfold ret. by rewrite insert_id.
  - simpl.
    destruct (dict_get_keys ov k) as [v Hv]; [set_solver|].
    erewrite bind_ok.
    2:{ unfold overlay_one.
        erewrite bind_ok by (erewrite load_attr_run, getattr_ok; eauto).
        erewrite bind_ok by (unfold lift, getitem; by rewrite Hov).
        erewrite bind_ok by reflexivity.
        erewrite bind_ok by (unfold lift, getitem; by rewrite Hv).
        by apply store_attr_run. }
    rewrite Hv.
    erewrite IH; [by rewrite insert_insert_eq|set_solver| |].
    + by rewrite lookup_insert_ne.
    + by rewrite lookup_insert_eq.
Qed.

Section LoadLibraryFacts.

Variable import_module : string -> option (string -> option pyclass).

(** Without a [settings] attribute the stage is given the caller's object. *)
Lemma resolve_options_shared path options
    (st : gmap positive (gmap string pyval)) obj :
  st !! options = Some obj ->
  obj !! "settings" = None ->
  resolve_options path options st = (st, Ok options).
Proof.
  intros Ho Hs. unfold resolve_options.
  erewrite bind_ok by (by apply has_attr_run).
  by rewrite (hasattr_false _ _ Hs).
Qed.

(** With a [settings] attribute the stage is given a new object, whatever
    the overlay does. *)
Lemma resolve_options_fresh path options
    (st : gmap positive (gmap string pyval)) obj st' opt :
  st !! options = Some obj ->
  is_Some (obj !! "settings") ->
  resolve_options path options st = (st', Ok opt) ->
  opt = fresh (dom st).
Proof.
  intros Ho [v Hs]. unfold resolve_options.
  erewrite bind_ok by (by apply has_attr_run).
  rewrite (hasattr_true _ _ _ Hs).
  erewrite bind_ok by (by apply deepcopy_run).
  intros H.
  apply bind_inv_ok in H as (s1 & settings & _ & H).
  apply bind_inv_ok in H as (s2 & present & _ & H).
  apply bind_inv_ok in H as (s3 & [] & _ & H).
  unfold ret in H. congruence.
Qed.

(** With an overlay for this very stage, the new object is the copy of the
    caller's with the options of the overlay set on it. *)
Lemma resolve_options_overlay path options
    (st : gmap positive (gmap string pyval)) obj sd ov :
  st !! options = Some obj ->
  obj !! "settings" = Some (VDict sd) ->
  dict_get sd path = Some (VDict ov) ->
  resolve_options path options st
  = (<[fresh (dom st) := overlay_keys ov (dict_keys ov) obj]> st,
     Ok (fresh (dom st))).
Proof.
  intros Ho Hs Hov. unfold resolve_options.
  assert (Hne : options <> fresh (dom st)).
  { intros E. pose proof (fresh_not_stored st) as F. congruence. }
  erewrite bind_ok by (by apply has_attr_run).
  rewrite (hasattr_true _ _ _ Hs).
  erewrite bind_ok by (by apply deepcopy_run).
  erewrite bind_ok
    by (erewrite load_attr_run, getattr_ok; eauto;
        by rewrite lookup_insert_ne).
  erewrite bind_ok.
  2:{ unfold lift, py_contains. rewrite Hov. reflexivity. }
  rewrite bool_decide_eq_true_2 by eauto.
  erewrite bind_ok.
  2:{ erewrite bind_ok by (unfold lift, getitem; by rewrite Hov).
      erewrite bind_ok by reflexivity.
      eapply (overlay_loop_run path options (fresh (dom st)) obj sd ov);
        eauto.
      - by rewrite lookup_insert_ne.
      - by rewrite lookup_insert_eq. }
  unfold ret. by rewrite insert_insert_eq.
Qed.

Lemma load_library_run path options st pkg cname module class_ :
  rsplit_dot path = Some (pkg, cname) ->
  import_module pkg = Some module ->
  module cname = Some class_ ->
  load_library import_module path options st
  = (let! opt := resolve_options path options in
     instantiate class_ opt) st.
Proof.
  intros Hp Hi Hc. unfold load_library.
  erewrite bind_ok by (unfold lift; by rewrite Hp).
  simpl. erewrite bind_ok by (unfold lift; by rewrite Hi).
  erewrite bind_ok by (unfold lift; by rewrite Hc).
  reflexivity.
Qed.

Lemma load_library_inv path options st st' inst :
  load_library import_module path options st = (st', Ok inst) ->
  exists st1, resolve_options path options st = (st1, Ok (o inst)).
Proof.
  unfold load_library. intros H.
  apply bind_inv_ok in H as (s1 & pc & E1 & H).
  unfold lift in E1. injection E1 as <- _. simpl in H.
  apply bind_inv_ok in H as (s2 & module & E2 & H).
  unfold lift in E2. injection E2 as <- _.
  apply bind_inv_ok in H as (s3 & class_ & E3 & H).
  unfold lift in E3. injection E3 as <- _.
  apply bind_inv_ok in H as (s4 & opt & Hres & H).
  unfold instantiate in H.
  apply bind_inv_ok in H as (s5 & [] & _ & H).
  unfold ret in H. injection H as _ <-.
  by exists s4.
Qed.

End LoadLibraryFacts.

(** C9. A stage loaded under its qualified name, from options whose
    [settings] hold an overlay under that very name, is constructed with a
    new option object on which every option of the overlay is an attribute
    with the value the overlay gives it; every other attribute has the value
    it has in the flow-wide options, whatever the overlays kept under other
    names say. *)
Theorem load_library_applies_own_settings
    import_module path options (st : gmap positive (gmap string pyval))
    pkg cname module class_ obj sd ov :
  rsplit_dot path = Some (pkg, cname) ->
  import_module pkg = Some module ->
  module cname = Some class_ ->
  st !! options = Some obj ->
  obj !! "settings" = Some (VDict sd) ->
  dict_get sd path = Some (VDict ov) ->
  exists cfg,
    load_library import_module path options st
    = instantiate class_ (fresh (dom st)) (<[fresh (dom st) := cfg]> st) /\
    (forall s v, dict_get ov s = Some v -> cfg !! s = Some v) /\
    (forall a, dict_get ov a = None -> cfg !! a = obj !! a).
Proof.
  intros Hp Hi Hc Ho Hs Hov.
  exists (overlay_keys ov (dict_keys ov) obj). split_and!.
  - erewrite load_library_run by eauto.
    erewrite bind_ok by (by eapply resolve_options_overlay).
    reflexivity.
  - intros s v. apply overlay_keys_set.
  - intros a. apply overlay_keys_kept.
Qed.

Lemma load_library_applies_own_settings_witness :
  exists cfg,
    load_library sarra_modules "sarra.flowcb.msg.fdelay.FDelay" 1%positive
      {[ 1%positive := ex_flow_options ]}
    = instantiate (PyClass "FDelay" FDelay.__init__) 2%positive
        (<[2%positive := cfg]> {[ 1%positive := ex_flow_options ]}) /\
    cfg !! "fdelay" = Some (VInt 5) /\
    cfg !! "batch" = Some (VInt 1) /\
    cfg !! "logLevel" = Some (VStr "info").
Proof.
  destruct (load_library_applies_own_settings sarra_modules
              "sarra.flowcb.msg.fdelay.FDelay" 1%positive
              {[ 1%positive := ex_flow_options ]}
              "sarra.flowcb.msg.fdelay" "FDelay"
              (fun c => if String.eqb c "FDelay"
                        then Some (PyClass "FDelay" FDelay.__init__) else None)
              (PyClass "FDelay" FDelay.__init__)
              ex_flow_options
              [("sarra.flowcb.msg.fdelay.FDelay",
                VDict [("fdelay", VInt 5); ("batch", VInt 1)]);
               ("sarra.flowcb.FlowCB", VDict [("batch", VInt 7)])]
              [("fdelay", VInt 5); ("batch", VInt 1)])
    as (cfg & Hrun & Hset & Hkept); try reflexivity.
  exists cfg. split_and!.
  - exact Hrun.
  - by apply Hset.
  - by apply Hset.
  - by rewrite Hkept.
Defined.

(** C5, as stated, fails: options without a [settings] attribute are handed
    to the stage as they are, so that setting an attribute on the stage's
    options afterwards sets it on the caller's object. *)
Lemma load_library_shares_counterexample :
  let st := {[ 1%positive := ex_plain_options ]} : gmap positive (gmap string pyval) in
  let r := load_library sarra_modules "sarra.flowcb.FlowCB" 1%positive st in
  r = (st, Ok (Instance "FlowCB" 1%positive)) /\
  st !! 1%positive ≫= (.!! "batch") = None /\
  fst (store_attr 1%positive "batch" (VInt 5) (fst r)) !! 1%positive
    ≫= (.!! "batch") = Some (VInt 5).
Proof. vm_compute. auto. Qed.

(** C5, as amended. When the options have a [settings] attribute, the stage
    is constructed with a new option object: it is none of the objects that
    existed before the load, so setting an attribute on it afterwards leaves
    the caller's options, and the options of the stages loaded before,
    unchanged. When the options have no [settings] attribute, the stage is
    given the caller's object itself. *)
Theorem load_library_copies_options_with_settings
    import_module path options (st st' : gmap positive (gmap string pyval))
    obj inst :
  st !! options = Some obj ->
  load_library import_module path options st = (st', Ok inst) ->
  (is_Some (obj !! "settings") ->
   (o inst ∉ dom st) /\ o inst <> options /\
   forall a v l, l ∈ dom st ->
     fst (store_attr (o inst) a v st') !! l = st' !! l) /\
  (obj !! "settings" = None -> o inst = options).
Proof.
  intros Ho Hrun.
  destruct (load_library_inv _ _ _ _ _ _ Hrun) as (st1 & Hres).
  split.
  - intros Hs.
    pose proof (resolve_options_fresh _ _ _ _ _ _ Ho Hs Hres) as ->.
    assert (Hf : fresh (dom st) ∉ dom st) by apply is_fresh.
    split_and!; [done| |].
    + intros E. apply Hf. rewrite E. apply elem_of_dom. eauto.
    + intros a v l Hl.
      assert (l <> fresh (dom st)) by (intros ->; done).
      unfold store_attr, deref, bind, modify.
      destruct (st' !! fresh (dom st)); simpl; [|done].
      by rewrite lookup_insert_ne.
  - intros Hs. rewrite (resolve_options_shared _ _ _ _ Ho Hs) in Hres.
    congruence.
Qed.

Lemma load_library_copies_options_with_settings_witness :
  ({[ 1%positive := ex_flow_options ]} : gmap positive (gmap string pyval))
    !! 1%positive = Some ex_flow_options /\
  exists st' inst,
    load_library sarra_modules "sarra.flowcb.msg.fdelay.FDelay" 1%positive
      {[ 1%positive := ex_flow_options ]} = (st', Ok inst) /\
    o inst <> 1%positive /\
    fst (store_attr (o inst) "fdelay" (VInt 99) st') !! 1%positive
    = st' !! 1%positive.
Proof.
  split; [reflexivity|].
  pose (r := load_library sarra_modules "sarra.flowcb.msg.fdelay.FDelay"
               1%positive {[ 1%positive := ex_flow_options ]}).
  assert (Hrun : r = (fst r, Ok (Instance "FDelay" 2%positive)))
    by (vm_compute; reflexivity).
  assert (Hl : ({[ 1%positive := ex_flow_options ]}
                  : gmap positive (gmap string pyval)) !! 1%positive
               = Some ex_flow_options) by reflexivity.
  destruct (load_library_copies_options_with_settings sarra_modules
              "sarra.flowcb.msg.fdelay.FDelay" 1%positive
              {[ 1%positive := ex_flow_options ]} (fst r) ex_flow_options
              (Instance "FDelay" 2%positive) Hl Hrun)
    as [Hcopy _].
  destruct Hcopy as (_ & Hne & Hframe); [by eexists|].
  exists (fst r), (Instance "FDelay" 2%positive).
  split_and!; [exact Hrun|exact Hne|].
  apply Hframe. apply elem_of_dom. by eexists.
Defined.

(** ** [ACCEL_WGET] *)

Lemma for_each_keeps_state {S A} (body : A -> M S unit) xs :
  (forall x s, fst (body x s) = s) ->
  forall s, fst (for_each xs body s) = s.
Proof.
  intros Hb. induction xs as [|x xs IH]; intros s; simpl; [done|].
  unfold bind. specialize (Hb x s).
  destruct (body x s) as [s1 [[]|e]]; simpl in *; subst; [apply IH|done].
Qed.

(** [ACCEL_WGET.on_messages] changes neither the worklist nor any message. *)
Lemma accel_on_messages_keeps_state self_o s :
  fst (ACCEL_WGET.on_messages self_o s) = s.
Proof.
  unfold ACCEL_WGET.on_messages, gets, bind at 1.
  apply for_each_keeps_state. clear s. intros m s.
  unfold ACCEL_WGET.on_messages_body, get_msg, bind, lift, ret. simpl.
  destruct (msgs s !! m) as [msg|]; simpl; [|done].
  destruct (_ || _); [done|].
  destruct (ACCEL_WGET.get_size msg); [|done].
  destruct (getattr self_o "accel_wget_threshold"); done.
Qed.

(** C6. The second message of the example declares 2,000,000 bytes, which is
    above the threshold of 1,048,576; after [on_messages] it is stored as it
    was, with its base address still [http://example.org/]: the stage only
    computes the size and logs. *)
Theorem accel_on_messages_rewrites_nothing :
  declared_size ex_large_message = Some 2000000 /\
  ex_accel_options !! "accel_wget_threshold" = Some (VInt 1048576) /\
  ACCEL_WGET.on_messages ex_accel_options ex_accel_state
  = (ex_accel_state, Ok tt) /\
  baseUrl <$> msgs ex_accel_state !! 2%positive = Some "http://example.org/".
Proof. split_and!; vm_compute; reflexivity. Qed.

Section AccelFacts.

Variable urljoin : string -> string -> string.
Variable Path_str : string -> string -> string.
Variable host : Host.
Variable self_o : gmap string pyval.

Local Abbreviation do_get := (ACCEL_WGET.do_get urljoin Path_str host self_o).
Local Abbreviation check_results := (ACCEL_WGET.check_results self_o).

Lemma get_size_declared msg :
  ACCEL_WGET.get_size msg
  = from_option (KeyError "size") (declared_size msg).
Proof.
  unfold ACCEL_WGET.get_size, declared_size. by destruct (blocks msg).
Qed.

Lemma do_get_builtin msg rf lf ro lo len tr sz thr :
  declared_size msg = Some sz ->
  self_o !! "accel_wget_threshold" = Some (VInt thr) ->
  sz < thr ->
  do_get msg rf lf ro lo len tr
  = (tr ++ [EvHttpsGet rf lf ro lo len],
     match https_get host rf lf ro lo len with
     | Ok n => Ok (VInt n)
     | Raise e => Raise e
     end).
Proof.
  intros Hsz Hthr Hlt. unfold ACCEL_WGET.do_get.
  rewrite get_size_declared, Hsz.
  erewrite bind_ok by reflexivity.
  erewrite bind_ok by (unfold lift; by erewrite getattr_ok).
  erewrite bind_ok by reflexivity.
  rewrite (proj2 (Z.ltb_lt sz thr) Hlt).
  erewrite bind_ok by reflexivity.
  unfold bind, lift, ret.
  by destruct (https_get host rf lf ro lo len).
Qed.

Lemma do_get_accelerated msg rf lf ro lo len tr sz thr command :
  declared_size msg = Some sz ->
  self_o !! "accel_wget_threshold" = Some (VInt thr) ->
  thr <= sz ->
  self_o !! "accel_wget_command" = Some (VStr command) ->
  let cmd := str_split command ++ [urljoin (baseUrl msg) (relPath msg)] in
  do_get msg rf lf ro lo len tr
  = check_results {| returncode := exit_status host cmd; stderr := None |}
      msg (os_stat_size host) (Path_str (new_dir msg) (new_file msg))
      (tr ++ [EvChdir (new_dir msg); EvPopen cmd]).
Proof.
  intros Hsz Hthr Hge Hcmd cmd. unfold ACCEL_WGET.do_get.
  rewrite get_size_declared, Hsz.
  erewrite bind_ok by reflexivity.
  erewrite bind_ok by (unfold lift; by erewrite getattr_ok).
  erewrite bind_ok by reflexivity.
  rewrite (proj2 (Z.ltb_ge sz thr) Hge).
  erewrite bind_ok by reflexivity.
  erewrite bind_ok by (unfold lift; by erewrite getattr_ok).
  erewrite bind_ok by reflexivity.
  erewrite bind_ok by reflexivity.
  by rewrite <- app_assoc.
Qed.

(** A process without a pipe on its standard error makes [check_results]
    raise, after the report if one is due. *)
Lemma check_results_without_pipe rc msg fct filepath tr :
  check_results {| returncode := rc; stderr := None |} msg fct filepath tr
  = (tr ++ (if negb (rc =? 0) then
              if ACCEL_WGET.reportback self_o
              then [EvReportPublish 499 "wget download failed"] else []
            else
              if ACCEL_WGET.reportback self_o
              then [EvSetReport 201 "Downloaded"] else []),
     Raise (AttributeError "read")).
Proof.
  unfold ACCEL_WGET.check_results. simpl.
  destruct (negb (rc =? 0)), (ACCEL_WGET.reportback self_o);
    unfold bind, emit, modify, ret, lift; simpl; by rewrite ?app_nil_r.
Qed.

(** With a pipe: after a non-zero exit status the failure report is
    published exactly when [reportback] is set and true. *)
Lemma check_results_failure_report p err msg fct filepath tr :
  returncode p <> 0 ->
  stderr p = Some err ->
  fst (check_results p msg fct filepath tr)
  = tr ++ (if ACCEL_WGET.reportback self_o
           then [EvReportPublish 499 "wget download failed"] else []).
Proof.
  intros Hrc Herr. unfold ACCEL_WGET.check_results.
  rewrite (proj2 (Z.eqb_neq _ _) Hrc), Herr. simpl.
  destruct (ACCEL_WGET.reportback self_o);
    unfold bind, emit, modify, ret, lift, raise; simpl;
    rewrite ?app_nil_r;
    destruct (re_match_progress err None); try done;
    destruct (fct filepath) as [?|[]]; done.
Qed.

(** With a pipe: the result is 0 when the error output shows no size and
    the file is not there. *)
Lemma check_results_nothing_transferred p err msg fct filepath q tr :
  stderr p = Some err ->
  re_match_progress err None = None ->
  fct filepath = Raise (FileNotFoundError q) ->
  snd (check_results p msg fct filepath tr) = Ok (VInt 0).
Proof.
  intros Herr Hno Hf. unfold ACCEL_WGET.check_results.
  rewrite Herr.
  destruct (negb (returncode p =? 0)), (ACCEL_WGET.reportback self_o);
    unfold bind, emit, modify, ret, lift; simpl; by rewrite Hno, Hf.
Qed.

(** With a pipe and a size in the error output, the result is that text. *)
Lemma check_results_text p err size msg fct filepath tr :
  stderr p = Some err ->
  re_match_progress err None = Some size ->
  snd (check_results p msg fct filepath tr) = Ok (VStr size).
Proof.
  intros Herr Hsz. unfold ACCEL_WGET.check_results.
  rewrite Herr.
  destruct (negb (returncode p =? 0)), (ACCEL_WGET.reportback self_o);
    unfold bind, emit, modify, ret, lift; simpl; by rewrite Hsz.
Qed.

(** C7. The declared size of a message is the size of its blocks
    descriptor when it has one and its flat size otherwise, and it is what
    [get_size] returns. Below the threshold, [do_get] is the built-in
    [Https.get] and nothing else; at or above the threshold, [do_get]
    changes to the directory of the message, starts the configured command
    on the address of the file and goes on with [check_results]. *)
Theorem do_get_dispatches_on_size msg rf lf ro lo len tr sz thr :
  declared_size msg = Some sz ->
  self_o !! "accel_wget_threshold" = Some (VInt thr) ->
  ACCEL_WGET.get_size msg = Ok sz /\
  (sz < thr ->
   do_get msg rf lf ro lo len tr
   = (tr ++ [EvHttpsGet rf lf ro lo len],
      match https_get host rf lf ro lo len with
      | Ok n => Ok (VInt n)
      | Raise e => Raise e
      end)) /\
  (thr <= sz ->
   forall command,
     self_o !! "accel_wget_command" = Some (VStr command) ->
     let cmd := str_split command ++ [urljoin (baseUrl msg) (relPath msg)] in
     do_get msg rf lf ro lo len tr
     = check_results {| returncode := exit_status host cmd; stderr := None |}
         msg (os_stat_size host) (Path_str (new_dir msg) (new_file msg))
         (tr ++ [EvChdir (new_dir msg); EvPopen cmd])).
Proof.
  intros Hsz Hthr. split_and!.
  - by rewrite get_size_declared, Hsz.
  - intros. by eapply do_get_builtin.
  - intros. by eapply do_get_accelerated.
Qed.

(** An accelerated [do_get] returns nothing: it ends with the exception
    raised by [p.stderr.read()]. *)
Lemma do_get_accelerated_raises msg rf lf ro lo len tr sz thr command :
  declared_size msg = Some sz ->
  self_o !! "accel_wget_threshold" = Some (VInt thr) ->
  thr <= sz ->
  self_o !! "accel_wget_command" = Some (VStr command) ->
  snd (do_get msg rf lf ro lo len tr) = Raise (AttributeError "read").
Proof.
  intros Hsz Hthr Hge Hcmd.
  erewrite do_get_accelerated by eauto.
  by rewrite check_results_without_pipe.
Qed.

End AccelFacts.

Lemma do_get_dispatches_on_size_witness :
  declared_size ex_small_message = Some 500000 /\
  declared_size ex_large_message = Some 2000000 /\
  ex_accel_options !! "accel_wget_threshold" = Some (VInt 1048576) /\
  ACCEL_WGET.do_get ex_urljoin ex_path_str ex_host ex_accel_options
    ex_small_message "obs/small.txt" "/tmp/small.txt" 0 0 500000 []
  = ([EvHttpsGet "obs/small.txt" "/tmp/small.txt" 0 0 500000],
     Ok (VInt 500000)) /\
  fst (ACCEL_WGET.do_get ex_urljoin ex_path_str ex_host ex_accel_options
         ex_large_message "obs/large.grib" "/tmp/large.grib" 0 0 2000000 [])
  = [EvChdir "/tmp";
     EvPopen ["/usr/bin/wget"; "http://example.org/obs/large.grib"];
     EvReportPublish 499 "wget download failed"].
Proof.
  assert (Hs : declared_size ex_small_message = Some 500000) by reflexivity.
  assert (Hl : declared_size ex_large_message = Some 2000000) by reflexivity.
  assert (Ht : ex_accel_options !! "accel_wget_threshold"
               = Some (VInt 1048576)) by (vm_compute; reflexivity).
  assert (Hc : ex_accel_options !! "accel_wget_command"
               = Some (VStr "/usr/bin/wget")) by (vm_compute; reflexivity).
  split_and!; [exact Hs|exact Hl|exact Ht| |].
  - destruct (do_get_dispatches_on_size ex_urljoin ex_path_str ex_host
                ex_accel_options ex_small_message "obs/small.txt"
                "/tmp/small.txt" 0 0 500000 [] 500000 1048576 Hs Ht)
      as (_ & Hbuiltin & _).
    rewrite Hbuiltin by lia. reflexivity.
  - destruct (do_get_dispatches_on_size ex_urljoin ex_path_str ex_host
                ex_accel_options ex_large_message "obs/large.grib"
                "/tmp/large.grib" 0 0 2000000 [] 2000000 1048576 Hl Ht)
      as (_ & _ & Haccel).
    rewrite (Haccel ltac:(lia) _ Hc). vm_compute. reflexivity.
Defined.

(** C8. On the example host the command fails and the destination file is
    not there. The accelerated [do_get] publishes the failure report and then
    ends with the exception raised by [p.stderr.read()]: the process was
    started without a pipe on its standard error, so no byte count is
    returned at all. *)
Theorem accelerated_do_get_returns_nothing :
  declared_size ex_large_message = Some 2000000 /\
  ex_accel_options !! "accel_wget_threshold" = Some (VInt 1048576) /\
  ACCEL_WGET.do_get ex_urljoin ex_path_str ex_host ex_accel_options
    ex_large_message "obs/large.grib" "/tmp/large.grib" 0 0 2000000 []
  = ([EvChdir "/tmp";
      EvPopen ["/usr/bin/wget"; "http://example.org/obs/large.grib"];
      EvReportPublish 499 "wget download failed"],
     Raise (AttributeError "read")).
Proof. split_and!; vm_compute; reflexivity. Qed.

(** * Further properties *)

(** ** [FDelay.on_messages], whatever its outcome *)

Section FDelayEffects.

Variable timestr2flt : string -> option Q.
Variable world : World.
Variable self_o : gmap string pyval.

Local Abbreviation rdy := (msg_ready timestr2flt self_o).
Local Abbreviation body := (FDelay.on_messages_body timestr2flt world self_o).
Local Abbreviation loop := (FDelay.on_messages_loop timestr2flt world self_o).
Local Abbreviation run := (FDelay.on_messages timestr2flt world self_o).

Lemma msg_ready_evolves h h1 m :
  evolves h h1 -> rdy h1 m = rdy h m.
Proof.
  intros He. specialize (He m). unfold msg_ready.
  destruct (h !! m) as [msg|]; [|by rewrite He].
  destruct He as [-> | ->]; [done|].
  by rewrite cleared_method, cleared_pubTime.
Qed.

(** One round of the loop: what it appends where, and when it raises. *)
Lemma body_effect out m s :
  exists s1 r fw rj fl,
    body out m s = (s1, r) /\
    incoming (wl s1) = incoming (wl s) /\
    ok (wl s1) = ok (wl s) /\
    rejected (wl s1) = rejected (wl s) ++ rj /\
    failed (wl s1) = failed (wl s) ++ fl /\
    evolves (msgs s) (msgs s1) /\
    match r with
    | Ok out1 =>
        rdy (msgs s) m = true /\ out1 = out ++ fw /\
        ((fw = [m] /\ rj = [] /\ fl = []) \/
         (fw = [] /\ rj = [m] /\ fl = []) \/
         (fw = [] /\ rj = [] /\ fl = [m]))
    | Raise e =>
        rdy (msgs s) m = false /\ fw = [] /\ rj = [] /\ fl = [] /\
        msgs s1 = msgs s
    end.
Proof.
  destruct (msgs s !! m) as [msg|] eqn:Hm.
  2:{ exists s, (Raise DanglingRef), [], [], [].
      unfold FDelay.on_messages_body, get_msg, bind at 1. simpl.
      rewrite Hm. simpl. rewrite !app_nil_r.
      split_and!; auto using evolves_refl.
      unfold msg_ready. by rewrite Hm. }
  pose proof (on_messages_body_round timestr2flt world self_o out m s msg Hm)
    as R.
  assert (Hnum : forall x fd b, self_o !! "fdelay" = Some fd ->
            float_lt x fd = Ok b -> delay_set self_o = true).
  { intros x fd b Hfd Hlt. unfold delay_set. rewrite Hfd.
    by apply (float_lt_ok_number x fd b). }
  assert (Hready : forall pub fd x b,
            timestr2flt (pubTime msg) = Some pub ->
            self_o !! "fdelay" = Some fd -> float_lt x fd = Ok b ->
            rdy (msgs s) m = true).
  { intros pub fd x b Hp Hfd Hlt. unfold msg_ready. rewrite Hm, Hp.
    rewrite (Hnum x fd b Hfd Hlt).
    rewrite (bool_decide_eq_true_2 (is_Some (Some pub))) by eauto.
    apply orb_true_r. }
  inversion R as [Hrm Heq|pub fd Hrm Hp Hfd Hy Heq|pub fd Hrm Hp Hfd Hy Hf Heq
                 |pub fd t Hrm Hp Hfd Hy Hf Hy2 Heq
                 |pub fd t Hrm Hp Hfd Hy Hf Hy2 Heq|e k Hrm Hbad Heq].
  - eexists _, _, [], [m], []. split; [done|]. simpl.
    rewrite !app_nil_r. split_and!; auto using evolves_refl.
    unfold msg_ready. rewrite Hm, Hrm. done.
  - eexists _, _, [], [], [m]. split; [done|]. simpl.
    rewrite !app_nil_r. split_and!; eauto 10 using evolves_clear.
  - eexists _, _, [], [], [m]. split; [done|]. simpl.
    rewrite !app_nil_r. split_and!; eauto 10 using evolves_refl.
  - eexists _, _, [], [], [m]. split; [done|]. simpl.
    rewrite !app_nil_r. split_and!; eauto 10 using evolves_clear.
  - eexists _, _, [m], [], []. split; [done|]. simpl.
    rewrite !app_nil_r. split_and!; eauto 10 using evolves_refl.
  - eexists _, _, [], [], []. split; [done|]. simpl.
    rewrite !app_nil_r. split_and!; auto using evolves_refl.
    unfold msg_ready, delay_set. rewrite Hm.
    rewrite (proj2 (String.eqb_neq _ _) Hrm). simpl.
    destruct Hbad as [Hbad|Hbad].
    + rewrite Hbad. apply andb_false_iff. left.
      apply bool_decide_eq_false. by intros [? ?].
    + apply andb_false_iff. right.
      destruct (self_o !! "fdelay"); done.
Qed.

(** The loop: the same, for the messages it went through. *)
Lemma loop_effect ms : forall s out,
  exists s' r fw rj fl,
    loop ms out s = (s', r) /\
    incoming (wl s') = incoming (wl s) /\
    ok (wl s') = ok (wl s) /\
    rejected (wl s') = rejected (wl s) ++ rj /\
    failed (wl s') = failed (wl s) ++ fl /\
    evolves (msgs s) (msgs s') /\
    fw `sublist_of` ms /\ rj `sublist_of` ms /\ fl `sublist_of` ms /\
    match r with
    | Ok out' => forallb (rdy (msgs s)) ms = true /\ out' = out ++ fw
    | Raise e => forallb (rdy (msgs s)) ms = false
    end.
Proof.
  induction ms as [|m ms IH]; intros s out.
  - exists s, (Ok out), [], [], []. simpl. unfold ret.
    rewrite !app_nil_r. split_and!; auto using evolves_refl.
  - destruct (body_effect out m s)
      as (s1 & r1 & fw1 & rj1 & fl1 & Hb & Hi1 & Ho1 & Hr1 & Hf1 & He1 & Hres).
    assert (Hsub1 : forall l : list loc,
              l = [] \/ l = [m] -> forall k, k `sublist_of` ms ->
              l ++ k `sublist_of` m :: ms).
    { intros l [->| ->] k Hk; simpl;
        [by apply sublist_cons | by apply sublist_skip]. }
    destruct r1 as [out1|e].
    + destruct Hres as (Hrdy & -> & Hcase).
      destruct (IH s1 (out ++ fw1))
        as (s' & r & fw2 & rj2 & fl2 & Hl & Hi2 & Ho2 & Hr2 & Hf2 & He2
            & Hs1 & Hs2 & Hs3 & Hres2).
      exists s', r, (fw1 ++ fw2), (rj1 ++ rj2), (fl1 ++ fl2).
      simpl. unfold bind. rewrite Hb, Hl.
      rewrite Hi2, Hi1, Ho2, Ho1, Hr2, Hr1, Hf2, Hf1, !app_assoc.
      assert (Hall : forallb (rdy (msgs s1)) ms = forallb (rdy (msgs s)) ms).
      { clear -He1. induction ms as [|l ms IHms]; simpl; [done|].
        by rewrite IHms, (msg_ready_evolves _ _ l He1). }
      split_and!; try done.
      * by apply (evolves_trans _ (msgs s1)).
      * apply Hsub1; [|done]. destruct Hcase as [(-> & _)|[(-> & _)|(-> & _)]]; auto.
      * apply Hsub1; [|done].
        destruct Hcase as [(_ & -> & _)|[(_ & -> & _)|(_ & -> & _)]]; auto.
      * apply Hsub1; [|done].
        destruct Hcase as [(_ & _ & ->)|[(_ & _ & ->)|(_ & _ & ->)]]; auto.
      * destruct r; rewrite Hrdy, <- Hall; simpl; [|done].
        destruct Hres2 as [? ->]. by rewrite ?app_assoc.
    + destruct Hres as (Hrdy & -> & -> & -> & Hm).
      exists s1, (Raise e), [], [], []. simpl. unfold bind. rewrite Hb.
      rewrite Hrdy. split_and!; try done; apply sublist_nil_l.
Qed.

(** [on_messages] in terms of its loop. *)
Lemma on_messages_effect s :
  exists s1 r fw rj fl,
    loop (incoming (wl s)) [] s = (s1, r) /\
    run s = match r with
            | Ok out => (FState (msgs s1)
                           (Worklist out (ok (wl s1)) (rejected (wl s1))
                              (failed (wl s1))) (ticks s1), Ok tt)
            | Raise e => (s1, Raise e)
            end /\
    incoming (wl s1) = incoming (wl s) /\
    ok (wl s1) = ok (wl s) /\
    rejected (wl s1) = rejected (wl s) ++ rj /\
    failed (wl s1) = failed (wl s) ++ fl /\
    evolves (msgs s) (msgs s1) /\
    fw `sublist_of` incoming (wl s) /\
    rj `sublist_of` incoming (wl s) /\
    fl `sublist_of` incoming (wl s) /\
    match r with
    | Ok out => ready timestr2flt self_o s = true /\ out = fw
    | Raise e => ready timestr2flt self_o s = false
    end.
Proof.
  destruct (loop_effect (incoming (wl s)) s [])
    as (s1 & r & fw & rj & fl & Hl & Hrest).
  exists s1, r, fw, rj, fl. split; [done|]. split; [|exact Hrest].
  unfold FDelay.on_messages, gets, set_incoming, modify, bind.
  rewrite Hl. by destruct r.
Qed.

(** X1. [FDelay.on_messages] ends without an exception exactly when every
    incoming message is stored and is a removal or has a publication time
    that [timestr2flt] accepts together with a numeric [fdelay]. *)
Theorem on_messages_ends_normally_iff_ready s :
  snd (FDelay.on_messages timestr2flt world self_o s) = Ok tt
  <-> ready timestr2flt self_o s = true.
Proof.
  destruct (on_messages_effect s)
    as (s1 & r & fw & rj & fl & _ & -> & _ & _ & _ & _ & _ & _ & _ & _ & Hr).
  destruct r as [out|e]; simpl.
  - by destruct Hr.
  - split; [done|congruence].
Qed.

(** X2. A run that ends normally keeps the order of arrival: what is left in
    [incoming] is a subsequence of what was there, and so is what was
    appended to [rejected] and what was appended to [failed]. *)
Theorem on_messages_keeps_arrival_order s s' :
  FDelay.on_messages timestr2flt world self_o s = (s', Ok tt) ->
  incoming (wl s') `sublist_of` incoming (wl s) /\
  exists rj fl,
    rejected (wl s') = rejected (wl s) ++ rj /\
    failed (wl s') = failed (wl s) ++ fl /\
    rj `sublist_of` incoming (wl s) /\ fl `sublist_of` incoming (wl s).
Proof.
  destruct (on_messages_effect s)
    as (s1 & r & fw & rj & fl & _ & -> & _ & _ & Hrj & Hfl & _ & Hs1 & Hs2
        & Hs3 & Hr).
  destruct r as [out|e]; [|done]. intros [= <-]. simpl.
  destruct Hr as [_ ->]. split; [done|]. by exists rj, fl.
Qed.

(** X3. When a run ends with an exception, [worklist.incoming] is never
    reassigned: [incoming] and [ok] are as before, while the messages handled
    before the exception have already been appended to [rejected] or to
    [failed], where they now stand a second time. *)
Theorem on_messages_exception_keeps_incoming s s' e :
  FDelay.on_messages timestr2flt world self_o s = (s', Raise e) ->
  incoming (wl s') = incoming (wl s) /\
  ok (wl s') = ok (wl s) /\
  exists rj fl,
    rejected (wl s') = rejected (wl s) ++ rj /\
    failed (wl s') = failed (wl s) ++ fl /\
    rj `sublist_of` incoming (wl s') /\ fl `sublist_of` incoming (wl s').
Proof.
  destruct (on_messages_effect s)
    as (s1 & r & fw & rj & fl & _ & -> & Hi & Ho & Hrj & Hfl & _ & _ & Hs2
        & Hs3 & _).
  destruct r as [out|e']; [done|]. intros [= <- _].
  rewrite Hi. split_and!; try done. by exists rj, fl.
Qed.

(** X4. Whatever its outcome, a run stores no new message, and of a stored
    message it changes at most the retry flag, to [False], and
    [_deleteOnPost], to which it appends ['isRetry'] unless it is listed
    already. *)
Theorem on_messages_touches_retry_fields_only s :
  (forall m,
     msgs s !! m = None ->
     msgs (fst (FDelay.on_messages timestr2flt world self_o s)) !! m = None) /\
  (forall m msg, msgs s !! m = Some msg ->
     exists msg',
       msgs (fst (FDelay.on_messages timestr2flt world self_o s)) !! m
       = Some msg' /\
       same_content msg msg' /\
       ((isRetry msg' = isRetry msg /\
         _deleteOnPost msg' = _deleteOnPost msg) \/
        (isRetry msg' = Some false /\
         _deleteOnPost msg'
         = if listed "isRetry" (_deleteOnPost msg) then _deleteOnPost msg
           else _deleteOnPost msg ++ ["isRetry"]))).
Proof.
  destruct (on_messages_effect s)
    as (s1 & r & fw & rj & fl & _ & -> & _ & _ & _ & _ & He & _).
  assert (Hs : msgs (fst match r with
                         | Ok out => (FState (msgs s1)
                              (Worklist out (ok (wl s1)) (rejected (wl s1))
                                 (failed (wl s1))) (ticks s1), Ok tt)
                         | Raise e => (s1, Raise e)
                         end) = msgs s1) by (by destruct r).
  rewrite Hs. split.
  - intros m Hm. specialize (He m). by rewrite Hm in He.
  - intros m msg Hm. specialize (He m). rewrite Hm in He.
    destruct He as [He|He]; rewrite He.
    + exists msg. unfold same_content. auto 10.
    + exists (cleared msg). unfold same_content, cleared. simpl.
      destruct (listed "isRetry" (_deleteOnPost msg)); simpl; auto 15.
Qed.

End FDelayEffects.

(** X5. A batch of removals needs neither a delay nor a clock nor
    well-formed publication times: the run ends normally, every message goes
    to [rejected] in its order of arrival, [incoming] is left empty, and
    nothing else changes. *)
Theorem removals_only_batch timestr2flt world self_o s :
  Forall (was_removal (msgs s)) (incoming (wl s)) ->
  FDelay.on_messages timestr2flt world self_o s
  = (FState (msgs s)
       (Worklist [] (ok (wl s)) (rejected (wl s) ++ incoming (wl s))
          (failed (wl s)))
       (ticks s), Ok tt).
Proof.
  intros Hall.
  assert (Hloop : forall ms s0,
            Forall (was_removal (msgs s0)) ms ->
            FDelay.on_messages_loop timestr2flt world self_o ms [] s0
            = (FState (msgs s0)
                 (Worklist (incoming (wl s0)) (ok (wl s0))
                    (rejected (wl s0) ++ ms) (failed (wl s0)))
                 (ticks s0), Ok [])).
  { induction ms as [|m ms IH]; intros s0 Hms.
    - simpl. unfold ret. rewrite app_nil_r. by destruct s0 as [? [] ?].
    - apply Forall_cons in Hms as [(msg & Hm & Hrem) Hms].
      simpl. unfold bind at 1.
      unfold FDelay.on_messages_body, get_msg, bind at 1. simpl.
      rewrite Hm. simpl. rewrite Hrem. simpl.
      unfold rejected_append, modify, bind, ret. simpl.
      rewrite IH by done. simpl. by rewrite <- app_assoc. }
  unfold FDelay.on_messages, gets, set_incoming, modify, bind.
  by rewrite Hloop.
Qed.

Lemma on_messages_keeps_arrival_order_witness :
  exists s',
    FDelay.on_messages utc_timestr2flt ex_world ex_fdelay_options ex_state
    = (s', Ok tt) /\
    incoming (wl s') `sublist_of` incoming (wl ex_state).
Proof.
  eexists. split; [apply ex_run|].
  apply (on_messages_keeps_arrival_order utc_timestr2flt ex_world
           ex_fdelay_options ex_state _ ex_run).
Defined.

Lemma on_messages_exception_keeps_incoming_witness :
  exists s' e,
    FDelay.on_messages utc_timestr2flt ex_world ex_plain_options ex_state
    = (s', Raise e) /\
    incoming (wl s') = [1; 2; 3; 4; 5]%positive /\
    rejected (wl s') = [1]%positive.
Proof.
  pose (r := FDelay.on_messages utc_timestr2flt ex_world ex_plain_options
               ex_state).
  assert (Hrun : r = (fst r, Raise (AttributeError "fdelay")))
    by (vm_compute; reflexivity).
  exists (fst r), (AttributeError "fdelay"). split; [exact Hrun|].
  destruct (on_messages_exception_keeps_incoming utc_timestr2flt ex_world
              ex_plain_options ex_state _ _ Hrun) as (Hi & _).
  split; [exact Hi|]. vm_compute. reflexivity.
Defined.

Lemma removals_only_batch_witness :
  Forall (was_removal (msgs ex_removals)) (incoming (wl ex_removals)) /\
  FDelay.on_messages utc_timestr2flt ex_world ∅ ex_removals
  = (FState (msgs ex_removals)
       (Worklist [] [] [9; 2; 1]%positive []) 0, Ok tt).
Proof.
  assert (H : Forall (was_removal (msgs ex_removals))
                (incoming (wl ex_removals))).
  { repeat (apply Forall_cons; split;
            [eexists; split; [vm_compute; reflexivity|reflexivity]|]).
    constructor. }
  split; [exact H|].
  exact (removals_only_batch utc_timestr2flt ex_world ∅ ex_removals H).
Defined.

(** ** [FDelay.__init__], in general *)

Lemma basicConfig_inv (st st1 : gmap positive (gmap string pyval)) l u :
  basicConfig l st = (st1, Ok u) ->
  st1 = st /\ exists obj, st !! l = Some obj.
Proof.
  unfold basicConfig. intros H.
  apply bind_inv_ok in H as (s1 & fmt & H1 & H).
  apply bind_inv_ok in H as (s2 & lvl & H2 & H).
  unfold lift in H. injection H as <- _.
  unfold load_attr, deref, bind, lift in H1, H2.
  destruct (st !! l) as [obj|] eqn:E; simpl in *; [|done].
  injection H1 as <- _.
  rewrite E in H2. simpl in H2. injection H2 as <- _. eauto.
Qed.

(** Lines 38-42, from an object whose [fdelay] is set. *)
Lemma FDelay_normalise_inv (st st' : gmap positive (gmap string pyval))
    l o1 v0 :
  st !! l = Some o1 ->
  o1 !! "fdelay" = Some v0 ->
  (let! v := load_attr l "fdelay" in
   (if is_list v then
      let! x := lift (getitem0 v) in store_attr l "fdelay" x
    else ret tt) ;;
   let! v := load_attr l "fdelay" in
   (if negb (is_int_or_float v) then
      let! x := lift (getitem0 v) in
      let! f := lift (py_float x) in
      store_attr l "fdelay" (VFloat f)
    else ret tt)) st = (st', Ok tt) ->
  exists v, is_int_or_float v = true /\ st' = <[l := <["fdelay" := v]> o1]> st.
Proof.
  intros Hl Hv0 H.
  erewrite bind_ok in H by (eapply load_attr_ok; stored).
  assert (Hmid : exists o2 v1,
            (o2 = o1 \/ o2 = <["fdelay" := v1]> o1) /\
            o2 !! "fdelay" = Some v1 /\
            (let! v := load_attr l "fdelay" in
             (if negb (is_int_or_float v) then
                let! x := lift (getitem0 v) in
                let! f := lift (py_float x) in
                store_attr l "fdelay" (VFloat f)
              else ret tt)) (<[l := o2]> st) = (st', Ok tt)).
  { destruct (is_list v0).
    - apply bind_inv_ok in H as (s1 & [] & H1 & H).
      apply bind_inv_ok in H1 as (s2 & x & E & H1).
      unfold lift in E. injection E as <- E.
      erewrite store_attr_run in H1 by stored. injection H1 as <-.
      exists (<["fdelay" := x]> o1), x. rewrite lookup_insert_eq. auto.
    - erewrite bind_ok in H by reflexivity.
      exists o1, v0. rewrite (insert_id st l o1) by done. auto. }
  destruct Hmid as (o2 & v1 & Ho2 & Hv1 & H2). clear H.
  erewrite bind_ok in H2 by (eapply load_attr_ok; stored).
  destruct (is_int_or_float v1) eqn:Hnum; simpl in H2.
  - unfold ret in H2. injection H2 as <-. exists v1. split; [done|].
    destruct Ho2 as [->| ->]; [|done].
    by rewrite (insert_id o1 "fdelay" v1).
  - apply bind_inv_ok in H2 as (s1 & x & E & H2).
    unfold lift in E. injection E as <- E.
    apply bind_inv_ok in H2 as (s2 & f & E2 & H2).
    unfold lift in E2. injection E2 as <- E2.
    erewrite store_attr_run in H2 by stored. injection H2 as <-.
    exists (VFloat f). split; [done|].
    rewrite insert_insert_eq.
    destruct Ho2 as [->| ->]; [done|]. by rewrite insert_insert_eq.
Qed.

(** What a constructor that returns has done to the store. *)
Lemma FDelay_init_sets_a_numeric_delay_aux
    (st st' : gmap positive (gmap string pyval)) l :
  FDelay.__init__ l st = (st', Ok tt) ->
  exists obj v,
    st !! l = Some obj /\ is_int_or_float v = true /\
    st' = <[l := <["fdelay" := v]> obj]> st.
Proof.
  unfold FDelay.__init__. intros H.
  apply bind_inv_ok in H as (s1 & [] & Hb & H).
  apply basicConfig_inv in Hb as (-> & obj & Hl).
  exists obj.
  erewrite bind_ok in H by (by apply has_attr_run).
  assert (Hmid : exists o1 v0,
            (o1 = obj \/ o1 = <["fdelay" := v0]> obj) /\
            o1 !! "fdelay" = Some v0 /\
            (let! v := load_attr l "fdelay" in
             (if is_list v then
                let! x := lift (getitem0 v) in store_attr l "fdelay" x
              else ret tt) ;;
             let! v := load_attr l "fdelay" in
             (if negb (is_int_or_float v) then
                let! x := lift (getitem0 v) in
                let! f := lift (py_float x) in
                store_attr l "fdelay" (VFloat f)
              else ret tt)) (<[l := o1]> st) = (st', Ok tt)).
  { destruct (obj !! "msg_fdelay") as [v|] eqn:Hm.
    - rewrite (hasattr_true _ _ _ Hm) in H.
      erewrite bind_ok in H.
      2:{ erewrite bind_ok by (eapply load_attr_ok; stored).
          apply store_attr_run; stored. }
      erewrite bind_ok in H by (apply has_attr_run; stored).
      erewrite hasattr_true in H by stored. simpl in H.
      erewrite bind_ok in H by reflexivity.
      exists (<["fdelay" := v]> obj), v. rewrite lookup_insert_eq. auto.
    - rewrite (hasattr_false _ _ Hm) in H.
      erewrite bind_ok in H by reflexivity.
      erewrite bind_ok in H by (by apply has_attr_run).
      destruct (obj !! "fdelay") as [v|] eqn:Hd.
      + rewrite (hasattr_true _ _ _ Hd) in H. simpl in H.
        erewrite bind_ok in H by reflexivity.
        exists obj, v. rewrite (insert_id st l obj) by done. auto.
      + rewrite (hasattr_false _ _ Hd) in H. simpl in H.
        erewrite bind_ok in H by (by apply store_attr_run).
        exists (<["fdelay" := VInt 60]> obj), (VInt 60).
        rewrite lookup_insert_eq. auto. }
  destruct Hmid as (o1 & v0 & Ho1 & Hv0 & H1).
  destruct (FDelay_normalise_inv (<[l := o1]> st) st' l o1 v0)
    as (v & Hnum & ->); [stored|done|done|].
  exists v. split_and!; try done.
  rewrite insert_insert_eq.
  destruct Ho1 as [->| ->]; [done|]. by rewrite insert_insert_eq.
Qed.

(** X6. Whenever the constructor of [FDelay] returns, the only thing it has
    changed in the store is the attribute [fdelay] of the option object it
    was given, and that attribute is an [int] or a [float]. *)
Theorem FDelay_init_sets_a_numeric_delay
    (st st' : gmap positive (gmap string pyval)) l :
  FDelay.__init__ l st = (st', Ok tt) ->
  exists obj v,
    st !! l = Some obj /\ is_int_or_float v = true /\
    st' = <[l := <["fdelay" := v]> obj]> st /\
    (forall l', l' <> l -> st' !! l' = st !! l') /\
    (forall a, a <> "fdelay" -> <["fdelay" := v]> obj !! a = obj !! a).
Proof.
  intros H.
  destruct (FDelay_init_sets_a_numeric_delay_aux st st' l H)
    as (obj & v & Hl & Hnum & ->).
  exists obj, v. split_and!; try done.
  - intros l' Hne. by rewrite lookup_insert_ne.
  - intros a Hne. by rewrite lookup_insert_ne.
Qed.


(** X8. The constructor needs the two logging options: when [logFormat] or
    [logLevel] is not an attribute of the options, it raises
    [AttributeError] and the store is as it was. *)
Theorem FDelay_init_needs_logging_options
    (st : gmap positive (gmap string pyval)) l obj :
  st !! l = Some obj ->
  obj !! "logFormat" = None \/ obj !! "logLevel" = None ->
  exists a, FDelay.__init__ l st = (st, Raise (AttributeError a)).
Proof.
  intros Hl Hmiss. unfold FDelay.__init__, basicConfig.
  destruct (obj !! "logFormat") as [fmt|] eqn:Hf.
  - destruct Hmiss as [?|Hv]; [done|]. exists "logLevel".
    erewrite bind_raise; [done|].
    erewrite bind_ok by (eapply load_attr_ok; stored).
    erewrite bind_raise; [done|].
    erewrite load_attr_run by done. unfold getattr. by rewrite Hv.
  - exists "logFormat".
    erewrite bind_raise; [done|].
    erewrite bind_raise; [done|].
    erewrite load_attr_run by done. unfold getattr. by rewrite Hf.
Qed.

(** X9. A stage whose constructor has returned is fit for [on_messages]: on
    every batch whose incoming messages are stored and are removals or have
    a publication time that [timestr2flt] accepts, the run ends without an
    exception. *)
Theorem constructed_FDelay_runs_on_messages
    (st st' : gmap positive (gmap string pyval)) l :
  FDelay.__init__ l st = (st', Ok tt) ->
  exists self_o,
    st' !! l = Some self_o /\
    forall timestr2flt world s,
      Forall (fun m => exists msg,
                msgs s !! m = Some msg /\
                (method (integrity msg) = "remove" \/
                 is_Some (timestr2flt (pubTime msg)))) (incoming (wl s)) ->
      snd (FDelay.on_messages timestr2flt world self_o s) = Ok tt.
Proof.
  intros H.
  destruct (FDelay_init_sets_a_numeric_delay_aux st st' l H)
    as (obj & v & Hl & Hnum & ->).
  exists (<["fdelay" := v]> obj). split; [by rewrite lookup_insert_eq|].
  intros ts world s Hall.
  assert (Hr : ready ts (<["fdelay" := v]> obj) s = true).
  { unfold ready. apply forallb_forall. intros m Hm.
    rewrite Forall_forall in Hall.
    destruct (Hall m) as (msg & Hs & Hok); [by apply list_elem_of_In|].
    unfold msg_ready, delay_set. rewrite Hs, lookup_insert_eq.
    destruct Hok as [->|Hp]; [done|].
    rewrite (bool_decide_eq_true_2 _ Hp).
    assert (is_number v = true) as -> by (by destruct v).
    apply orb_true_r. }
  destruct (on_messages_progress ts world _ s Hr) as (s' & ? & ? & -> & _).
  done.
Qed.

(** ** Tidy computations on the store *)

Lemma tidy_ret {A} l (a : A) : tidy_at l (ret a).
Proof. intros st. by split. Qed.

Lemma tidy_lift {A} l (r : res A) : tidy_at l (lift r).
Proof. intros st. by split. Qed.

Lemma tidy_has_attr l l0 a : tidy_at l (has_attr l0 a).
Proof.
  intros st. unfold has_attr, deref, bind, ret.
  by destruct (st !! l0); split.
Qed.

Lemma tidy_load_attr l l0 a : tidy_at l (load_attr l0 a).
Proof.
  intros st. unfold load_attr, deref, bind, lift.
  by destruct (st !! l0); split.
Qed.

Lemma tidy_store_attr l a v : tidy_at l (store_attr l a v).
Proof.
  intros st. unfold store_attr, deref, bind, modify.
  destruct (st !! l) as [obj|] eqn:E; simpl; [|by split].
  split.
  - intros l' Hne. by rewrite lookup_insert_ne.
  - intros l' Hs. destruct (decide (l = l')) as [<-|Hne].
    + rewrite lookup_insert_eq. eauto.
    + by rewrite lookup_insert_ne.
Qed.

Lemma tidy_bind {A B} l (c : M (gmap positive (gmap string pyval)) A)
    (k : A -> M (gmap positive (gmap string pyval)) B) :
  tidy_at l c -> (forall a, tidy_at l (k a)) -> tidy_at l (bind c k).
Proof.
  intros Hc Hk st. unfold bind. specialize (Hc st).
  destruct (c st) as [st1 [a|e]]; simpl in *; [|done].
  destruct Hc as [Hc1 Hc2]. destruct (Hk a st1) as [Hk1 Hk2].
  split.
  - intros l' Hne. by rewrite Hk1, Hc1.
  - intros l' Hs. auto.
Qed.

Lemma tidy_for_each {A} l (body : A -> M (gmap positive (gmap string pyval)) unit)
    xs :
  (forall x, tidy_at l (body x)) -> tidy_at l (for_each xs body).
Proof.
  intros Hb. induction xs as [|x xs IH]; simpl.
  - apply tidy_ret.
  - apply tidy_bind; auto.
Qed.

Ltac tidy :=
  repeat first
    [ apply tidy_ret | apply tidy_lift | apply tidy_has_attr
    | apply tidy_load_attr | apply tidy_store_attr
    | apply tidy_bind; [|intros ?]
    | match goal with |- tidy_at _ (if ?b then _ else _) => destruct b end
    | match goal with |- tidy_at _ (match ?v with _ => _ end) => destruct v end ].

Lemma basicConfig_tidy l : tidy_at l (basicConfig l).
Proof. unfold basicConfig. tidy. Qed.

Lemma FDelay_init_tidy l : tidy_at l (FDelay.__init__ l).
Proof. unfold FDelay.__init__. tidy; apply basicConfig_tidy. Qed.

Lemma sarra_modules_tidy : tidy_modules sarra_modules.
Proof.
  intros pkg module cname c. unfold sarra_modules.
  destruct (String.eqb pkg "sarra.flowcb").
  { intros [= <-]. destruct (String.eqb cname "FlowCB"); [|done].
    intros [= <-] opt. apply basicConfig_tidy. }
  destruct (String.eqb pkg "sarra.flowcb.msg.fdelay"); [|done].
  intros [= <-]. destruct (String.eqb cname "FDelay"); [|done].
  intros [= <-] opt. apply FDelay_init_tidy.
Qed.

(** ** [load_library], in general *)

Section LoadLibraryMore.

Variable import_module : string -> option (string -> option pyclass).

(** Option resolution changes none of the objects that exist: all it writes
    to is the copy. *)
Lemma resolve_options_keeps path options
    (st : gmap positive (gmap string pyval)) :
  forall l, is_Some (st !! l) ->
    fst (resolve_options path options st) !! l = st !! l.
Proof.
  intros l Hl. unfold resolve_options.
  destruct (st !! options) as [obj|] eqn:Ho.
  2:{ unfold has_attr, deref, bind. by rewrite Ho. }
  erewrite bind_ok by (by apply has_attr_run).
  destruct (hasattr obj "settings"); [|done].
  erewrite bind_ok by (by apply deepcopy_run).
  assert (Hne : l <> fresh (dom st)).
  { intros ->. rewrite fresh_not_stored in Hl. by destruct Hl. }
  match goal with
  | |- fst (?c ?s) !! _ = _ =>
      assert (Ht : tidy_at (fresh (dom st)) c)
  end.
  { tidy. apply tidy_for_each. intros x. unfold overlay_one. tidy. }
  destruct (Ht (<[fresh (dom st) := obj]> st)) as [Ht1 _].
  rewrite Ht1 by done. by rewrite lookup_insert_ne.
Qed.

Lemma load_library_steps path options st :
  load_library import_module path options st
  = match rsplit_dot path with
    | None => (st, Raise ValueError)
    | Some (pkg, cname) =>
        match import_module pkg with
        | None => (st, Raise (ImportError pkg))
        | Some module =>
            match module cname with
            | None => (st, Raise (AttributeError cname))
            | Some class_ =>
                (let! opt := resolve_options path options in
                 instantiate class_ opt) st
            end
        end
    end.
Proof.
  unfold load_library.
  destruct (rsplit_dot path) as [[pkg cname]|]; [|done].
  erewrite bind_ok by reflexivity. simpl.
  destruct (import_module pkg) as [module|]; [|done].
  erewrite bind_ok by reflexivity.
  destruct (module cname) as [class_|]; [|done].
  by erewrite bind_ok by reflexivity.
Qed.


(** X11. When the options have [settings] that hold nothing under the name
    of the stage, the stage is constructed with a new object that has
    exactly the attributes of the flow-wide options. *)
Theorem load_library_without_overlay path options
    (st : gmap positive (gmap string pyval)) pkg cname module class_ obj sd :
  rsplit_dot path = Some (pkg, cname) ->
  import_module pkg = Some module ->
  module cname = Some class_ ->
  st !! options = Some obj ->
  obj !! "settings" = Some (VDict sd) ->
  dict_get sd path = None ->
  load_library import_module path options st
  = instantiate class_ (fresh (dom st)) (<[fresh (dom st) := obj]> st).
Proof.
  intros Hp Hi Hc Ho Hs Hov.
  rewrite load_library_steps, Hp, Hi, Hc.
  erewrite bind_ok; [reflexivity|].
  unfold resolve_options.
  erewrite bind_ok by (by apply has_attr_run).
  rewrite (hasattr_true _ _ _ Hs).
  erewrite bind_ok by (by apply deepcopy_run).
  assert (Hne : options <> fresh (dom st)).
  { intros E. pose proof (fresh_not_stored st) as F. congruence. }
  erewrite bind_ok by (eapply load_attr_ok; [by rewrite lookup_insert_ne|done]).
  erewrite bind_ok.
  2:{ unfold lift, py_contains. rewrite Hov. reflexivity. }
  rewrite bool_decide_eq_false_2 by (by intros [? ?]).
  by erewrite bind_ok by reflexivity.
Qed.

(** Resolving with [settings] and constructing with a tidy constructor
    keeps what exists. *)
Lemma construct_keeps_existing_options path options class_
    (st : gmap positive (gmap string pyval)) obj :
  tidy_class class_ ->
  st !! options = Some obj ->
  is_Some (obj !! "settings") ->
  forall l, is_Some (st !! l) ->
    fst ((let! opt := resolve_options path options in
          instantiate class_ opt) st) !! l = st !! l.
Proof.
  intros Htidy Ho Hs l Hl.
  pose proof (resolve_options_keeps path options st l Hl) as Hk.
  unfold bind.
  destruct (resolve_options path options st) as [st1 [opt|e]] eqn:Hres;
    [|done].
  assert (opt = fresh (dom st)) as ->.
  { eapply resolve_options_fresh; eauto. }
  assert (Hne : l <> fresh (dom st)).
  { intros ->. rewrite fresh_not_stored in Hl. by destruct Hl. }
  simpl in Hk. rewrite <- Hk.
  assert (Ht : tidy_at (fresh (dom st)) (instantiate class_ (fresh (dom st)))).
  { unfold instantiate. tidy. apply Htidy. }
  by apply Ht.
Qed.

(** X12. With [settings] among the options and tidy constructors, loading a
    stage changes none of the option objects that exist, whether it succeeds
    or raises: the flow-wide options and the options of the stages loaded
    before are as they were. *)
Theorem load_library_keeps_existing_options path options
    (st : gmap positive (gmap string pyval)) obj :
  tidy_modules import_module ->
  st !! options = Some obj ->
  is_Some (obj !! "settings") ->
  forall l, is_Some (st !! l) ->
    fst (load_library import_module path options st) !! l = st !! l.
Proof.
  intros Htidy Ho Hs l Hl. rewrite load_library_steps.
  destruct (rsplit_dot path) as [[pkg cname]|]; [|done].
  destruct (import_module pkg) as [module|] eqn:Hi; [|done].
  destruct (module cname) as [class_|] eqn:Hc; [|done].
  eapply construct_keeps_existing_options; eauto.
Qed.

(** X13. Two stages loaded one after the other from the same options, with
    [settings] among them and tidy constructors, are constructed with two
    different option objects, neither of which is the caller's, and the
    caller's options are as they were. *)
Theorem sibling_stages_have_their_own_options path1 path2 options
    (st st1 st2 : gmap positive (gmap string pyval)) obj inst1 inst2 :
  tidy_modules import_module ->
  st !! options = Some obj ->
  is_Some (obj !! "settings") ->
  load_library import_module path1 options st = (st1, Ok inst1) ->
  load_library import_module path2 options st1 = (st2, Ok inst2) ->
  o inst1 <> o inst2 /\ o inst1 <> options /\ o inst2 <> options /\
  st2 !! options = Some obj.
Proof.
  intros Htidy Ho Hs H1 H2.
  assert (Hkeep : forall path (sx sy : gmap positive (gmap string pyval)) inst,
            sx !! options = Some obj ->
            load_library import_module path options sx = (sy, Ok inst) ->
            sy !! options = Some obj).
  { intros path sx sy inst Hx Hload. rewrite load_library_steps in Hload.
    destruct (rsplit_dot path) as [[pkg cname]|]; [|done].
    destruct (import_module pkg) as [module|] eqn:Hi; [|done].
    destruct (module cname) as [class_|] eqn:Hc; [|done].
    rewrite <- Hx. change sy with (fst (sy, @Ok instance inst)).
    rewrite <- Hload.
    eapply construct_keeps_existing_options; eauto. }
  assert (Hk1 : st1 !! options = Some obj) by eauto.
  assert (Hk2 : st2 !! options = Some obj) by eauto.
  destruct (load_library_inv _ _ _ _ _ _ H1) as (sa & Hres1).
  destruct (load_library_inv _ _ _ _ _ _ H2) as (sb & Hres2).
  pose proof (resolve_options_fresh _ _ _ _ _ _ Ho Hs Hres1) as E1.
  pose proof (resolve_options_fresh _ _ _ _ _ _ Hk1 Hs Hres2) as E2.
  assert (Hin : is_Some (st1 !! o inst1)).
  { revert H1. rewrite load_library_steps.
    destruct (rsplit_dot path1) as [[pkg cname]|]; [|done].
    destruct (import_module pkg) as [module|] eqn:Hi; [|done].
    destruct (module cname) as [class_|] eqn:Hc; [|done].
    unfold bind at 1. rewrite Hres1. intros H1.
    assert (Ht : tidy_at (o inst1) (instantiate class_ (o inst1))).
    { unfold instantiate. tidy. eapply Htidy; eauto. }
    destruct (Ht sa) as [_ Ht2]. rewrite H1 in Ht2. apply Ht2.
    (* the copy is stored when the constructor starts *)
    revert Hres1. unfold resolve_options.
    erewrite bind_ok by (by apply has_attr_run).
    destruct Hs as [v Hs]. rewrite (hasattr_true _ _ _ Hs).
    erewrite bind_ok by (by apply deepcopy_run).
    intros Hres1. rewrite E1.
    match type of Hres1 with
    | ?c ?s = _ => assert (Ht' : tidy_at (fresh (dom st)) c)
    end.
    { tidy. apply tidy_for_each. intros x. unfold overlay_one. tidy. }
    destruct (Ht' (<[fresh (dom st) := obj]> st)) as [_ Ht3].
    rewrite Hres1 in Ht3. apply Ht3. rewrite lookup_insert_eq. eauto. }
  split_and!; try done.
  - rewrite E2. intros E. rewrite E in Hin.
    rewrite fresh_not_stored in Hin. by destruct Hin.
  - rewrite E1. intros E. pose proof (fresh_not_stored st). congruence.
  - rewrite E2. intros E. pose proof (fresh_not_stored st1). congruence.
Qed.

End LoadLibraryMore.

(** ** [ACCEL_WGET.on_start] *)

(** [if not hasattr(l, a): l.a = d], then the rest. *)
Lemma default_attr_run {A} l a d (k : M (gmap positive (gmap string pyval)) A)
    (st : gmap positive (gmap string pyval)) oc :
  (let! h := has_attr l a in
   (if negb h then store_attr l a d else ret tt) ;; k) (<[l := oc]> st)
  = k (<[l := set_default a d oc]> st).
Proof.
  unfold set_default.
  erewrite bind_ok by (apply has_attr_run; stored).
  destruct (hasattr oc a); simpl.
  - by erewrite bind_ok by reflexivity.
  - erewrite bind_ok by (apply store_attr_run; stored).
    by rewrite insert_insert_eq.
Qed.

Lemma set_default_lookup (o : gmap string pyval) a d b :
  set_default a d o !! b
  = if decide (b = a) then Some (default d (o !! a)) else o !! b.
Proof.
  unfold set_default. case_decide as Hb; [subst b|].
  - destruct (o !! a) as [v|] eqn:E.
    + by erewrite hasattr_true.
    + rewrite hasattr_false by done. by rewrite lookup_insert_eq.
  - destruct (hasattr o a); [done|]. by rewrite lookup_insert_ne.
Qed.

Lemma set_default_id (o : gmap string pyval) a d v :
  o !! a = Some v -> set_default a d o = o.
Proof. intros H. unfold set_default. by erewrite hasattr_true. Qed.

Lemma accel_defaults_lookup scheme obj a :
  accel_defaults scheme obj !! a
  = if decide (a = "accel_wget_protocol")
    then Some (default scheme (obj !! "accel_wget_protocol"))
    else if decide (a = "accel_wget_threshold")
    then Some (default (VStr "1M") (obj !! "accel_wget_threshold"))
    else if decide (a = "accel_wget_command")
    then Some (default (VStr "/usr/bin/wget") (obj !! "accel_wget_command"))
    else obj !! a.
Proof.
  unfold accel_defaults. rewrite !set_default_lookup.
  repeat case_decide; subst; try done.
Qed.

Lemma accel_defaults_id scheme obj c t p :
  obj !! "accel_wget_command" = Some c ->
  obj !! "accel_wget_threshold" = Some t ->
  obj !! "accel_wget_protocol" = Some p ->
  accel_defaults scheme obj = obj.
Proof.
  intros Hc Ht Hp. unfold accel_defaults.
  by erewrite (set_default_id obj), (set_default_id obj), (set_default_id obj).
Qed.

Lemma accel_option_spec a :
  accel_option a = false <->
  a <> "accel_wget_command" /\ a <> "accel_wget_threshold"
  /\ a <> "accel_wget_protocol".
Proof.
  unfold accel_option.
  destruct (String.eqb_spec a "accel_wget_command");
    destruct (String.eqb_spec a "accel_wget_threshold");
    destruct (String.eqb_spec a "accel_wget_protocol"); simpl;
    split; try done; try (by intros (? & ? & ?)).
Qed.

Section OnStart.

Variable chunksize_from_str : string -> res Z.

Local Abbreviation start := (ACCEL_WGET.on_start chunksize_from_str).

Lemma on_start_run l scheme (st : gmap positive (gmap string pyval)) obj :
  st !! l = Some obj ->
  start l scheme st
  = match accel_defaults scheme obj !! "accel_wget_threshold" with
    | Some (VStr text) =>
        match chunksize_from_str text with
        | Ok n =>
            (<[l := <["accel_wget_threshold" := VInt n]>
                      (accel_defaults scheme obj)]> st,
             Ok true)
        | Raise e => (<[l := accel_defaults scheme obj]> st, Raise e)
        end
    | Some _ => (<[l := accel_defaults scheme obj]> st, Ok true)
    | None =>
        (<[l := accel_defaults scheme obj]> st,
         Raise (AttributeError "accel_wget_threshold"))
    end.
Proof.
  intros Hl. rewrite <- (insert_id st l obj Hl) at 1.
  unfold ACCEL_WGET.on_start.
  rewrite !default_attr_run. fold (accel_defaults scheme obj).
  unfold bind at 1. erewrite load_attr_run by stored. unfold getattr.
  destruct (accel_defaults scheme obj !! "accel_wget_threshold") as [t|];
    simpl; [|done].
  destruct t; try (by erewrite bind_ok by reflexivity).
  unfold bind at 1. unfold bind at 1, lift at 1.
  match goal with
  | |- context [chunksize_from_str ?x] =>
      destruct (chunksize_from_str x) as [n|e]; [|done]
  end.
  erewrite store_attr_run by stored. by rewrite insert_insert_eq.
Qed.

(** What a successful [on_start] leaves behind, in one place. *)
Lemma on_start_ok_inv l scheme (st st' : gmap positive (gmap string pyval))
    obj b :
  st !! l = Some obj ->
  start l scheme st = (st', Ok b) ->
  b = true /\
  exists t,
    st' = <[l := <["accel_wget_threshold" := t]> (accel_defaults scheme obj)]> st
    /\ match default (VStr "1M") (obj !! "accel_wget_threshold") with
       | VStr text => exists n, chunksize_from_str text = Ok n /\ t = VInt n
       | v => t = v
       end.
Proof.
  intros Hl. rewrite (on_start_run _ _ _ _ Hl).
  pose proof (accel_defaults_lookup scheme obj "accel_wget_threshold") as Hthr.
  simpl in Hthr. rewrite Hthr.
  destruct (default (VStr "1M") (obj !! "accel_wget_threshold")) eqn:Ed;
    try (intros [= <- <-]; split; [done|]; eexists; split; [|done];
         by rewrite (insert_id (accel_defaults scheme obj)) by congruence).
  match goal with
  | |- context [chunksize_from_str ?x] =>
      destruct (chunksize_from_str x) as [n|e] eqn:Ec; [|done]
  end.
  intros [= <- <-]. split; [done|]. exists (VInt n). eauto.
Qed.

(** X14. After a successful [on_start] the options object holds a command,
    a protocol and a threshold: a configured command or protocol is kept and
    a missing one is ['/usr/bin/wget'] or the scheme of the stage; the
    threshold is the configured one (or ['1M']) with text replaced by the
    number [chunksize_from_str] makes of it; every other option, and every
    other object, is as before; the method returns [True]. *)
Theorem on_start_fills_the_gaps l scheme
    (st st' : gmap positive (gmap string pyval)) obj b :
  st !! l = Some obj ->
  start l scheme st = (st', Ok b) ->
  b = true /\
  exists obj',
    st' = <[l := obj']> st /\
    obj' !! "accel_wget_command"
      = Some (default (VStr "/usr/bin/wget") (obj !! "accel_wget_command")) /\
    obj' !! "accel_wget_protocol"
      = Some (default scheme (obj !! "accel_wget_protocol")) /\
    (exists t,
       obj' !! "accel_wget_threshold" = Some t /\
       match default (VStr "1M") (obj !! "accel_wget_threshold") with
       | VStr text => exists n, chunksize_from_str text = Ok n /\ t = VInt n
       | v => t = v
       end) /\
    (forall a, accel_option a = false -> obj' !! a = obj !! a).
Proof.
  intros Hl Hrun.
  destruct (on_start_ok_inv _ _ _ _ _ _ Hl Hrun) as (-> & t & -> & Ht).
  split; [done|]. eexists. split; [done|]. split_and!.
  - rewrite lookup_insert_ne by done. by rewrite accel_defaults_lookup.
  - rewrite lookup_insert_ne by done. by rewrite accel_defaults_lookup.
  - exists t. split; [by rewrite lookup_insert_eq|].
    exact Ht.
  - intros a (H1 & H2 & H3)%accel_option_spec.
    rewrite lookup_insert_ne by done. rewrite accel_defaults_lookup.
    by repeat case_decide.
Qed.

(** X15. [on_start] raises only when the threshold, as configured or the
    default ['1M'], is text that [chunksize_from_str] rejects; the exception
    is that of [chunksize_from_str], and the defaults for the command and
    the protocol have been written by then. *)
Theorem on_start_fails_on_bad_threshold_only l scheme
    (st st' : gmap positive (gmap string pyval)) obj e :
  st !! l = Some obj ->
  start l scheme st = (st', Raise e) ->
  exists text obj',
    default (VStr "1M") (obj !! "accel_wget_threshold") = VStr text /\
    chunksize_from_str text = Raise e /\
    st' = <[l := obj']> st /\
    obj' !! "accel_wget_threshold" = Some (VStr text) /\
    obj' !! "accel_wget_command"
      = Some (default (VStr "/usr/bin/wget") (obj !! "accel_wget_command")) /\
    obj' !! "accel_wget_protocol"
      = Some (default scheme (obj !! "accel_wget_protocol")).
Proof.
  intros Hl. rewrite (on_start_run _ _ _ _ Hl).
  pose proof (accel_defaults_lookup scheme obj "accel_wget_threshold") as Hthr.
  simpl in Hthr. rewrite Hthr.
  destruct (default (VStr "1M") (obj !! "accel_wget_threshold")) eqn:Ed;
    try done.
  match goal with
  | |- context [chunksize_from_str ?x] =>
      destruct (chunksize_from_str x) as [n|e'] eqn:Ec; [done|];
      intros [= <- <-]; exists x, (accel_defaults scheme obj)
  end.
  split_and!; try done; by rewrite accel_defaults_lookup.
Qed.

(** X16. [on_start] is idempotent: once it has succeeded, running it again,
    with whatever scheme, succeeds and changes nothing. *)
Theorem on_start_twice l scheme scheme'
    (st st' : gmap positive (gmap string pyval)) obj b :
  st !! l = Some obj ->
  start l scheme st = (st', Ok b) ->
  start l scheme' st' = (st', Ok true).
Proof.
  intros Hl Hrun.
  destruct (on_start_ok_inv _ _ _ _ _ _ Hl Hrun) as (-> & t & -> & Ht).
  set (obj' := <["accel_wget_threshold" := t]> (accel_defaults scheme obj)).
  assert (Hid : accel_defaults scheme' obj' = obj').
  { eapply accel_defaults_id; unfold obj'.
    - rewrite lookup_insert_ne by done. by rewrite accel_defaults_lookup.
    - by rewrite lookup_insert_eq.
    - rewrite lookup_insert_ne by done. by rewrite accel_defaults_lookup. }
  erewrite on_start_run by apply lookup_insert_eq.
  rewrite Hid. unfold obj' at 1. rewrite lookup_insert_eq.
  rewrite insert_insert_eq.
  destruct (default (VStr "1M") (obj !! "accel_wget_threshold"));
    try (by subst t).
  by destruct Ht as (n & _ & ->).
Qed.

End OnStart.

(** ** [ACCEL_WGET.on_messages] *)

Lemma accel_on_messages_body_ok self_o m s :
  snd (ACCEL_WGET.on_messages_body self_o m s) = Ok tt
  <-> accel_msg_ready self_o (msgs s) m = true.
Proof.
  unfold ACCEL_WGET.on_messages_body, accel_msg_ready, get_msg, bind, lift,
    ret. simpl.
  destruct (msgs s !! m) as [msg|]; simpl; [|done].
  destruct (_ || _); [done|]. simpl.
  rewrite get_size_declared. unfold getattr.
  destruct (declared_size msg) as [sz|]; simpl; [|done].
  destruct (self_o !! "accel_wget_threshold") as [[]|]; simpl; done.
Qed.

Lemma accel_on_messages_ok_iff self_o s :
  snd (ACCEL_WGET.on_messages self_o s) = Ok tt
  <-> forallb (accel_msg_ready self_o (msgs s)) (incoming (wl s)) = true.
Proof.
  unfold ACCEL_WGET.on_messages, gets, bind at 1.
  assert (Hkeep : forall m s',
            fst (ACCEL_WGET.on_messages_body self_o m s') = s').
  { intros m s'.
    unfold ACCEL_WGET.on_messages_body, get_msg, bind, lift, ret. simpl.
    destruct (msgs s' !! m) as [msg|]; simpl; [|done].
    destruct (_ || _); [done|].
    destruct (ACCEL_WGET.get_size msg); [|done].
    destruct (getattr self_o "accel_wget_threshold"); done. }
  generalize (incoming (wl s)). intros ms. revert s.
  induction ms as [|m ms IH]; intros s; simpl; [done|].
  unfold bind. pose proof (Hkeep m s) as H1.
  pose proof (accel_on_messages_body_ok self_o m s) as H2.
  destruct (ACCEL_WGET.on_messages_body self_o m s) as [s1 [[]|e]];
    simpl in *; subst s1.
  - rewrite (proj1 H2 eq_refl). apply IH.
  - split; [done|]. intros [Hg _]%andb_prop. by apply H2 in Hg.
Qed.

(** X17. [ACCEL_WGET.on_messages] never changes the worklist, a message or
    the clock, and it ends normally exactly when every incoming message is a
    link or a removal, or declares a size while the threshold option holds a
    number. *)
Theorem accel_on_messages_reads_only self_o s :
  fst (ACCEL_WGET.on_messages self_o s) = s /\
  (snd (ACCEL_WGET.on_messages self_o s) = Ok tt
   <-> forallb (accel_msg_ready self_o (msgs s)) (incoming (wl s)) = true).
Proof.
  split; [apply accel_on_messages_keeps_state|apply accel_on_messages_ok_iff].
Qed.

Section StartThenRun.

Variable chunksize_from_str : string -> res Z.

(** X18. [on_start] makes the stage fit for [on_messages]: when the
    configured threshold is missing, text or a number and [on_start]
    succeeds, [on_messages] with the resulting options ends normally on
    every batch whose messages are stored and are links, removals or declare
    a size. *)
Theorem on_start_prepares_on_messages l scheme
    (st st' : gmap positive (gmap string pyval)) obj obj' b s :
  st !! l = Some obj ->
  match obj !! "accel_wget_threshold" with
  | Some (VStr _) | None => True
  | Some v => is_number v = true
  end ->
  ACCEL_WGET.on_start chunksize_from_str l scheme st = (st', Ok b) ->
  st' !! l = Some obj' ->
  (forall m, m ∈ incoming (wl s) ->
     exists msg, msgs s !! m = Some msg /\
       (method (integrity msg) = "link" \/ method (integrity msg) = "remove"
        \/ is_Some (declared_size msg))) ->
  ACCEL_WGET.on_messages obj' s = (s, Ok tt).
Proof.
  intros Hl Hconf Hrun Hl' Hbatch.
  destruct (on_start_ok_inv _ _ _ _ _ _ _ Hl Hrun) as (_ & t & -> & Ht).
  rewrite lookup_insert_eq in Hl'. injection Hl' as <-.
  assert (Hnum : is_number t = true).
  { destruct (obj !! "accel_wget_threshold") as [v|]; simpl in Ht.
    - destruct v; try (by subst t); try done.
      by destruct Ht as (n & _ & ->).
    - by destruct Ht as (n & _ & ->). }
  apply injective_projections; simpl;
    [apply accel_on_messages_keeps_state|].
  apply accel_on_messages_ok_iff. apply forallb_forall. intros m Hm%list_elem_of_In.
  destruct (Hbatch m Hm) as (msg & Hmsg & Hkind).
  unfold accel_msg_ready. rewrite Hmsg, lookup_insert_eq, Hnum.
  destruct Hkind as [->| [->|Hsz]]; [done|done|].
  rewrite bool_decide_eq_true_2 by done. by rewrite andb_true_r, orb_true_r.
Qed.

End StartThenRun.

(** ** [ACCEL_WGET.check_results] and [do_get] *)

Lemma span_digits_all_digits s : all_digits (fst (span_digits s)) = true.
Proof.
  induction s as [|c s IH]; simpl; [done|].
  destruct (is_digit c) eqn:E; [|done].
  destruct (span_digits s) as [d r]. simpl in *. by rewrite E, IH.
Qed.

Lemma progress_at_digits s d :
  progress_at s = Some d -> all_digits d = true /\ d <> EmptyString.
Proof.
  unfold progress_at. destruct s as [|c s]; [done|].
  destruct (Ascii.eqb_spec c "[") as [->|Hc].
  2:{ destruct c as [[] [] [] [] [] [] [] []]; try done. }
  pose proof (span_digits_all_digits s) as Hd.
  destruct (span_digits s) as [d1 r1]. simpl in Hd.
  destruct r1 as [|c1 r2]; [done|].
  destruct (Ascii.eqb_spec c1 "/") as [->|Hc1].
  2:{ destruct c1 as [[] [] [] [] [] [] [] []]; try done. }
  destruct (span_digits r2) as [d2 r3].
  destruct r3 as [|c3 r4]; [done|].
  destruct (Ascii.eqb_spec c3 "]") as [->|Hc3].
  2:{ destruct c3 as [[] [] [] [] [] [] [] []]; try done. }
  destruct (String.eqb_spec d1 EmptyString) as [->|Hne]; [done|].
  simpl. destruct (String.eqb d2 EmptyString); [done|].
  by intros [= <-].
Qed.

Lemma re_match_progress_cons c s found :
  re_match_progress (String c s) found
  = (let found' := match progress_at (String c s) with
                   | Some d => Some d
                   | None => found
                   end in
     if is_newline c then found' else re_match_progress s found').
Proof. reflexivity. Qed.

Lemma re_match_progress_digits s found d :
  re_match_progress s found = Some d ->
  found = Some d \/ (all_digits d = true /\ d <> EmptyString).
Proof.
  revert found. induction s as [|c s IH]; intros found.
  - change (re_match_progress EmptyString found) with found. auto.
  - rewrite re_match_progress_cons. cbv zeta.
    destruct (progress_at (String c s)) as [d'|] eqn:E.
    + destruct (is_newline c).
      * intros [= <-]. right. by eapply progress_at_digits.
      * intros [[= <-]|H]%IH; [|by right].
        right. by eapply progress_at_digits.
    + destruct (is_newline c); [auto|]. apply IH.
Qed.

Lemma check_results_run (self_o : gmap string pyval) p msg fct filepath tr :
  ACCEL_WGET.check_results self_o p msg fct filepath tr
  = (tr ++ report_for (ACCEL_WGET.reportback self_o) (returncode p),
     match stderr p with
     | None => Raise (AttributeError "read")
     | Some err =>
         match re_match_progress err None with
         | Some size => Ok (VStr size)
         | None =>
             match fct filepath with
             | Ok size => Ok (VInt size)
             | Raise (FileNotFoundError _) => Ok (VInt 0)
             | Raise e => Raise e
             end
         end
     end).
Proof.
  unfold ACCEL_WGET.check_results, report_for.
  destruct (returncode p =? 0), (ACCEL_WGET.reportback self_o); simpl;
    unfold bind, emit, modify, ret, lift, raise; simpl; rewrite ?app_nil_r;
    (destruct (stderr p) as [err|]; simpl; [|done]);
    (destruct (re_match_progress err None); [done|]);
    destruct (fct filepath) as [?|[]]; done.
Qed.

Section AccelMore.

Variable urljoin : string -> string -> string.
Variable Path_str : string -> string -> string.
Variable host : Host.
Variable self_o : gmap string pyval.

Local Abbreviation get := (ACCEL_WGET.do_get urljoin Path_str host self_o).
Local Abbreviation check := (ACCEL_WGET.check_results self_o).

(** X19. Whatever the process, [check_results] makes its report first and
    makes nothing else: report 201 after exit status 0 and report 499 after
    any other, and only when [reportback] is set and true. The report is
    made even when the call then raises. *)
Theorem check_results_reports_first p msg fct filepath tr :
  fst (check p msg fct filepath tr)
  = tr ++ report_for (ACCEL_WGET.reportback self_o) (returncode p).
Proof. by rewrite check_results_run. Qed.

(** X20. The value [check_results] returns does not depend on the exit
    status of the process, on the options or on the message: a failed
    command yields a size like a successful one. *)
Theorem check_results_ignores_exit_status p p' msg msg' fct filepath tr tr'
    (other_o : gmap string pyval) :
  stderr p = stderr p' ->
  snd (check p msg fct filepath tr)
  = snd (ACCEL_WGET.check_results other_o p' msg' fct filepath tr').
Proof. intros H. by rewrite !check_results_run, H. Qed.

(** X21. A value returned by [check_results] is either text, a non-empty
    run of decimal digits taken from the error output, or an integer, the
    size of the file or 0: the two branches do not return the same type. *)
Theorem check_results_returns_text_or_int p msg fct filepath tr tr' v :
  check p msg fct filepath tr = (tr', Ok v) ->
  (exists size, v = VStr size /\ all_digits size = true
                /\ size <> EmptyString) \/
  (exists n, v = VInt n /\ (fct filepath = Ok n \/ n = 0)).
Proof.
  rewrite check_results_run. intros [= _ H].
  destruct (stderr p) as [err|]; [|done].
  destruct (re_match_progress err None) as [size|] eqn:E.
  - injection H as <-. left. exists size. split; [done|].
    by destruct (re_match_progress_digits _ _ _ E).
  - right. destruct (fct filepath) as [n|[]]; try done;
      injection H as <-; eauto.
Qed.

(** X22. Of the exceptions of [fct], [check_results] absorbs
    [FileNotFoundError] only, returning 0; any other one reaches the
    caller. *)
Theorem check_results_absorbs_missing_file_only p err msg fct filepath tr e :
  stderr p = Some err ->
  re_match_progress err None = None ->
  fct filepath = Raise e ->
  snd (check p msg fct filepath tr)
  = match e with FileNotFoundError _ => Ok (VInt 0) | _ => Raise e end.
Proof.
  intros Herr Hno Hf. rewrite check_results_run, Herr, Hno, Hf. simpl.
  by destruct e.
Qed.

(** X23. [do_get] fails before it touches anything when the message
    declares no size, when there is no threshold option, or when the
    threshold is not a number: no transfer is started and no report is
    made. *)
Theorem do_get_fails_before_acting msg rf lf ro lo len tr :
  declared_size msg = None
  \/ match self_o !! "accel_wget_threshold" with
     | Some v => is_number v = false
     | None => True
     end ->
  exists e, get msg rf lf ro lo len tr = (tr, Raise e).
Proof.
  intros H. unfold ACCEL_WGET.do_get. rewrite get_size_declared.
  unfold bind, lift, getattr.
  destruct (declared_size msg) as [sz|]; simpl; [|eauto].
  destruct H as [H|H]; [done|].
  destruct (self_o !! "accel_wget_threshold") as [v|]; simpl; [|eauto].
  destruct v; simpl in *; try done; eauto.
Qed.

(** X24. At or above the threshold, [do_get] changes directory, starts the
    command with the address of the file as last argument, makes the report
    for its exit status, and then raises: [Popen] was given no pipe, so
    [p.stderr] is [None] and has no [read]. No size is ever returned on
    this path. *)
Theorem accelerated_do_get_runs_then_raises msg rf lf ro lo len tr sz thr
    command :
  declared_size msg = Some sz ->
  self_o !! "accel_wget_threshold" = Some (VInt thr) ->
  thr <= sz ->
  self_o !! "accel_wget_command" = Some (VStr command) ->
  let cmd := str_split command ++ [urljoin (baseUrl msg) (relPath msg)] in
  get msg rf lf ro lo len tr
  = (tr ++ [EvChdir (new_dir msg); EvPopen cmd]
        ++ report_for (ACCEL_WGET.reportback self_o) (exit_status host cmd),
     Raise (AttributeError "read")).
Proof.
  intros Hsz Hthr Hge Hcmd cmd.
  erewrite do_get_accelerated by eauto.
  rewrite check_results_run. simpl. by rewrite <- app_assoc.
Qed.

End AccelMore.

(** ** [Report.__init__] *)

(** X25. When the flow has a [load] list, [Report.__init__] appends the
    message gatherer to it, then the message poster if the options have a
    [post_exchange], keeps what was listed before and every other plugin
    list, and makes the flow a [Report]. *)
Theorem report_init_extends_load self load :
  Report.plugins self !! "load" = Some load ->
  Report.__init__ self
  = (Report.Flow "Report"
       (<["load" := report_load self load]> (Report.plugins self))
       (Report.flow_o self),
     Ok tt).
Proof.
  intros Hload. unfold Report.__init__, report_load.
  unfold bind at 1. unfold Report.load_append at 1. rewrite Hload.
  unfold bind at 1, gets at 1. simpl.
  destruct (hasattr (Report.flow_o self) "post_exchange").
  - unfold bind, Report.load_append, Report.assimilate, modify. simpl.
    rewrite lookup_insert_eq. simpl.
    by rewrite insert_insert_eq, <- app_assoc.
  - unfold bind, ret, Report.assimilate, modify. reflexivity.
Qed.

(** X26. Without a [load] list [Report.__init__] raises [KeyError] at once:
    the flow is left as it was and is not made a [Report]. *)
Theorem report_init_needs_load self :
  Report.plugins self !! "load" = None ->
  Report.__init__ self = (self, Raise (KeyError "load")).
Proof.
  intros Hload. unfold Report.__init__, bind, Report.load_append.
  by rewrite Hload.
Qed.

(** ** The properties above on the examples *)

Lemma FDelay_init_sets_a_numeric_delay_witness :
  exists obj v,
    ({[ 1%positive := ex_plain_options ]} : gmap positive (gmap string pyval))
      !! 1%positive = Some obj /\
    is_int_or_float v = true /\
    FDelay.__init__ 1%positive {[ 1%positive := ex_plain_options ]}
    = (<[1%positive := <["fdelay" := v]> obj]>
         {[ 1%positive := ex_plain_options ]}, Ok tt).
Proof.
  pose (r := FDelay.__init__ 1%positive {[ 1%positive := ex_plain_options ]}).
  assert (Hrun : r = (fst r, Ok tt)) by (vm_compute; reflexivity).
  destruct (FDelay_init_sets_a_numeric_delay
              {[ 1%positive := ex_plain_options ]} (fst r) 1%positive Hrun)
    as (obj & v & Hl & Hv & Hst & _).
  exists obj, v. split_and!; [exact Hl|exact Hv|].
  rewrite <- Hst. exact Hrun.
Defined.


Lemma FDelay_init_needs_logging_options_witness :
  exists a,
    FDelay.__init__ 1%positive {[ 1%positive := {[ "fdelay" := VInt 5 ]} ]}
    = ({[ 1%positive := {[ "fdelay" := VInt 5 ]} ]}, Raise (AttributeError a)).
Proof.
  apply (FDelay_init_needs_logging_options
           {[ 1%positive := {[ "fdelay" := VInt 5 ]} ]} 1%positive
           {[ "fdelay" := VInt 5 ]}); [reflexivity|left; reflexivity].
Defined.

Lemma constructed_FDelay_runs_on_messages_witness :
  exists self_o,
    fst (FDelay.__init__ 1%positive {[ 1%positive := ex_plain_options ]})
      !! 1%positive = Some self_o /\
    snd (FDelay.on_messages utc_timestr2flt ex_world self_o ex_state) = Ok tt.
Proof.
  pose (r := FDelay.__init__ 1%positive {[ 1%positive := ex_plain_options ]}).
  assert (Hrun : r = (fst r, Ok tt)) by (vm_compute; reflexivity).
  destruct (constructed_FDelay_runs_on_messages
              {[ 1%positive := ex_plain_options ]} (fst r) 1%positive Hrun)
    as (self_o & Hl & Hfit).
  exists self_o. split; [exact Hl|].
  apply Hfit.
  repeat (apply Forall_cons; split;
          [eexists; split;
           [vm_compute; reflexivity
           |first [left; reflexivity
                  |right; simpl;
                   match goal with
                   | |- is_Some ?x =>
                       let E := fresh in
                       destruct x eqn:E;
                       [by eexists|vm_compute in E; discriminate]
                   end]]|]).
  constructor.
Defined.

Lemma load_library_without_overlay_witness :
  dict_get
    [("sarra.flowcb.msg.fdelay.FDelay",
      VDict [("fdelay", VInt 5); ("batch", VInt 1)]);
     ("sarra.flowcb.FlowCB", VDict [("batch", VInt 7)])]
    "sarra.plugin.gather.Gather" = None /\
  load_library ex_any_module "sarra.plugin.gather.Gather" 1%positive
    {[ 1%positive := ex_flow_options ]}
  = instantiate (PyClass "FlowCB" FlowCB.__init__)
      (fresh (dom ({[ 1%positive := ex_flow_options ]}
                     : gmap positive (gmap string pyval))))
      (<[fresh (dom ({[ 1%positive := ex_flow_options ]}
                       : gmap positive (gmap string pyval)))
         := ex_flow_options]> {[ 1%positive := ex_flow_options ]}).
Proof.
  split; [reflexivity|].
  eapply (load_library_without_overlay ex_any_module
            "sarra.plugin.gather.Gather" 1%positive
            {[ 1%positive := ex_flow_options ]} "sarra.plugin.gather" "Gather");
    reflexivity.
Defined.

Lemma load_library_keeps_existing_options_witness :
  fst (load_library sarra_modules "sarra.flowcb.msg.fdelay.FDelay" 1%positive
         {[ 1%positive := ex_flow_options ]}) !! 1%positive
  = Some ex_flow_options.
Proof.
  etrans;
    [apply (load_library_keeps_existing_options sarra_modules
              "sarra.flowcb.msg.fdelay.FDelay" 1%positive
              {[ 1%positive := ex_flow_options ]} ex_flow_options
              sarra_modules_tidy);
     [reflexivity|by eexists|by eexists]
    |reflexivity].
Defined.

Lemma sibling_stages_have_their_own_options_witness :
  exists st1 st2 inst1 inst2,
    load_library sarra_modules "sarra.flowcb.msg.fdelay.FDelay" 1%positive
      {[ 1%positive := ex_flow_options ]} = (st1, Ok inst1) /\
    load_library sarra_modules "sarra.flowcb.FlowCB" 1%positive st1
    = (st2, Ok inst2) /\
    o inst1 <> o inst2 /\ o inst1 <> 1%positive /\ o inst2 <> 1%positive /\
    st2 !! 1%positive = Some ex_flow_options.
Proof.
  pose (r1 := load_library sarra_modules "sarra.flowcb.msg.fdelay.FDelay"
                1%positive {[ 1%positive := ex_flow_options ]}).
  assert (Hrun1 : r1 = (fst r1, Ok (Instance "FDelay" 2%positive)))
    by (vm_compute; reflexivity).
  pose (r2 := load_library sarra_modules "sarra.flowcb.FlowCB" 1%positive
                (fst r1)).
  assert (Hrun2 : r2 = (fst r2, Ok (Instance "FlowCB" 3%positive)))
    by (vm_compute; reflexivity).
  exists (fst r1), (fst r2), (Instance "FDelay" 2%positive),
    (Instance "FlowCB" 3%positive).
  split; [exact Hrun1|]. split; [exact Hrun2|].
  apply (sibling_stages_have_their_own_options sarra_modules
           "sarra.flowcb.msg.fdelay.FDelay" "sarra.flowcb.FlowCB" 1%positive
           {[ 1%positive := ex_flow_options ]} (fst r1) (fst r2)
           ex_flow_options _ _ sarra_modules_tidy);
    [reflexivity|by eexists|exact Hrun1|exact Hrun2].
Defined.

Lemma on_start_fills_the_gaps_witness :
  exists st' obj',
    ACCEL_WGET.on_start ex_chunksize 1%positive (VStr "https")
      {[ 1%positive := {[ "accel_wget_command" := VStr "/opt/bin/wget -q" ]} ]}
    = (st', Ok true) /\
    st' = <[1%positive := obj']>
            {[ 1%positive := {[ "accel_wget_command" := VStr "/opt/bin/wget -q" ]} ]} /\
    obj' !! "accel_wget_command" = Some (VStr "/opt/bin/wget -q") /\
    obj' !! "accel_wget_protocol" = Some (VStr "https") /\
    obj' !! "accel_wget_threshold" = Some (VInt 1048576).
Proof.
  pose (st := {[ 1%positive := {[ "accel_wget_command" := VStr "/opt/bin/wget -q" ]} ]}
              : gmap positive (gmap string pyval)).
  pose (r := ACCEL_WGET.on_start ex_chunksize 1%positive (VStr "https") st).
  assert (Hrun : r = (fst r, Ok true)) by (vm_compute; reflexivity).
  destruct (on_start_fills_the_gaps ex_chunksize 1%positive (VStr "https") st
              (fst r) {[ "accel_wget_command" := VStr "/opt/bin/wget -q" ]}
              true eq_refl Hrun)
    as (_ & obj' & Hst & Hc & Hp & (t & Ht & n & Hn & ->) & _).
  exists (fst r), obj'. split_and!; [exact Hrun|exact Hst|exact Hc|exact Hp|].
  rewrite Ht. vm_compute in Hn. by injection Hn as <-.
Defined.

Lemma on_start_fails_on_bad_threshold_only_witness :
  exists st' text,
    ACCEL_WGET.on_start ex_chunksize 1%positive (VStr "http")
      {[ 1%positive := {[ "accel_wget_threshold" := VStr "a lot" ]} ]}
    = (st', Raise ValueError) /\
    ex_chunksize text = Raise ValueError /\
    text = "a lot".
Proof.
  pose (st := {[ 1%positive := {[ "accel_wget_threshold" := VStr "a lot" ]} ]}
              : gmap positive (gmap string pyval)).
  pose (r := ACCEL_WGET.on_start ex_chunksize 1%positive (VStr "http") st).
  assert (Hrun : r = (fst r, Raise ValueError)) by (vm_compute; reflexivity).
  destruct (on_start_fails_on_bad_threshold_only ex_chunksize 1%positive
              (VStr "http") st (fst r)
              {[ "accel_wget_threshold" := VStr "a lot" ]} ValueError
              eq_refl Hrun)
    as (text & obj' & Htext & Hc & _).
  exists (fst r), text. split_and!; [exact Hrun|exact Hc|].
  by injection Htext as <-.
Defined.

Lemma on_start_twice_witness :
  exists st',
    ACCEL_WGET.on_start ex_chunksize 1%positive (VStr "http")
      {[ 1%positive := ex_plain_options ]} = (st', Ok true) /\
    ACCEL_WGET.on_start ex_chunksize 1%positive (VStr "sftp") st'
    = (st', Ok true).
Proof.
  pose (r := ACCEL_WGET.on_start ex_chunksize 1%positive (VStr "http")
               {[ 1%positive := ex_plain_options ]}).
  assert (Hrun : r = (fst r, Ok true)) by (vm_compute; reflexivity).
  exists (fst r). split; [exact Hrun|].
  exact (on_start_twice ex_chunksize 1%positive (VStr "http") (VStr "sftp")
           {[ 1%positive := ex_plain_options ]} (fst r) ex_plain_options true
           eq_refl Hrun).
Defined.

Lemma on_start_prepares_on_messages_witness :
  exists st' obj',
    ACCEL_WGET.on_start ex_chunksize 1%positive (VStr "http")
      {[ 1%positive := ex_plain_options ]} = (st', Ok true) /\
    st' !! 1%positive = Some obj' /\
    ACCEL_WGET.on_messages obj' ex_accel_state = (ex_accel_state, Ok tt).
Proof.
  pose (r := ACCEL_WGET.on_start ex_chunksize 1%positive (VStr "http")
               {[ 1%positive := ex_plain_options ]}).
  assert (Hrun : r = (fst r, Ok true)) by (vm_compute; reflexivity).
  assert (Hl0 : ({[ 1%positive := ex_plain_options ]}
                   : gmap positive (gmap string pyval)) !! 1%positive
                = Some ex_plain_options) by reflexivity.
  destruct (on_start_ok_inv ex_chunksize 1%positive (VStr "http")
              {[ 1%positive := ex_plain_options ]} (fst r) ex_plain_options
              true Hl0 Hrun) as (_ & t & Hst & _).
  assert (Hl : fst r !! 1%positive
               = Some (<["accel_wget_threshold" := t]>
                         (accel_defaults (VStr "http") ex_plain_options)))
    by (rewrite Hst; apply lookup_insert_eq).
  eexists (fst r), _. split; [exact Hrun|]. split; [exact Hl|].
  apply (on_start_prepares_on_messages ex_chunksize 1%positive (VStr "http")
           {[ 1%positive := ex_plain_options ]} (fst r) ex_plain_options _
           true ex_accel_state Hl0 I Hrun Hl).
  intros m Hm. apply list_elem_of_In in Hm. simpl in Hm.
  destruct Hm as [<-|[<-|[]]].
  - exists ex_small_message. split; [reflexivity|]. right. right. by eexists.
  - exists ex_large_message. split; [reflexivity|]. right. right. by eexists.
Defined.

Lemma check_results_ignores_exit_status_witness :
  snd (ACCEL_WGET.check_results ex_accel_options
         {| returncode := 0; stderr := Some "saved [2000000/2000000]" |}
         ex_large_message (os_stat_size ex_host) "/tmp/large.grib" [])
  = snd (ACCEL_WGET.check_results ∅
           {| returncode := 8; stderr := Some "saved [2000000/2000000]" |}
           ex_small_message (os_stat_size ex_host) "/tmp/large.grib"
           [EvChdir "/tmp"]).
Proof.
  apply (check_results_ignores_exit_status ex_accel_options
           {| returncode := 0; stderr := Some "saved [2000000/2000000]" |}
           {| returncode := 8; stderr := Some "saved [2000000/2000000]" |}).
  reflexivity.
Defined.

Lemma check_results_returns_text_or_int_witness :
  exists tr' v,
    ACCEL_WGET.check_results ex_accel_options
      {| returncode := 0; stderr := Some "saved [2000000/2000000]" |}
      ex_large_message (os_stat_size ex_host) "/tmp/large.grib" []
    = (tr', Ok v) /\
    ((exists size, v = VStr size /\ all_digits size = true
                   /\ size <> EmptyString) \/
     (exists n, v = VInt n
                /\ (os_stat_size ex_host "/tmp/large.grib" = Ok n \/ n = 0))).
Proof.
  pose (r := ACCEL_WGET.check_results ex_accel_options
               {| returncode := 0; stderr := Some "saved [2000000/2000000]" |}
               ex_large_message (os_stat_size ex_host) "/tmp/large.grib" []).
  assert (Hrun : r = (fst r, Ok (VStr "2000000")))
    by (vm_compute; reflexivity).
  exists (fst r), (VStr "2000000"). split; [exact Hrun|].
  exact (check_results_returns_text_or_int ex_accel_options
           {| returncode := 0; stderr := Some "saved [2000000/2000000]" |}
           ex_large_message (os_stat_size ex_host) "/tmp/large.grib" []
           (fst r) (VStr "2000000") Hrun).
Defined.

Lemma check_results_absorbs_missing_file_only_witness :
  snd (ACCEL_WGET.check_results ex_accel_options
         {| returncode := 8; stderr := Some "connection refused" |}
         ex_large_message (os_stat_size ex_host) "/tmp/large.grib" [])
  = Ok (VInt 0).
Proof.
  apply (check_results_absorbs_missing_file_only ex_accel_options
           {| returncode := 8; stderr := Some "connection refused" |}
           "connection refused" ex_large_message (os_stat_size ex_host)
           "/tmp/large.grib" [] (FileNotFoundError "/tmp/large.grib"));
    reflexivity.
Defined.

Lemma do_get_fails_before_acting_witness :
  exists e,
    ACCEL_WGET.do_get ex_urljoin ex_path_str ex_host
      {[ "accel_wget_threshold" := VStr "1M" ]} ex_large_message
      "obs/large.grib" "/tmp/large.grib" 0 0 2000000 []
    = ([], Raise e).
Proof.
  apply (do_get_fails_before_acting ex_urljoin ex_path_str ex_host
           {[ "accel_wget_threshold" := VStr "1M" ]}).
  right. reflexivity.
Defined.

Lemma accelerated_do_get_runs_then_raises_witness :
  ACCEL_WGET.do_get ex_urljoin ex_path_str ex_host ex_accel_options
    ex_large_message "obs/large.grib" "/tmp/large.grib" 0 0 2000000
    [EvChdir "/home"]
  = ([EvChdir "/home"]
       ++ [EvChdir "/tmp";
           EvPopen (str_split "/usr/bin/wget"
                      ++ [ex_urljoin "http://example.org/" "obs/large.grib"])]
       ++ report_for (ACCEL_WGET.reportback ex_accel_options)
            (exit_status ex_host
               (str_split "/usr/bin/wget"
                  ++ [ex_urljoin "http://example.org/" "obs/large.grib"])),
     Raise (AttributeError "read")).
Proof.
  apply (accelerated_do_get_runs_then_raises ex_urljoin ex_path_str ex_host
           ex_accel_options ex_large_message "obs/large.grib"
           "/tmp/large.grib" 0 0 2000000 [EvChdir "/home"] 2000000 1048576
           "/usr/bin/wget"); [reflexivity|reflexivity|lia|reflexivity].
Defined.

Lemma report_init_extends_load_witness :
  report_load ex_flow ["sarra.plugin.retry.Retry"]
  = ["sarra.plugin.retry.Retry"; "sarra.plugin.gather.message.Message";
     "sarra.plugin.post.message.Message"] /\
  Report.__init__ ex_flow
  = (Report.Flow "Report"
       (<["load" := report_load ex_flow ["sarra.plugin.retry.Retry"]]>
          (Report.plugins ex_flow))
       (Report.flow_o ex_flow), Ok tt).
Proof.
  split; [vm_compute; reflexivity|].
  apply (report_init_extends_load ex_flow ["sarra.plugin.retry.Retry"]).
  reflexivity.
Defined.

Lemma report_init_needs_load_witness :
  Report.__init__ ex_bare_flow = (ex_bare_flow, Raise (KeyError "load")).
Proof. apply (report_init_needs_load ex_bare_flow). reflexivity. Defined.
